(** * Smart waste management backend: threshold evaluation and alert lifecycle

    A shallow embedding of the alert service, the notification service, the
    websocket service and the device, collection and alert controllers of the
    Express/Supabase backend, followed by the properties of the threshold
    engine and of the alert lifecycle.  The device controller is the current
    one (requests carry [bin_code] and [fill_level]).

    Conventions of the embedding.
    - A JavaScript number that arrives in a JSON body or comes back in a
      database row is a rational [Q]; the comparisons [>=], [<=], [<], [>] of
      the source are the exact comparisons on [Q].
    - A field of a request body that the source tests with [!x], [!= null]
      or [x || null] is an [option]: these tests do not tell [null] from
      [undefined], and both are [None].  The two fields that the source
      compares with [undefined] itself, [fill_level] of a reading and
      [resolved] of an alert patch, are [Sent] values, which keep a key that
      was not sent apart from a key that holds [null].
    - UUIDs are natural numbers handed out by the store; timestamps are
      natural numbers read from the clock of the environment.
    - The hosted database is a record of tables (lists of rows, oldest first).
      Every database call of the source can be refused by the store, whether
      the source looks at the outcome or not; which calls are refused is
      decided by the environment ([fails]).  A refused call leaves the tables
      as they were.  A call is answered with an error object and never
      throws, as with the Supabase client.  The [catch] block of a handler is
      reached when the request has no body and the destructuring of
      [req.body] throws; the submit-reading handler takes the body as the
      framework hands it over, [None] for a request without one, and the other
      handlers are given the body of a request that has one.
    - Handlers are state-passing functions over [World].  Besides the tables
      the world records the socket events, the calls of the channel senders
      and the calls of [sendNotification], so that properties can speak about
      them. *)

From Stdlib Require Import List String Bool Arith Lia QArith Lqa.
Import ListNotations.
Local Open Scope list_scope.
Local Open Scope Q_scope.

(* ================================================================= *)
(** ** Enumerations of the schema *)

Inductive AlertType := fill_warning | fill_critical | gas_detected | maintenance_needed.
Inductive Severity := low | medium | high | critical.
Inductive Channel := email | sms | push | other_channel.
Inductive Status := pending | sent | failed.
Inductive Role := admin | collector | operator.

(** The sensor whose threshold produced an alert. *)
Inductive Field := Fill | Gas | Temperature | Battery.

(** The message of an alert is a template string with the measured value
    interpolated; the embedding keeps the template and the value apart. *)
Inductive Message :=
| msg_fill_flash (v : Q)          (* Bin is v% full - FLASH ALERT! Immediate collection required. *)
| msg_fill_critical (v : Q)       (* Bin is v% full - approaching capacity. *)
| msg_fill_warning (v : Q)        (* Bin is v% full - schedule collection soon. *)
| msg_gas_critical (v : Q)        (* Dangerous gas level detected: v ppm. *)
| msg_gas_warning (v : Q)         (* Elevated gas level detected: v ppm. *)
| msg_temperature_critical (v : Q)(* Extreme temperature detected: v C. *)
| msg_temperature_warning (v : Q) (* High temperature detected: v C. *)
| msg_battery_critical (v : Q)    (* Battery critically low: v%. *)
| msg_battery_warning (v : Q).    (* Battery low: v%. *)

Definition field_of_message (m : Message) : Field :=
  match m with
  | msg_fill_flash _ | msg_fill_critical _ | msg_fill_warning _ => Fill
  | msg_gas_critical _ | msg_gas_warning _ => Gas
  | msg_temperature_critical _ | msg_temperature_warning _ => Temperature
  | msg_battery_critical _ | msg_battery_warning _ => Battery
  end.

Definition Field_eqb (f g : Field) : bool :=
  match f, g with
  | Fill, Fill | Gas, Gas | Temperature, Temperature | Battery, Battery => true
  | _, _ => false
  end.

Definition Severity_eqb (s t : Severity) : bool :=
  match s, t with
  | low, low | medium, medium | high, high | critical, critical => true
  | _, _ => false
  end.

Definition Role_eqb (r s : Role) : bool :=
  match r, s with
  | admin, admin | collector, collector | operator, operator => true
  | _, _ => false
  end.

(* ================================================================= *)
(** ** Rows of the six tables *)

Module Bin.
Record t := mk {
  id : nat;
  bin_code : string;
  fill_level : Q;
  last_emptied : option nat }.
End Bin.

Module Reading.
Record t := mk {
  id : nat;
  bin_id : nat;
  fill_level : Q;
  waste_type : option string;
  weight : option Q;
  gas_level : option Q;
  temperature : option Q;
  moisture : option Q;
  battery_level : option Q }.
End Reading.

(** The object built by [buildAlert], ready for insertion. *)
Module NewAlert.
Record t := mk {
  bin_id : nat;
  alert_type : AlertType;
  severity : Severity;
  message : Message;
  resolved : bool }.
End NewAlert.

Module Alert.
Record t := mk {
  id : nat;
  bin_id : nat;
  alert_type : AlertType;
  severity : Severity;
  message : Message;
  resolved : option bool;    (* BOOLEAN DEFAULT FALSE, nullable *)
  resolved_at : option nat;
  resolved_by : option nat }.
End Alert.

Module User.
Record t := mk {
  id : nat;
  email : string;            (* TEXT NOT NULL *)
  phone : option string;     (* nullable *)
  role : Role;
  is_active : bool }.
End User.

Module CollectionLog.
Record t := mk {
  id : nat;
  bin_id : nat;
  collected_by : option nat;
  fill_level_before : Q;
  fill_level_after : Q;
  notes : option string }.
End CollectionLog.

Module Notification.
Record t := mk {
  id : nat;
  user_id : nat;
  alert_id : option nat;
  channel : Channel;
  message : Message;
  status : Status;
  sent_at : option nat }.
End Notification.

(* ================================================================= *)
(** ** JavaScript comparisons and truthiness *)

Definition geq (x y : Q) : bool := Qle_bool y x.          (* x >= y *)
Definition leq (x y : Q) : bool := Qle_bool x y.          (* x <= y *)
Definition lt (x y : Q) : bool := negb (Qle_bool y x).    (* x < y *)
Definition gt (x y : Q) : bool := negb (Qle_bool x y).    (* x > y *)

(** [!!v] for a number or null: zero and null are falsy. *)
Definition truthy_number (v : option Q) : bool :=
  match v with
  | Some q => negb (Qeq_bool q 0)
  | None => false
  end.

(** [!!v] for a string or null: the empty string and null are falsy. *)
Definition truthy_string (v : option string) : bool :=
  match v with
  | Some EmptyString => false
  | Some _ => true
  | None => false
  end.

(** [v || null] *)
Definition number_or_null (v : option Q) : option Q :=
  if truthy_number v then v else None.

Definition string_or_null (v : option string) : option string :=
  if truthy_string v then v else None.

(** A field of a JSON body: the key was not sent, holds [null], or holds a
    value. *)
Inductive Sent (A : Type) : Type :=
| Undefined
| Null
| Value (a : A).
Arguments Undefined {A}.
Arguments Null {A}.
Arguments Value {A} a.

(** A JSON value other than null. *)
Inductive Json :=
| Boolean (b : bool)
| Number (q : Q)
| Text (s : string)
| Compound.                  (* an array or an object *)

(** [!!v] for a field that may hold any JSON value: [undefined], [null],
    [false], 0 and the empty string are falsy. *)
Definition truthy (v : Sent Json) : bool :=
  match v with
  | Undefined | Null => false
  | Value (Boolean b) => b
  | Value (Number q) => negb (Qeq_bool q 0)
  | Value (Text s) => truthy_string (Some s)
  | Value Compound => true
  end.

(** [!!v] for a boolean column, which may hold null. *)
Definition truthy_boolean (v : option bool) : bool :=
  match v with
  | Some b => b
  | None => false
  end.

(** [where column = b] on a boolean column: never true of a null. *)
Definition column_eqb (v : option bool) (b : bool) : bool :=
  match v with
  | Some x => Bool.eqb x b
  | None => false
  end.

(* ================================================================= *)
(** ** The world: tables, socket events, transport calls *)

Inductive Event :=
| sensor_reading (r : Reading.t)                 (* io.emit('sensor_reading', reading) *)
| bin_update_reading (room : nat) (r : Reading.t)(* io.to(bin_<id>).emit('bin_update', reading) *)
| new_alert (a : Alert.t)                        (* io.emit('new_alert', alert) *)
| bin_alert (room : nat) (a : Alert.t)           (* io.to(bin_<id>).emit('bin_alert', alert) *)
| bin_status_update (b : Bin.t)                  (* io.emit('bin_status_update', bin) *)
| bin_update (room : nat) (b : Bin.t).           (* io.to(bin_<id>).emit('bin_update', bin) *)

(** The argument object of [sendNotification]. *)
Record NotificationRequest := mkRequest {
  req_user_id : nat;
  req_alert_id : option nat;
  req_channel : Channel;
  req_message : Message }.

(** One call of a channel sender ([sendEmail], [sendSMS], [sendPush]). *)
Record Delivery := mkDelivery {
  via : Channel;
  recipient : nat;
  body : Message }.

Record World := mkWorld {
  bins : list Bin.t;
  sensor_readings : list Reading.t;
  alerts : list Alert.t;
  users : list User.t;
  collection_logs : list CollectionLog.t;
  notifications : list Notification.t;
  next_id : nat;                        (* next identifier the store hands out *)
  emitted : list Event;                 (* socket events, oldest first *)
  transported : list Delivery;          (* channel sender calls, oldest first *)
  dispatched : list NotificationRequest (* calls of sendNotification, oldest first *) }.

(** The database calls the source makes. *)
Inductive Op :=
| select_bin_by_code (code : string)
| insert_sensor_reading
| update_bin_fill (bin : nat)
| insert_alerts
| select_users (alert : nat)
| insert_notification (user : nat) (alert : option nat) (ch : Channel)
| update_notification (notification : nat)
| select_bin_by_id (bin : nat)
| insert_collection_log
| update_bin_emptied (bin : nat)
| update_alerts_resolved (bin : nat)
| update_alert (alert : nat).

Record Env := mkEnv {
  now : nat;             (* new Date() *)
  io : bool;             (* the Socket.IO instance has been initialised *)
  fails : Op -> bool;    (* the store answers this call with an error *)
  reads_boolean : Json -> option bool
                         (* how the store reads a value other than a boolean
                            that is written to a boolean column; [None]: it
                            rejects the value *) }.

Definition M (A : Type) : Type := World -> A * World.

Definition ret {A} (a : A) : M A := fun w => (a, w).

Definition bind {A B} (m : M A) (f : A -> M B) : M B :=
  fun w => let (a, w') := m w in f a w'.

Declare Scope handler_scope.
Delimit Scope handler_scope with handler.
Notation "x <- m ;; k" := (bind m (fun x => k))
  (at level 100, m at next level, right associativity) : handler_scope.
Notation "m ;;; k" := (bind m (fun _ => k))
  (at level 100, right associativity) : handler_scope.
Local Open Scope handler_scope.

(** [for (const x of xs) { await body(x) }] *)
Fixpoint forEach {A} (xs : list A) (body : A -> M unit) : M unit :=
  match xs with
  | [] => ret tt
  | x :: rest => body x ;;; forEach rest body
  end.

Definition when (b : bool) (m : M unit) : M unit := if b then m else ret tt.

(** Field updates of the world. *)
Definition with_bins (f : list Bin.t -> list Bin.t) (w : World) : World :=
  mkWorld (f (bins w)) (sensor_readings w) (alerts w) (users w) (collection_logs w)
    (notifications w) (next_id w) (emitted w) (transported w) (dispatched w).

Definition with_sensor_readings (f : list Reading.t -> list Reading.t) (w : World) : World :=
  mkWorld (bins w) (f (sensor_readings w)) (alerts w) (users w) (collection_logs w)
    (notifications w) (next_id w) (emitted w) (transported w) (dispatched w).

Definition with_alerts (f : list Alert.t -> list Alert.t) (w : World) : World :=
  mkWorld (bins w) (sensor_readings w) (f (alerts w)) (users w) (collection_logs w)
    (notifications w) (next_id w) (emitted w) (transported w) (dispatched w).

Definition with_collection_logs (f : list CollectionLog.t -> list CollectionLog.t) (w : World) : World :=
  mkWorld (bins w) (sensor_readings w) (alerts w) (users w) (f (collection_logs w))
    (notifications w) (next_id w) (emitted w) (transported w) (dispatched w).

Definition with_notifications (f : list Notification.t -> list Notification.t) (w : World) : World :=
  mkWorld (bins w) (sensor_readings w) (alerts w) (users w) (collection_logs w)
    (f (notifications w)) (next_id w) (emitted w) (transported w) (dispatched w).

Definition with_next_id (n : nat) (w : World) : World :=
  mkWorld (bins w) (sensor_readings w) (alerts w) (users w) (collection_logs w)
    (notifications w) n (emitted w) (transported w) (dispatched w).

Definition with_emitted (f : list Event -> list Event) (w : World) : World :=
  mkWorld (bins w) (sensor_readings w) (alerts w) (users w) (collection_logs w)
    (notifications w) (next_id w) (f (emitted w)) (transported w) (dispatched w).

Definition with_transported (f : list Delivery -> list Delivery) (w : World) : World :=
  mkWorld (bins w) (sensor_readings w) (alerts w) (users w) (collection_logs w)
    (notifications w) (next_id w) (emitted w) (f (transported w)) (dispatched w).

Definition with_dispatched (f : list NotificationRequest -> list NotificationRequest) (w : World) : World :=
  mkWorld (bins w) (sensor_readings w) (alerts w) (users w) (collection_logs w)
    (notifications w) (next_id w) (emitted w) (transported w) (f (dispatched w)).

(* ================================================================= *)
(** ** Request bodies and responses *)

(** Body of POST /api/devices/data. *)
Module SensorBody.
Record t := mk {
  bin_code : option string;
  fill_level : Sent Q;       (* compared with undefined; the ultrasonic sensor
                                reports a number *)
  waste_type : option string;
  weight : option Q;
  gas_level : option Q;
  temperature : option Q;
  moisture : option Q;
  battery_level : option Q }.
End SensorBody.

(** Body of POST /api/collections. *)
Module CollectionBody.
Record t := mk {
  bin_id : option nat;
  collected_by : option nat;
  notes : option string }.
End CollectionBody.

(** Body of PATCH /api/alerts/:id. *)
Module ResolveBody.
Record t := mk {
  resolved : Sent Json;      (* compared with undefined, then tested for truth *)
  resolved_by : option nat }.
End ResolveBody.

Inductive ErrorText :=
| bin_code_and_fill_level_required
| fill_level_out_of_range
| bin_with_code_not_found (code : string)
| bin_id_required
| bin_not_found
| alert_not_found_or_update_failed
| store_error_message
| internal_server_error.

Inductive Response :=
| json_error (status : nat) (error : ErrorText)
| json_reading (status : nat) (reading : Reading.t) (alerts_generated : nat)
| json_collection (status : nat) (collection : CollectionLog.t)
| json_alert (status : nat) (alert : Alert.t).

Definition status_code (r : Response) : nat :=
  match r with
  | json_error s _ | json_reading s _ _ | json_collection s _ | json_alert s _ => s
  end.

(** The error taxonomy of the specification. *)
Definition InvalidInput : nat := 400%nat.
Definition NotFound : nat := 404%nat.
Definition StorageError : nat := 500%nat.

(** The object passed to [update] by [resolveAlert]: only the keys that
    were assigned are sent; [resolved] is sent as the body had it. *)
Record AlertPatch := mkPatch {
  patch_resolved : Sent Json;
  patch_resolved_at : option (option nat);
  patch_resolved_by : option nat }.

(** A value the store cannot write to a boolean column. *)
Definition rejected (reads : Json -> option bool) (v : Sent Json) : bool :=
  match v with
  | Undefined | Null | Value (Boolean _) => false
  | Value s => match reads s with Some _ => false | None => true end
  end.

(** What a boolean column holds after the payload has been written to it. *)
Definition written (reads : Json -> option bool) (v : Sent Json) (old : option bool)
  : option bool :=
  match v with
  | Undefined => old
  | Null => None
  | Value (Boolean b) => Some b
  | Value s => reads s
  end.

Definition apply_patch (reads : Json -> option bool) (p : AlertPatch) (a : Alert.t)
  : Alert.t :=
  Alert.mk (Alert.id a) (Alert.bin_id a) (Alert.alert_type a) (Alert.severity a)
    (Alert.message a)
    (written reads (patch_resolved p) (Alert.resolved a))
    (match patch_resolved_at p with Some t => t | None => Alert.resolved_at a end)
    (match patch_resolved_by p with Some u => Some u | None => Alert.resolved_by a end).

(* ================================================================= *)
(** ** Configurable thresholds (alertService.js) *)

Module THRESHOLDS.
Module fill.
Definition warning : Q := 50.
Definition critical : Q := 80.
Definition flash : Q := 95.
End fill.
Module gas.
Definition warning : Q := 200.
Definition critical : Q := 500.
End gas.
Module temperature.
Definition warning : Q := 45.
Definition critical : Q := 60.
End temperature.
Module battery.
Definition warning : Q := 20.
Definition critical : Q := 10.
End battery.
End THRESHOLDS.

(* ================================================================= *)
(** ** Store operations *)

(** [.single()]: exactly one row, otherwise an error. *)
Definition single {A} (rows : list A) : option A :=
  match rows with
  | [x] => Some x
  | _ => None
  end.

(** The row the store creates for an inserted alert object: the columns
    [resolved_at] and [resolved_by] are nullable and have no default. *)
Definition alert_row (id : nat) (a : NewAlert.t) : Alert.t :=
  Alert.mk id (NewAlert.bin_id a) (NewAlert.alert_type a) (NewAlert.severity a)
    (NewAlert.message a) (Some (NewAlert.resolved a)) None None.

Fixpoint alert_rows (first : nat) (l : list NewAlert.t) : list Alert.t :=
  match l with
  | [] => []
  | a :: rest => alert_row first a :: alert_rows (S first) rest
  end.

(** [update alerts set resolved = true, resolved_at = t, resolved_by = u
     where bin_id = b and resolved = false] *)
Definition resolve_open_alerts (b : nat) (t : nat) (u : option nat)
  (rows : list Alert.t) : list Alert.t :=
  map (fun a =>
         if Nat.eqb (Alert.bin_id a) b && column_eqb (Alert.resolved a) false
         then Alert.mk (Alert.id a) (Alert.bin_id a) (Alert.alert_type a)
                (Alert.severity a) (Alert.message a) (Some true) (Some t) u
         else a) rows.

(** [update bins set fill_level = 0, last_emptied = t where id = b] *)
Definition empty_bin (b : nat) (t : nat) (rows : list Bin.t) : list Bin.t :=
  map (fun r =>
         if Nat.eqb (Bin.id r) b
         then Bin.mk (Bin.id r) (Bin.bin_code r) 0 (Some t)
         else r) rows.

(** [update bins set fill_level = v where id = b] *)
Definition set_bin_fill (b : nat) (v : Q) (rows : list Bin.t) : list Bin.t :=
  map (fun r =>
         if Nat.eqb (Bin.id r) b
         then Bin.mk (Bin.id r) (Bin.bin_code r) v (Bin.last_emptied r)
         else r) rows.

(** [update notifications set status = s, sent_at = t where id = n] *)
Definition set_notification_status (n : nat) (s : Status) (t : option nat)
  (rows : list Notification.t) : list Notification.t :=
  map (fun r =>
         if Nat.eqb (Notification.id r) n
         then Notification.mk (Notification.id r) (Notification.user_id r)
                (Notification.alert_id r) (Notification.channel r)
                (Notification.message r) s t
         else r) rows.

Section Backend.

Variable env : Env.

Definition db_select_bin_by_code (code : string) : M (option nat) :=
  fun w =>
    if fails env (select_bin_by_code code) then (None, w)
    else (option_map Bin.id
            (single (filter (fun b => String.eqb (Bin.bin_code b) code) (bins w))), w).

Definition db_select_bin_by_id (id : nat) : M (option Bin.t) :=
  fun w =>
    if fails env (select_bin_by_id id) then (None, w)
    else (single (filter (fun b => Nat.eqb (Bin.id b) id) (bins w)), w).

Definition db_insert_sensor_reading (row : nat -> Reading.t) : M (option Reading.t) :=
  fun w =>
    if fails env insert_sensor_reading then (None, w)
    else let r := row (next_id w) in
         (Some r, with_next_id (S (next_id w))
                    (with_sensor_readings (fun t => t ++ [r]) w)).

Definition db_update_bin_fill (id : nat) (v : Q) : M unit :=
  fun w =>
    if fails env (update_bin_fill id) then (tt, w)
    else (tt, with_bins (set_bin_fill id v) w).

(** One multi-row insert: every row is stored, or none is. *)
Definition db_insert_alerts (l : list NewAlert.t) : M (option (list Alert.t)) :=
  fun w =>
    if fails env insert_alerts then (None, w)
    else let rows := alert_rows (next_id w) l in
         (Some rows, with_next_id (next_id w + List.length l)
                       (with_alerts (fun t => t ++ rows) w)).

(** [select id, email, phone, role from users
     where role in ('admin', 'collector') and is_active = true] *)
Definition db_select_users (alert : nat) : M (option (list User.t)) :=
  fun w =>
    if fails env (select_users alert) then (None, w)
    else (Some (filter (fun u =>
                          (Role_eqb (User.role u) admin || Role_eqb (User.role u) collector)
                          && Bool.eqb (User.is_active u) true) (users w)), w).

Definition db_insert_notification (r : NotificationRequest) (s : Status)
  : M (option Notification.t) :=
  fun w =>
    if fails env (insert_notification (req_user_id r) (req_alert_id r) (req_channel r))
    then (None, w)
    else let n := Notification.mk (next_id w) (req_user_id r) (req_alert_id r)
                    (req_channel r) (req_message r) s None in
         (Some n, with_next_id (S (next_id w))
                    (with_notifications (fun t => t ++ [n]) w)).

Definition db_update_notification (id : nat) (s : Status) (t : option nat) : M unit :=
  fun w =>
    if fails env (update_notification id) then (tt, w)
    else (tt, with_notifications (set_notification_status id s t) w).

Definition db_insert_collection_log (row : nat -> CollectionLog.t)
  : M (option CollectionLog.t) :=
  fun w =>
    if fails env insert_collection_log then (None, w)
    else let l := row (next_id w) in
         (Some l, with_next_id (S (next_id w))
                    (with_collection_logs (fun t => t ++ [l]) w)).

Definition db_update_bin_emptied (id : nat) (t : nat) : M (option Bin.t) :=
  fun w =>
    if fails env (update_bin_emptied id) then (None, w)
    else let w' := with_bins (empty_bin id t) w in
         (single (filter (fun b => Nat.eqb (Bin.id b) id) (bins w')), w').

Definition db_update_alerts_resolved (bin : nat) (t : nat) (u : option nat) : M unit :=
  fun w =>
    if fails env (update_alerts_resolved bin) then (tt, w)
    else (tt, with_alerts (resolve_open_alerts bin t u) w).

(** An update whose payload holds a value that the store cannot read as a
    boolean is answered with an error, like one the store refuses. *)
Definition db_update_alert (id : nat) (p : AlertPatch) : M (option Alert.t) :=
  fun w =>
    if fails env (update_alert id) || rejected (reads_boolean env) (patch_resolved p)
    then (None, w)
    else let w' := with_alerts
                     (map (fun a => if Nat.eqb (Alert.id a) id
                                    then apply_patch (reads_boolean env) p a else a)) w in
         (single (filter (fun a => Nat.eqb (Alert.id a) id) (alerts w')), w').

(* ================================================================= *)
(** ** websocketService.js *)

Definition emit (evs : list Event) : M unit :=
  fun w => (tt, with_emitted (fun l => l ++ evs) w).

Definition emitSensorReading (reading : Reading.t) : M unit :=
  if negb (io env) then ret tt
  else emit [sensor_reading reading; bin_update_reading (Reading.bin_id reading) reading].

Definition emitAlert (alert : Alert.t) : M unit :=
  if negb (io env) then ret tt
  else emit [new_alert alert; bin_alert (Alert.bin_id alert) alert].

Definition emitBinStatusUpdate (bin : Bin.t) : M unit :=
  if negb (io env) then ret tt
  else emit [bin_status_update bin; bin_update (Bin.id bin) bin].

(* ================================================================= *)
(** ** notificationService.js *)

(** The channel senders are stubs: they log the message and return true. *)
Definition transport (ch : Channel) (userId : nat) (message : Message) : M bool :=
  fun w => (true, with_transported (fun l => l ++ [mkDelivery ch userId message]) w).

Definition sendEmail (userId : nat) (message : Message) : M bool :=
  transport email userId message.

Definition sendSMS (userId : nat) (message : Message) : M bool :=
  transport sms userId message.

Definition sendPush (userId : nat) (message : Message) : M bool :=
  transport push userId message.

Definition entered (r : NotificationRequest) : M unit :=
  fun w => (tt, with_dispatched (fun l => l ++ [r]) w).

Definition sendNotification (r : NotificationRequest) : M (option Notification.t) :=
  entered r ;;;
  (* 1. insert a pending notification row *)
  inserted <- db_insert_notification r pending ;;
  match inserted with
  | None => ret None
  | Some notification =>
      (* 2. attempt delivery through the appropriate channel *)
      delivered <-
        match req_channel r with
        | email => sendEmail (req_user_id r) (req_message r)
        | sms => sendSMS (req_user_id r) (req_message r)
        | push => sendPush (req_user_id r) (req_message r)
        | other_channel => ret false
        end ;;
      (* 3. update the notification status *)
      let newStatus := if delivered : bool then sent else failed in
      db_update_notification (Notification.id notification) newStatus
        (if delivered then Some (now env) else None) ;;;
      ret (Some notification)
  end.

(* ================================================================= *)
(** ** alertService.js *)

(** Build an alert object ready for insertion. *)
Definition buildAlert (reading : Reading.t) (alertType : AlertType)
  (severity : Severity) (message : Message) : NewAlert.t :=
  NewAlert.mk (Reading.bin_id reading) alertType severity message false.

(** The threshold checks of [evaluateReading]: the array [alerts] as it
    stands when the function reaches the insertion. *)
Definition candidateAlerts (reading : Reading.t) : list NewAlert.t :=
  let alerts := [] in
  (* fill-level alerts *)
  let alerts :=
    if geq (Reading.fill_level reading) THRESHOLDS.fill.flash then
      alerts ++ [buildAlert reading fill_critical critical
                   (msg_fill_flash (Reading.fill_level reading))]
    else if geq (Reading.fill_level reading) THRESHOLDS.fill.critical then
      alerts ++ [buildAlert reading fill_critical high
                   (msg_fill_critical (Reading.fill_level reading))]
    else if geq (Reading.fill_level reading) THRESHOLDS.fill.warning then
      alerts ++ [buildAlert reading fill_warning medium
                   (msg_fill_warning (Reading.fill_level reading))]
    else alerts in
  (* gas-level alerts *)
  let alerts :=
    match Reading.gas_level reading with
    | Some gas_level =>
        if geq gas_level THRESHOLDS.gas.critical then
          alerts ++ [buildAlert reading gas_detected critical (msg_gas_critical gas_level)]
        else if geq gas_level THRESHOLDS.gas.warning then
          alerts ++ [buildAlert reading gas_detected high (msg_gas_warning gas_level)]
        else alerts
    | None => alerts
    end in
  (* temperature alerts *)
  let alerts :=
    match Reading.temperature reading with
    | Some temperature =>
        if geq temperature THRESHOLDS.temperature.critical then
          alerts ++ [buildAlert reading maintenance_needed critical
                       (msg_temperature_critical temperature)]
        else if geq temperature THRESHOLDS.temperature.warning then
          alerts ++ [buildAlert reading maintenance_needed high
                       (msg_temperature_warning temperature)]
        else alerts
    | None => alerts
    end in
  (* battery alerts *)
  let alerts :=
    match Reading.battery_level reading with
    | Some battery_level =>
        if leq battery_level THRESHOLDS.battery.critical then
          alerts ++ [buildAlert reading maintenance_needed critical
                       (msg_battery_critical battery_level)]
        else if leq battery_level THRESHOLDS.battery.warning then
          alerts ++ [buildAlert reading maintenance_needed medium
                       (msg_battery_warning battery_level)]
        else alerts
    | None => alerts
    end in
  alerts.

(** Look up admin and collector users and send them a notification for
    the given alert. *)
Definition notifyRelevantUsers (alert : Alert.t) : M unit :=
  found <- db_select_users (Alert.id alert) ;;
  match found with
  | None => ret tt
  | Some users =>
      forEach users (fun user =>
        (* send email notification *)
        when (truthy_string (Some (User.email user)))
          (sendNotification
             (mkRequest (User.id user) (Some (Alert.id alert)) email (Alert.message alert)) ;;;
           ret tt) ;;;
        (* send SMS notification for critical alerts *)
        when (truthy_string (User.phone user)
              && Severity_eqb (Alert.severity alert) critical)
          (sendNotification
             (mkRequest (User.id user) (Some (Alert.id alert)) sms (Alert.message alert)) ;;;
           ret tt))
  end.

(** [['high', 'critical'].includes(severity)] *)
Definition high_or_critical (s : Severity) : bool :=
  existsb (Severity_eqb s) [high; critical].

(** Evaluate a single sensor reading against all thresholds; insert the
    alert rows and emit events for every threshold breached. *)
Definition evaluateReading (reading : Reading.t) : M (list Alert.t) :=
  let alerts := candidateAlerts reading in
  if (0 <? List.length alerts)%nat then
    inserted <- db_insert_alerts alerts ;;
    match inserted with
    | None => ret []
    | Some data =>
        forEach data (fun alert =>
          emitAlert alert ;;;
          when (high_or_critical (Alert.severity alert)) (notifyRelevantUsers alert)) ;;;
        ret data
    end
  else ret [].

(* ================================================================= *)
(** ** deviceController.js *)

(** [req_body] is [req.body]: without a body the destructuring throws and
    the [catch] block answers.  A fill level of [null] is not [undefined],
    and [null < 0] and [null > 100] are both false, so such a body passes the
    validation; the column [fill_level] of [sensor_readings] is NOT NULL, so
    the store answers the insert with an error. *)
Definition receiveSensorData (req_body : option SensorBody.t) : M Response :=
  match req_body with
  | None => ret (json_error 500 internal_server_error)
  | Some body =>
  (* validate required fields *)
  match truthy_string (SensorBody.bin_code body), SensorBody.bin_code body,
        SensorBody.fill_level body with
  | true, Some bin_code, Value fill_level =>
      if lt fill_level 0 || gt fill_level 100 then
        ret (json_error 400 fill_level_out_of_range)
      else
        (* look up the bin by its unique code *)
        bin <- db_select_bin_by_code bin_code ;;
        match bin with
        | None => ret (json_error 404 (bin_with_code_not_found bin_code))
        | Some bin_id =>
            (* insert the sensor reading *)
            inserted <- db_insert_sensor_reading (fun id =>
              Reading.mk id bin_id fill_level
                (string_or_null (SensorBody.waste_type body))
                (number_or_null (SensorBody.weight body))
                (number_or_null (SensorBody.gas_level body))
                (number_or_null (SensorBody.temperature body))
                (number_or_null (SensorBody.moisture body))
                (number_or_null (SensorBody.battery_level body))) ;;
            match inserted with
            | None => ret (json_error 500 store_error_message)
            | Some reading =>
                (* update the bin's current fill level *)
                db_update_bin_fill bin_id fill_level ;;;
                (* emit real-time update over WebSocket *)
                emitSensorReading reading ;;;
                (* run the alert evaluation engine *)
                alerts <- evaluateReading reading ;;
                ret (json_reading 201 reading (List.length alerts))
            end
        end
  | true, Some bin_code, Null =>
      (* look up the bin by its unique code *)
      bin <- db_select_bin_by_code bin_code ;;
      match bin with
      | None => ret (json_error 404 (bin_with_code_not_found bin_code))
      | Some bin_id =>
          (* insert the sensor reading: refused, fill_level is NOT NULL *)
          ret (json_error 500 store_error_message)
      end
  | _, _, _ => ret (json_error 400 bin_code_and_fill_level_required)
  end
  end.

(* ================================================================= *)
(** ** collectionController.js *)

Definition createCollection (body : CollectionBody.t) : M Response :=
  match CollectionBody.bin_id body with
  | None => ret (json_error 400 bin_id_required)
  | Some bin_id =>
      (* fetch the bin's current fill level *)
      found <- db_select_bin_by_id bin_id ;;
      match found with
      | None => ret (json_error 404 bin_not_found)
      | Some bin =>
          (* insert the collection log *)
          inserted <- db_insert_collection_log (fun id =>
            CollectionLog.mk id bin_id (CollectionBody.collected_by body)
              (Bin.fill_level bin) 0 (string_or_null (CollectionBody.notes body))) ;;
          match inserted with
          | None => ret (json_error 500 store_error_message)
          | Some log =>
              (* reset the bin's fill level and update last_emptied *)
              updatedBin <- db_update_bin_emptied bin_id (now env) ;;
              (* resolve any open alerts for this bin *)
              db_update_alerts_resolved bin_id (now env) (CollectionBody.collected_by body) ;;;
              (* notify dashboards via WebSocket *)
              match updatedBin with
              | Some b => emitBinStatusUpdate b
              | None => ret tt
              end ;;;
              ret (json_collection 201 log)
          end
      end
  end.

(* ================================================================= *)
(** ** alertController.js *)

Definition resolveAlert (id : nat) (body : ResolveBody.t) : M Response :=
  let updatePayload := mkPatch Undefined None None in
  let updatePayload :=
    match ResolveBody.resolved body with
    | Undefined => updatePayload
    | resolved =>
        mkPatch resolved
          (Some (if truthy resolved then Some (now env) else None))
          (patch_resolved_by updatePayload)
    end in
  let updatePayload :=
    match ResolveBody.resolved_by body with
    | Some resolved_by =>
        mkPatch (patch_resolved updatePayload) (patch_resolved_at updatePayload)
          (Some resolved_by)
    | None => updatePayload
    end in
  updated <- db_update_alert id updatePayload ;;
  match updated with
  | None => ret (json_error 404 alert_not_found_or_update_failed)
  | Some data => ret (json_alert 200 data)
  end.

End Backend.

(* ================================================================= *)
(** ** Vocabulary of the properties *)

(** The candidates that a given sensor contributed. *)
Definition from_field (f : Field) (l : list NewAlert.t) : list NewAlert.t :=
  filter (fun a => Field_eqb (field_of_message (NewAlert.message a)) f) l.

(** Kind and severity of each candidate, in order. *)
Definition kinds (l : list NewAlert.t) : list (AlertType * Severity) :=
  map (fun a => (NewAlert.alert_type a, NewAlert.severity a)) l.

(** The sensor behind each candidate, in order. *)
Definition fields (l : list NewAlert.t) : list Field :=
  map (fun a => field_of_message (NewAlert.message a)) l.

(** The value a reading reports for a sensor, if any. *)
Definition measured (r : Reading.t) (f : Field) : option Q :=
  match f with
  | Fill => Some (Reading.fill_level r)
  | Gas => Reading.gas_level r
  | Temperature => Reading.temperature r
  | Battery => Reading.battery_level r
  end.

(** The rule table of the threshold policy, row by row as the specification
    gives it: every row is a condition on one measured field; several rows
    of a field can apply to the same value. *)
Inductive Comparison := at_least | at_most.

Record Tier := mkTier {
  tier_field : Field;
  tier_comparison : Comparison;
  tier_threshold : Q;
  tier_kind : AlertType;
  tier_severity : Severity }.

Definition tier_table : list Tier :=
  [ mkTier Fill at_least 95 fill_critical critical;
    mkTier Fill at_least 80 fill_critical high;
    mkTier Fill at_least 50 fill_warning medium;
    mkTier Gas at_least 500 gas_detected critical;
    mkTier Gas at_least 200 gas_detected high;
    mkTier Temperature at_least 60 maintenance_needed critical;
    mkTier Temperature at_least 45 maintenance_needed high;
    mkTier Battery at_most 10 maintenance_needed critical;
    mkTier Battery at_most 20 maintenance_needed medium ].

Definition tier_applies (r : Reading.t) (t : Tier) : bool :=
  match measured r (tier_field t) with
  | Some v =>
      match tier_comparison t with
      | at_least => geq v (tier_threshold t)
      | at_most => leq v (tier_threshold t)
      end
  | None => false
  end.

(** The rows of a field whose condition holds on the reading. *)
Definition applicable (r : Reading.t) (f : Field) : list Tier :=
  filter (fun t => Field_eqb (tier_field t) f && tier_applies r t) tier_table.

Definition breached (r : Reading.t) (f : Field) : bool :=
  match applicable r f with
  | [] => false
  | _ :: _ => true
  end.

(** low < medium < high < critical *)
Definition rank (s : Severity) : nat :=
  match s with
  | low => 0
  | medium => 1
  | high => 2
  | critical => 3
  end.

(** The row of highest severity, if there is a row at all. *)
Fixpoint highest (l : list Tier) : option Tier :=
  match l with
  | [] => None
  | t :: rest =>
      match highest rest with
      | Some t' => if (rank (tier_severity t) <? rank (tier_severity t'))%nat
                   then Some t' else Some t
      | None => Some t
      end
  end.

Definition tier_kinds (t : option Tier) : list (AlertType * Severity) :=
  match t with
  | Some t => [(tier_kind t, tier_severity t)]
  | None => []
  end.

(** Per-sensor slices of [candidateAlerts], used to split it. *)
Definition fill_candidates (reading : Reading.t) : list NewAlert.t :=
  if geq (Reading.fill_level reading) THRESHOLDS.fill.flash then
    [buildAlert reading fill_critical critical (msg_fill_flash (Reading.fill_level reading))]
  else if geq (Reading.fill_level reading) THRESHOLDS.fill.critical then
    [buildAlert reading fill_critical high (msg_fill_critical (Reading.fill_level reading))]
  else if geq (Reading.fill_level reading) THRESHOLDS.fill.warning then
    [buildAlert reading fill_warning medium (msg_fill_warning (Reading.fill_level reading))]
  else [].

Definition gas_candidates (reading : Reading.t) : list NewAlert.t :=
  match Reading.gas_level reading with
  | Some v =>
      if geq v THRESHOLDS.gas.critical then
        [buildAlert reading gas_detected critical (msg_gas_critical v)]
      else if geq v THRESHOLDS.gas.warning then
        [buildAlert reading gas_detected high (msg_gas_warning v)]
      else []
  | None => []
  end.

Definition temperature_candidates (reading : Reading.t) : list NewAlert.t :=
  match Reading.temperature reading with
  | Some v =>
      if geq v THRESHOLDS.temperature.critical then
        [buildAlert reading maintenance_needed critical (msg_temperature_critical v)]
      else if geq v THRESHOLDS.temperature.warning then
        [buildAlert reading maintenance_needed high (msg_temperature_warning v)]
      else []
  | None => []
  end.

Definition battery_candidates (reading : Reading.t) : list NewAlert.t :=
  match Reading.battery_level reading with
  | Some v =>
      if leq v THRESHOLDS.battery.critical then
        [buildAlert reading maintenance_needed critical (msg_battery_critical v)]
      else if leq v THRESHOLDS.battery.warning then
        [buildAlert reading maintenance_needed medium (msg_battery_warning v)]
      else []
  | None => []
  end.

(** A request body with a non-empty bin code and a fill level that is a
    number between 0 and 100. *)
Definition valid_sensor_body (body : SensorBody.t) (code : string) (fill : Q) : Prop :=
  SensorBody.bin_code body = Some code /\ code <> EmptyString /\
  SensorBody.fill_level body = Value fill /\ 0 <= fill /\ fill <= 100.

(** Validation as the specification words it: a request whose fill value is
    not present, because the key was not sent or holds null, fails with
    InvalidInput. *)
Definition fill_level_required (env : Env) (body : SensorBody.t) (w : World) : Prop :=
  SensorBody.fill_level body = Undefined \/ SensorBody.fill_level body = Null ->
  status_code (fst (receiveSensorData env (Some body) w)) = InvalidInput.

(** The bin code is missing: not sent, null, or the empty string. *)
Definition bin_code_missing (body : SensorBody.t) : Prop :=
  SensorBody.bin_code body = None \/ SensorBody.bin_code body = Some EmptyString.

(** The bin a code resolves to: the only row of [bins] with that code. *)
Definition bin_with_code (w : World) (code : string) : option nat :=
  option_map Bin.id
    (single (filter (fun b => String.eqb (Bin.bin_code b) code) (bins w))).

(** The row of [bins] with a given identifier. *)
Definition bin_with_id (w : World) (id : nat) : option Bin.t :=
  single (filter (fun b => Nat.eqb (Bin.id b) id) (bins w)).

(** The reading row the device controller builds from a request body. *)
Definition reading_of_body (body : SensorBody.t) (bin_id : nat) (fill : Q) (id : nat)
  : Reading.t :=
  Reading.mk id bin_id fill
    (string_or_null (SensorBody.waste_type body))
    (number_or_null (SensorBody.weight body))
    (number_or_null (SensorBody.gas_level body))
    (number_or_null (SensorBody.temperature body))
    (number_or_null (SensorBody.moisture body))
    (number_or_null (SensorBody.battery_level body)).

(** The same environment, except that the batch insert of alerts fails. *)
Definition failing_alert_insert (env : Env) : Env :=
  mkEnv (now env) (io env)
    (fun o => match o with insert_alerts => true | _ => fails env o end)
    (reads_boolean env).

(** The users the alert service looks up: active admins and collectors. *)
Definition relevant (u : User.t) : bool :=
  (Role_eqb (User.role u) admin || Role_eqb (User.role u) collector)
  && Bool.eqb (User.is_active u) true.

Definition email_request (a : Alert.t) (u : User.t) : NotificationRequest :=
  mkRequest (User.id u) (Some (Alert.id a)) email (Alert.message a).

Definition sms_request (a : Alert.t) (u : User.t) : NotificationRequest :=
  mkRequest (User.id u) (Some (Alert.id a)) sms (Alert.message a).

(** The notifications one user is sent for one alert. *)
Definition requests_for (a : Alert.t) (u : User.t) : list NotificationRequest :=
  (if truthy_string (Some (User.email u)) then [email_request a u] else [])
  ++ (if truthy_string (User.phone u) && Severity_eqb (Alert.severity a) critical
      then [sms_request a u] else []).

(** The notifications sent for one alert, given the user table. *)
Definition notified (env : Env) (us : list User.t) (a : Alert.t)
  : list NotificationRequest :=
  if fails env (select_users (Alert.id a)) then []
  else flat_map (requests_for a) (filter relevant us).

(** The notifications sent for one created alert by [evaluateReading]. *)
Definition fan_out (env : Env) (us : list User.t) (a : Alert.t)
  : list NotificationRequest :=
  if high_or_critical (Alert.severity a) then notified env us a else [].

(** Everything but the notification side of the world. *)
Definition same_records (w w' : World) : Prop :=
  bins w' = bins w /\ sensor_readings w' = sensor_readings w /\
  alerts w' = alerts w /\ users w' = users w /\
  collection_logs w' = collection_logs w.

(** The row the dispatcher inserts for a request. *)
Definition pending_row (id : nat) (r : NotificationRequest) : Notification.t :=
  Notification.mk id (req_user_id r) (req_alert_id r) (req_channel r)
    (req_message r) pending None.

(** The outcome of the channel senders for a request. *)
Definition delivered_by_channel (ch : Channel) : bool :=
  match ch with
  | email | sms | push => true
  | other_channel => false
  end.

Definition deliveries_of (r : NotificationRequest) : list Delivery :=
  if delivered_by_channel (req_channel r)
  then [mkDelivery (req_channel r) (req_user_id r) (req_message r)]
  else [].

(** The status and timestamp a dispatched notification ends with. *)
Definition final_status (r : NotificationRequest) : Status :=
  if delivered_by_channel (req_channel r) then sent else failed.

Definition final_sent_at (env : Env) (r : NotificationRequest) : option nat :=
  if delivered_by_channel (req_channel r) then Some (now env) else None.

(** When the dispatch call has returned a notification, no stored row of
    that notification is still pending. *)
Definition never_left_pending (env : Env) (r : NotificationRequest) (w : World) : Prop :=
  forall n, fst (sendNotification env r w) = Some n ->
  forall row, In row (notifications (snd (sendNotification env r w))) ->
  Notification.id row = Notification.id n ->
  Notification.status row <> pending.

(** What a notification row records of the request it was created for;
    the status and the time of sending are left out. *)
Definition request_of (n : Notification.t) : NotificationRequest :=
  mkRequest (Notification.user_id n) (Notification.alert_id n)
    (Notification.channel n) (Notification.message n).

(** The store accepts the notification row of the request. *)
Definition accepted (env : Env) (r : NotificationRequest) : bool :=
  negb (fails env (insert_notification (req_user_id r) (req_alert_id r) (req_channel r))).

(** The notifications of one created alert that get their row. *)
Definition recorded (env : Env) (us : list User.t) (a : Alert.t)
  : list NotificationRequest :=
  filter (accepted env) (fan_out env us a).

(** Between the states [w] and [w'] the notifications [l] were sent, in this
    order: for each of them a row was added to the notification table and
    the sender of its channel was called, and no other row was added and no
    other sender call was made. *)
Definition sent_between (w w' : World) (l : list NotificationRequest) : Prop :=
  map request_of (notifications w') = map request_of (notifications w) ++ l /\
  transported w' = transported w ++ flat_map deliveries_of l.

(** The fan-out as the specification words it: every active admin or
    collector is sent an email for every created alert of high or critical
    severity. *)
Definition every_relevant_user_emailed (env : Env) (reading : Reading.t) (w : World)
  : Prop :=
  forall a u,
    In a (fst (evaluateReading env reading w)) ->
    Alert.severity a = high \/ Alert.severity a = critical ->
    In u (users w) -> relevant u = true ->
    exists l, sent_between w (snd (evaluateReading env reading w)) l /\
              In (email_request a u) l.

(** The log row the collection controller builds. *)
Definition log_of_body (body : CollectionBody.t) (bin : Bin.t) (bin_id id : nat)
  : CollectionLog.t :=
  CollectionLog.mk id bin_id (CollectionBody.collected_by body)
    (Bin.fill_level bin) 0 (string_or_null (CollectionBody.notes body)).

(** The steps of [createCollection] that follow the insert of the log. *)
Definition after_log_insert (env : Env) (body : CollectionBody.t) (bin_id : nat)
  : M unit :=
  (updatedBin <- db_update_bin_emptied env bin_id (now env) ;;
   db_update_alerts_resolved env bin_id (now env) (CollectionBody.collected_by body) ;;;
   match updatedBin with
   | Some b => emitBinStatusUpdate env b
   | None => ret tt
   end)%handler.

(** The collection workflow as the specification words it: once the request
    has succeeded, the bin is at fill level 0 with a fresh last_emptied. *)
Definition bin_emptied_after_collection (env : Env) (body : CollectionBody.t)
  (w : World) : Prop :=
  forall id log,
    CollectionBody.bin_id body = Some id ->
    fst (createCollection env body w) = json_collection 201 log ->
    exists b, bin_with_id (snd (createCollection env body w)) id = Some b /\
              Bin.fill_level b == 0 /\ Bin.last_emptied b = Some (now env).


(** The resolution-state invariant as the specification words it: an open
    alert carries neither a resolution time nor a resolver. *)
Definition resolution_invariant (rows : list Alert.t) : Prop :=
  forall a, In a rows -> Alert.resolved a = Some false ->
  Alert.resolved_at a = None /\ Alert.resolved_by a = None.

(** A freshly created alert: open, with no resolution fields. *)
Definition unresolved (a : Alert.t) : Prop :=
  Alert.resolved a = Some false /\ Alert.resolved_at a = None /\
  Alert.resolved_by a = None.

(** The update object [resolveAlert] builds from a request body. *)
Definition patch_of_body (env : Env) (body : ResolveBody.t) : AlertPatch :=
  mkPatch (ResolveBody.resolved body)
    (match ResolveBody.resolved body with
     | Undefined => None
     | r => Some (if truthy r then Some (now env) else None)
     end)
    (ResolveBody.resolved_by body).

(** Manual un-resolution as the specification words it: the alert that
    comes back has neither a resolution time nor a resolver. *)
Definition unresolution_clears_both (env : Env) (id : nat) (body : ResolveBody.t)
  (w : World) : Prop :=
  forall a,
    ResolveBody.resolved body = Value (Boolean false) ->
    fst (resolveAlert env id body w) = json_alert 200 a ->
    Alert.resolved_at a = None /\ Alert.resolved_by a = None.

(** The requests that write alerts, and the states they lead to.  Each
    request is served in its own environment: its own clock reading and its
    own store failures. *)
Inductive Request :=
| submit_reading (body : option SensorBody.t)
| log_collection (body : CollectionBody.t)
| patch_alert (id : nat) (body : ResolveBody.t).

Definition serve (env : Env) (q : Request) : M Response :=
  match q with
  | submit_reading body => receiveSensorData env body
  | log_collection body => createCollection env body
  | patch_alert id body => resolveAlert env id body
  end.

Inductive reachable (w0 : World) : World -> Prop :=
| reachable_start : reachable w0 w0
| reachable_step (w : World) (env : Env) (q : Request) :
    reachable w0 w -> reachable w0 (snd (serve env q w)).

(* ================================================================= *)
(** ** Sample data *)

(** A store that reads the texts true and false and the numbers 1 and 0 as
    booleans and rejects every other text, number, array and object. *)
Definition plain_booleans (s : Json) : option bool :=
  match s with
  | Boolean b => Some b
  | Number q => if Qeq_bool q 1 then Some true
                else if Qeq_bool q 0 then Some false else None
  | Text t => if String.eqb t "true" then Some true
              else if String.eqb t "false" then Some false else None
  | Compound => None
  end.

(** A store that accepts every call, with the socket layer up. *)
Definition reliable : Env := mkEnv 1000 true (fun _ => false) plain_booleans.

(** A store that refuses the status update of notifications. *)
Definition status_update_refused : Env :=
  mkEnv 1000 true (fun o => match o with update_notification _ => true | _ => false end)
    plain_booleans.

(** A store that refuses the reset of a bin. *)
Definition bin_reset_refused : Env :=
  mkEnv 1000 true (fun o => match o with update_bin_emptied _ => true | _ => false end)
    plain_booleans.

(** A store that refuses the user lookup. *)
Definition user_lookup_refused : Env :=
  mkEnv 1000 true (fun o => match o with select_users _ => true | _ => false end)
    plain_booleans.

(** A store that refuses the batch insert of alerts. *)
Definition alert_insert_refused : Env := failing_alert_insert reliable.

Definition bin_1 : Bin.t := Bin.mk 1 "BIN-001" 70 None.

Definition alice : User.t := User.mk 11 "alice@example.com" (Some "+254700000001"%string) admin true.
Definition bob : User.t := User.mk 12 "bob@example.com" None collector true.
Definition carol : User.t := User.mk 13 "carol@example.com" (Some "+254700000003"%string) operator true.
Definition dave : User.t := User.mk 14 "dave@example.com" (Some "+254700000004"%string) collector false.
(** An active admin whose email column holds the empty string. *)
Definition erin : User.t := User.mk 15 EmptyString (Some "+254700000005"%string) admin true.

Definition open_alert : Alert.t :=
  Alert.mk 21 1 fill_critical high (msg_fill_critical 85) (Some false) None None.
Definition closed_alert : Alert.t :=
  Alert.mk 22 1 fill_warning medium (msg_fill_warning 60) (Some true) (Some 900%nat) (Some 12%nat).
Definition other_bin_alert : Alert.t :=
  Alert.mk 23 2 gas_detected critical (msg_gas_critical 600) (Some false) None None.

Definition depot : World :=
  mkWorld [bin_1] [] [open_alert; closed_alert; other_bin_alert]
    [alice; bob; carol; dave] [] [] 100 [] [] [].

(** The same depot with one more admin, whose email is empty. *)
Definition depot_with_erin : World :=
  mkWorld [bin_1] [] [open_alert; closed_alert; other_bin_alert]
    [alice; erin] [] [] 100 [] [] [].

Definition reading_85_5 : Reading.t :=
  Reading.mk 31 1 85 None None None None None (Some 5).

Definition reading_60_250_70_5 : Reading.t :=
  Reading.mk 32 1 60 None None (Some 250) (Some 70) None (Some 5).

Definition reading_97 : Reading.t :=
  Reading.mk 33 1 97 None None None None None None.

Definition body_97 : SensorBody.t :=
  SensorBody.mk (Some "BIN-001"%string) (Value 97) None None None None None None.

Definition body_battery_0 : SensorBody.t :=
  SensorBody.mk (Some "BIN-001"%string) (Value 30) None None (Some 0) None None (Some 0).

Definition body_no_code : SensorBody.t :=
  SensorBody.mk None (Value 30) None None None None None None.

Definition body_unknown_bin : SensorBody.t :=
  SensorBody.mk (Some "BIN-404"%string) (Value 30) None None None None None None.

Definition collection_by_bob : CollectionBody.t :=
  CollectionBody.mk (Some 1%nat) (Some 12%nat) None.

Definition collection_of_missing_bin : CollectionBody.t :=
  CollectionBody.mk (Some 9%nat) (Some 12%nat) None.

Definition email_to_alice : NotificationRequest :=
  mkRequest 11 (Some 21%nat) email (msg_fill_critical 85).

Definition reopen : ResolveBody.t := ResolveBody.mk (Value (Boolean false)) None.

Definition reading_battery_0 : Reading.t :=
  Reading.mk 34 1 30 None None None None None (Some 0).

(** A store that refuses the insert of sensor readings. *)
Definition reading_insert_refused : Env :=
  mkEnv 1000 true (fun o => match o with insert_sensor_reading => true | _ => false end)
    plain_booleans.

(** A store that refuses the insert of collection logs. *)
Definition log_insert_refused : Env :=
  mkEnv 1000 true (fun o => match o with insert_collection_log => true | _ => false end)
    plain_booleans.

Definition collection_without_bin : CollectionBody.t :=
  CollectionBody.mk None (Some 12%nat) None.

Definition resolve_by_alice : ResolveBody.t := ResolveBody.mk (Value (Boolean true)) (Some 11%nat).

(** A reading whose fill level is null. *)
Definition body_null_fill : SensorBody.t :=
  SensorBody.mk (Some "BIN-001"%string) Null None None None None None None.

(** A patch that sends the text false instead of the boolean. *)
Definition reopen_as_text : ResolveBody.t :=
  ResolveBody.mk (Value (Text "false")) None.

(** A store that refuses the insert of the email notifications of user 11. *)
Definition alice_email_refused : Env :=
  mkEnv 1000 true
    (fun o => match o with
              | insert_notification 11%nat _ email => true
              | _ => false
              end)
    plain_booleans.

(* ================================================================= *)
(** ** Further handlers of the controllers

    The read-side and maintenance handlers of the alert, device, bin and
    user controllers.  Their database calls are refused or not by a second
    oracle, [Call -> bool]; their answers are values of [Reply]. *)

From Stdlib Require Import ZArith Qround.

Inductive Call :=
| select_alert_columns
| delete_alert (id : nat)
| select_readings
| select_reading (id : nat)
| select_bin (id : nat)
| select_recent_readings (bin : nat)
| insert_bin
| insert_user.

Inductive Note :=
| store_message
| alert_deleted
| reading_not_found
| no_such_bin
| bin_code_and_location_required
| bin_code_taken
| bin_created
| email_and_full_name_required
| email_taken
| user_created.

(** The answer of [getAlertStats]. *)
Module AlertStats.
Record t := mk {
  total_alerts : nat;
  unresolved : nat;
  by_severity : list (Severity * nat);
  by_type : list (AlertType * nat) }.
End AlertStats.

Inductive BinStatus := active | maintenance | decommissioned.
Inductive BinType := general | organic | recyclable | hazardous.

(** A row of [select id, fill_level, status, bin_type from bins]. *)
Module BinColumns.
Record t := mk {
  id : nat;
  fill_level : Q;
  status : BinStatus;
  bin_type : BinType }.
End BinColumns.

Record FillBrackets := mkFillBrackets {
  bracket_empty : nat;
  bracket_low : nat;
  bracket_medium : nat;
  bracket_high : nat;
  bracket_critical : nat }.

(** The answer of [getBinStats]. *)
Record BinStats := mkBinStats {
  total_bins : nat;
  avg_fill_level : Z;
  by_status : list (BinStatus * nat);
  fill_brackets : FillBrackets }.

Inductive Reply :=
| reply_error (status : nat) (error : Note)
| reply_message (status : nat) (message : Note)
| reply_alert_stats (status : nat) (stats : AlertStats.t)
| reply_bin_stats (status : nat) (stats : BinStats)
| reply_readings (status : nat) (readings : list Reading.t)
| reply_reading (status : nat) (reading : Reading.t)
| reply_bin (status : nat) (bin : Bin.t) (recent_readings : list Reading.t)
| reply_bin_created (status : nat) (bin : Bin.t)
| reply_user_created (status : nat) (user : User.t).

Definition reply_status (r : Reply) : nat :=
  match r with
  | reply_error s _ | reply_message s _ | reply_alert_stats s _ | reply_bin_stats s _
  | reply_readings s _ | reply_reading s _ | reply_bin s _ _ | reply_bin_created s _
  | reply_user_created s _ => s
  end.

(** Query string of GET /api/devices/readings; [limit] and [offset] are the
    numbers [Number(limit)] and [Number(offset)] of the source. *)
Module ReadingsQuery.
Record t := mk {
  bin_id : option nat;
  limit : option nat;
  offset : option nat }.
End ReadingsQuery.

(** Body of POST /api/bins. *)
Module BinBody.
Record t := mk {
  bin_code : option string;
  location : option string;
  latitude : option Q;
  longitude : option Q;
  bin_type : option BinType }.
End BinBody.

(** The object [createBin] inserts. *)
Module NewBin.
Record t := mk {
  bin_code : string;
  location : string;
  latitude : option Q;
  longitude : option Q;
  bin_type : BinType }.
End NewBin.

(** Body of POST /api/users. *)
Module UserBody.
Record t := mk {
  email : option string;
  full_name : option string;
  phone : option string;
  role : option Role }.
End UserBody.

(** The object [createUser] inserts. *)
Module NewUser.
Record t := mk {
  email : string;
  full_name : string;
  phone : option string;
  role : Role }.
End NewUser.

Definition AlertType_eqb (s t : AlertType) : bool :=
  match s, t with
  | fill_warning, fill_warning | fill_critical, fill_critical
  | gas_detected, gas_detected | maintenance_needed, maintenance_needed => true
  | _, _ => false
  end.

Definition BinStatus_eqb (s t : BinStatus) : bool :=
  match s, t with
  | active, active | maintenance, maintenance | decommissioned, decommissioned => true
  | _, _ => false
  end.

(** [acc[k] = (acc[k] || 0) + 1] on an object used as a map from keys to
    counts; the keys of the object stay in the order of their first use. *)
Fixpoint increment {K} (eqb : K -> K -> bool) (k : K) (acc : list (K * nat))
  : list (K * nat) :=
  match acc with
  | [] => [(k, 1%nat)]
  | (k', n) :: rest =>
      if eqb k' k then (k', S n) :: rest else (k', n) :: increment eqb k rest
  end.

(** [rows.reduce((acc, x) => { acc[key(x)] = (acc[key(x)] || 0) + 1; return acc }, {})] *)
Definition count_by {A K} (eqb : K -> K -> bool) (key : A -> K) (rows : list A)
  : list (K * nat) :=
  fold_left (fun acc x => increment eqb (key x) acc) rows [].

(** [acc[k]] *)
Fixpoint count_of {K} (eqb : K -> K -> bool) (k : K) (acc : list (K * nat))
  : option nat :=
  match acc with
  | [] => None
  | (k', n) :: rest => if eqb k' k then Some n else count_of eqb k rest
  end.

(** [Math.round]: the nearest integer, halves rounded up. *)
Definition Math_round (x : Q) : Z := Qfloor (x + (1 # 2)).

(** [.range(from, to)]: the rows at positions [from] to [to], both included,
    of the ordered result. *)
Definition range {A} (from to : Z) (rows : list A) : list A :=
  firstn (Z.to_nat (to - from + 1)) (skipn (Z.to_nat from) rows).

(** [.order('created_at', { ascending: false })] on a table kept oldest
    first. *)
Definition newest_first {A} (rows : list A) : list A := rev rows.

(** The row the store creates for a bin: fill_level defaults to 0 and
    last_emptied is null; the world keeps the columns the handlers read. *)
Definition bin_row (id : nat) (b : NewBin.t) : Bin.t :=
  Bin.mk id (NewBin.bin_code b) 0 None.

(** The row the store creates for a user: is_active defaults to true. *)
Definition user_row (id : nat) (u : NewUser.t) : User.t :=
  User.mk id (NewUser.email u) (NewUser.phone u) (NewUser.role u) true.

Definition with_users (f : list User.t -> list User.t) (w : World) : World :=
  mkWorld (bins w) (sensor_readings w) (alerts w) (f (users w)) (collection_logs w)
    (notifications w) (next_id w) (emitted w) (transported w) (dispatched w).

(** [delete from alerts where id = a]; the notifications that referred to
    the alert keep their row with alert_id set to null (ON DELETE SET NULL). *)
Definition without_alert (a : nat) (w : World) : World :=
  with_notifications
    (map (fun n =>
            match Notification.alert_id n with
            | Some a' =>
                if Nat.eqb a' a
                then Notification.mk (Notification.id n) (Notification.user_id n) None
                       (Notification.channel n) (Notification.message n)
                       (Notification.status n) (Notification.sent_at n)
                else n
            | None => n
            end))
    (with_alerts (filter (fun r => negb (Nat.eqb (Alert.id r) a))) w).

Section Queries.

Variable refused : Call -> bool.

(* ----------------------------------------------------------------- *)
(** *** alertController.js *)

(** DELETE /api/alerts/:id *)
Definition deleteAlert (id : nat) : M Reply :=
  fun w =>
    if refused (delete_alert id) then (reply_error 500 store_message, w)
    else (reply_message 200 alert_deleted, without_alert id w).

(** GET /api/alerts/stats/overview *)
Definition getAlertStats : M Reply :=
  fun w =>
    if refused select_alert_columns then (reply_error 500 store_message, w)
    else
      let alerts := alerts w in
      let total := List.length alerts in
      let unresolved := List.length (filter (fun a => negb (truthy_boolean (Alert.resolved a))) alerts) in
      let bySeverity := count_by Severity_eqb Alert.severity alerts in
      let byType := count_by AlertType_eqb Alert.alert_type alerts in
      (reply_alert_stats 200 (AlertStats.mk total unresolved bySeverity byType), w).

(* ----------------------------------------------------------------- *)
(** *** deviceController.js *)

(** GET /api/devices/readings *)
Definition getReadings (query : ReadingsQuery.t) : M Reply :=
  fun w =>
    let limit := match ReadingsQuery.limit query with Some l => l | None => 50%nat end in
    let offset := match ReadingsQuery.offset query with Some o => o | None => 0%nat end in
    if refused select_readings then (reply_error 500 store_message, w)
    else
      let rows := newest_first (sensor_readings w) in
      let rows :=
        match ReadingsQuery.bin_id query with
        | Some bin_id => filter (fun r => Nat.eqb (Reading.bin_id r) bin_id) rows
        | None => rows
        end in
      (reply_readings 200
         (range (Z.of_nat offset) (Z.of_nat offset + Z.of_nat limit - 1) rows), w).

(** GET /api/devices/readings/:id *)
Definition getReadingById (id : nat) : M Reply :=
  fun w =>
    if refused (select_reading id) then (reply_error 404 reading_not_found, w)
    else
      match single (filter (fun r => Nat.eqb (Reading.id r) id) (sensor_readings w)) with
      | Some data => (reply_reading 200 data, w)
      | None => (reply_error 404 reading_not_found, w)
      end.

(* ----------------------------------------------------------------- *)
(** *** binController.js *)

(** GET /api/bins/:id *)
Definition getBinById (id : nat) : M Reply :=
  fun w =>
    (* fetch the bin *)
    if refused (select_bin id) then (reply_error 404 no_such_bin, w)
    else
      match single (filter (fun b => Nat.eqb (Bin.id b) id) (bins w)) with
      | None => (reply_error 404 no_such_bin, w)
      | Some bin =>
          (* fetch the 10 most recent readings for this bin *)
          let readings :=
            if refused (select_recent_readings id) then None
            else Some (firstn 10 (filter (fun r => Nat.eqb (Reading.bin_id r) id)
                                    (newest_first (sensor_readings w)))) in
          (reply_bin 200 bin (match readings with Some l => l | None => [] end), w)
      end.

(** GET /api/bins/stats/overview.  The world keeps neither status nor
    bin_type of a bin, so the answer of the store to
    [select id, fill_level, status, bin_type] is an argument: the rows, or
    nothing when the store answers with an error. *)
Definition getBinStats (answer : option (list BinColumns.t)) : Reply :=
  match answer with
  | None => reply_error 500 store_message
  | Some bins =>
      let totalBins := List.length bins in
      let avgFillLevel :=
        if (0 <? totalBins)%nat
        then Math_round
               (fold_left (fun sum b => sum + BinColumns.fill_level b) bins 0
                / inject_Z (Z.of_nat totalBins))
        else 0%Z in
      (* count bins by status *)
      let byStatus := count_by BinStatus_eqb BinColumns.status bins in
      (* count bins by fill level bracket for the dashboard *)
      let fillBrackets :=
        mkFillBrackets
          (List.length (filter (fun b => lt (BinColumns.fill_level b) 25) bins))
          (List.length (filter (fun b => geq (BinColumns.fill_level b) 25
                                         && lt (BinColumns.fill_level b) 50) bins))
          (List.length (filter (fun b => geq (BinColumns.fill_level b) 50
                                         && lt (BinColumns.fill_level b) 80) bins))
          (List.length (filter (fun b => geq (BinColumns.fill_level b) 80
                                         && lt (BinColumns.fill_level b) 95) bins))
          (List.length (filter (fun b => geq (BinColumns.fill_level b) 95) bins)) in
      reply_bin_stats 200 (mkBinStats totalBins avgFillLevel byStatus fillBrackets)
  end.

(** POST /api/bins.  An insert the store refuses for another reason gives
    500; the unique constraint on bin_code makes the insert fail with code
    23505 when a bin already carries the code. *)
Definition createBin (body : BinBody.t) : M Reply :=
  fun w =>
    match BinBody.bin_code body, BinBody.location body with
    | Some bin_code, Some location =>
        if negb (truthy_string (Some bin_code)) || negb (truthy_string (Some location))
        then (reply_error 400 bin_code_and_location_required, w)
        else
          let payload :=
            NewBin.mk bin_code location
              (number_or_null (BinBody.latitude body))
              (number_or_null (BinBody.longitude body))
              (match BinBody.bin_type body with Some t => t | None => general end) in
          if refused insert_bin then (reply_error 500 store_message, w)
          else if existsb (fun b => String.eqb (Bin.bin_code b) bin_code) (bins w)
          then (reply_error 409 bin_code_taken, w)
          else
            let data := bin_row (next_id w) payload in
            (reply_bin_created 201 data,
             with_next_id (S (next_id w)) (with_bins (fun t => t ++ [data]) w))
    | _, _ => (reply_error 400 bin_code_and_location_required, w)
    end.

(* ----------------------------------------------------------------- *)
(** *** userController.js *)

(** POST /api/users.  An insert the store refuses for another reason gives
    500; the unique constraint on email makes the insert fail with code 23505
    when a user already has the email. *)
Definition createUser (body : UserBody.t) : M Reply :=
  fun w =>
    match UserBody.email body, UserBody.full_name body with
    | Some email', Some full_name =>
        if negb (truthy_string (Some email')) || negb (truthy_string (Some full_name))
        then (reply_error 400 email_and_full_name_required, w)
        else
          let payload :=
            NewUser.mk email' full_name
              (string_or_null (UserBody.phone body))
              (match UserBody.role body with Some r => r | None => collector end) in
          if refused insert_user then (reply_error 500 store_message, w)
          else if existsb (fun u => String.eqb (User.email u) email') (users w)
          then (reply_error 409 email_taken, w)
          else
            let data := user_row (next_id w) payload in
            (reply_user_created 201 data,
             with_next_id (S (next_id w)) (with_users (fun t => t ++ [data]) w))
    | _, _ => (reply_error 400 email_and_full_name_required, w)
    end.

End Queries.

(* ================================================================= *)
(** ** Vocabulary of the further properties *)

(** How urgent the candidate of a sensor is: 0 without candidate, otherwise
    one more than the rank of its severity. *)
Definition urgency (r : Reading.t) (f : Field) : nat :=
  match from_field f (candidateAlerts r) with
  | [] => 0%nat
  | a :: _ => S (rank (NewAlert.severity a))
  end.

(** The socket events of one alert. *)
Definition alert_events (a : Alert.t) : list Event :=
  [new_alert a; bin_alert (Alert.bin_id a) a].

(** The identifiers of the stored readings are below the next identifier
    the store hands out. *)
Definition readings_below_next (w : World) : Prop :=
  forall r, In r (sensor_readings w) -> (Reading.id r < next_id w)%nat.

(** The alerts of a bin that are open: its rows with resolved = false. *)
Definition open_alerts_of (b : nat) (rows : list Alert.t) : list Alert.t :=
  filter (fun a => Nat.eqb (Alert.bin_id a) b && column_eqb (Alert.resolved a) false) rows.

(** The sum of the counts of a map from keys to counts. *)
Definition sum_counts {K} (acc : list (K * nat)) : nat :=
  fold_right (fun kn s => (snd kn + s)%nat) 0%nat acc.

(** No call of the further handlers is refused. *)
Definition answered : Call -> bool := fun _ => false.

(** [acc[k] || 0] *)
Definition count_or_zero {K} (eqb : K -> K -> bool) (k : K) (acc : list (K * nat)) : nat :=
  match count_of eqb k acc with
  | Some n => n
  | None => 0%nat
  end.

(** The statistics [getAlertStats] answers with when the store answers. *)
Definition alert_stats (w : World) : AlertStats.t :=
  AlertStats.mk (List.length (alerts w))
    (List.length (filter (fun a => negb (truthy_boolean (Alert.resolved a))) (alerts w)))
    (count_by Severity_eqb Alert.severity (alerts w))
    (count_by AlertType_eqb Alert.alert_type (alerts w)).

(** The severity of the fill candidate of a reading, if it has one. *)
Definition fill_alert_of (r : Reading.t) : option Severity :=
  match from_field Fill (candidateAlerts r) with
  | [] => None
  | a :: _ => Some (NewAlert.severity a)
  end.

(** A reading that reports the fill level [v] and nothing else. *)
Definition reading_at (v : Q) : Reading.t :=
  Reading.mk 0 0 v None None None None None None.

(** A reading of the bin's current fill level would raise a fill alert of
    severity [s] (no fill alert, for [None]). *)
Definition alerting (s : option Severity) (b : BinColumns.t) : bool :=
  match fill_alert_of (reading_at (BinColumns.fill_level b)), s with
  | None, None => true
  | Some x, Some y => Severity_eqb x y
  | _, _ => false
  end.

(* ================================================================= *)
(** ** More sample data *)

Definition readings_of_bin_1 : ReadingsQuery.t :=
  ReadingsQuery.mk (Some 1%nat) (Some 2%nat) (Some 0%nat).

(** The depot after three readings of BIN-001 have been stored. *)
Definition busy_depot : World :=
  snd (receiveSensorData reliable (Some body_97)
         (snd (receiveSensorData reliable (Some body_battery_0)
                 (snd (receiveSensorData reliable (Some body_97) depot))))).

Definition fleet : list BinColumns.t :=
  [BinColumns.mk 1 10 active general;
   BinColumns.mk 2 60 active organic;
   BinColumns.mk 3 97 maintenance general;
   BinColumns.mk 4 40 active recyclable].

(** A sign-up that names no role and no phone. *)
Definition frank_body : UserBody.t :=
  UserBody.mk (Some "frank@example.com"%string) (Some "Frank Otieno"%string) None None.

(** A sign-up with the email of a user of the depot. *)
Definition alice_again : UserBody.t :=
  UserBody.mk (Some "alice@example.com"%string) (Some "Alice W."%string) None (Some admin).

Definition bin_2_body : BinBody.t :=
  BinBody.mk (Some "BIN-002"%string) (Some "Westlands"%string) None None None.

Definition bin_1_again : BinBody.t :=
  BinBody.mk (Some "BIN-001"%string) (Some "CBD"%string) None None (Some organic).

(** A reading of the bin BIN-002. *)
Definition body_bin_2 : SensorBody.t :=
  SensorBody.mk (Some "BIN-002"%string) (Value 85) None None None None None None.

(* ================================================================= *)
(** * Properties *)

(** ** Comparisons *)

Lemma geq_spec (x y : Q) : BoolSpec (y <= x) (x < y) (geq x y).
Proof.
  unfold geq. destruct (Qle_bool y x) eqn:E; constructor.
  - now apply Qle_bool_iff.
  - apply Qnot_le_lt. intro H. apply Qle_bool_iff in H. congruence.
Qed.

Lemma leq_spec (x y : Q) : BoolSpec (x <= y) (y < x) (leq x y).
Proof. unfold leq. exact (geq_spec y x). Qed.

Lemma lt_spec (x y : Q) : BoolSpec (x < y) (y <= x) (lt x y).
Proof.
  unfold lt. change (Qle_bool y x) with (geq x y).
  destruct (geq_spec x y); constructor; assumption.
Qed.

Lemma gt_spec (x y : Q) : BoolSpec (y < x) (x <= y) (gt x y).
Proof.
  unfold gt. change (Qle_bool x y) with (geq y x).
  destruct (geq_spec y x); constructor; assumption.
Qed.

Arguments geq : simpl never.
Arguments leq : simpl never.
Arguments lt : simpl never.
Arguments gt : simpl never.

Ltac thresholds :=
  unfold THRESHOLDS.fill.flash, THRESHOLDS.fill.critical, THRESHOLDS.fill.warning,
    THRESHOLDS.gas.critical, THRESHOLDS.gas.warning,
    THRESHOLDS.temperature.critical, THRESHOLDS.temperature.warning,
    THRESHOLDS.battery.critical, THRESHOLDS.battery.warning in *.

(** Decide every comparison in the goal, dropping the impossible cases. *)
Ltac compare_all :=
  repeat match goal with
    | |- context [geq ?x ?y] => destruct (geq_spec x y)
    | |- context [leq ?x ?y] => destruct (leq_spec x y)
    | |- context [lt ?x ?y] => destruct (lt_spec x y)
    | |- context [gt ?x ?y] => destruct (gt_spec x y)
    end;
  thresholds; try (exfalso; lra).

(** ** The threshold policy, sensor by sensor *)

Lemma candidateAlerts_split (r : Reading.t) :
  candidateAlerts r =
  fill_candidates r ++ gas_candidates r ++ temperature_candidates r ++ battery_candidates r.
Proof.
  unfold candidateAlerts, fill_candidates, gas_candidates, temperature_candidates,
    battery_candidates.
  destruct (geq (Reading.fill_level r) THRESHOLDS.fill.flash),
    (geq (Reading.fill_level r) THRESHOLDS.fill.critical),
    (geq (Reading.fill_level r) THRESHOLDS.fill.warning);
  destruct (Reading.gas_level r) as [g|];
    try destruct (geq g THRESHOLDS.gas.critical);
    try destruct (geq g THRESHOLDS.gas.warning);
  destruct (Reading.temperature r) as [t|];
    try destruct (geq t THRESHOLDS.temperature.critical);
    try destruct (geq t THRESHOLDS.temperature.warning);
  destruct (Reading.battery_level r) as [b|];
    try destruct (leq b THRESHOLDS.battery.critical);
    try destruct (leq b THRESHOLDS.battery.warning);
  reflexivity.
Qed.

Lemma from_field_app (f : Field) (l1 l2 : list NewAlert.t) :
  from_field f (l1 ++ l2) = from_field f l1 ++ from_field f l2.
Proof. apply filter_app. Qed.

Lemma from_field_fill (r : Reading.t) (f : Field) :
  from_field f (fill_candidates r) = if Field_eqb Fill f then fill_candidates r else [].
Proof.
  unfold fill_candidates.
  destruct f; repeat match goal with |- context [if geq ?x ?y then _ else _] =>
    destruct (geq x y) end; reflexivity.
Qed.

Lemma from_field_gas (r : Reading.t) (f : Field) :
  from_field f (gas_candidates r) = if Field_eqb Gas f then gas_candidates r else [].
Proof.
  unfold gas_candidates.
  destruct f, (Reading.gas_level r); repeat match goal with
    |- context [if geq ?x ?y then _ else _] => destruct (geq x y) end; reflexivity.
Qed.

Lemma from_field_temperature (r : Reading.t) (f : Field) :
  from_field f (temperature_candidates r) =
  if Field_eqb Temperature f then temperature_candidates r else [].
Proof.
  unfold temperature_candidates.
  destruct f, (Reading.temperature r); repeat match goal with
    |- context [if geq ?x ?y then _ else _] => destruct (geq x y) end; reflexivity.
Qed.

Lemma from_field_battery (r : Reading.t) (f : Field) :
  from_field f (battery_candidates r) =
  if Field_eqb Battery f then battery_candidates r else [].
Proof.
  unfold battery_candidates.
  destruct f, (Reading.battery_level r); repeat match goal with
    |- context [if leq ?x ?y then _ else _] => destruct (leq x y) end; reflexivity.
Qed.

(** Each sensor's slice of the candidates is what its own checks produce. *)
Lemma from_field_candidateAlerts (r : Reading.t) (f : Field) :
  from_field f (candidateAlerts r) =
  match f with
  | Fill => fill_candidates r
  | Gas => gas_candidates r
  | Temperature => temperature_candidates r
  | Battery => battery_candidates r
  end.
Proof.
  rewrite candidateAlerts_split, !from_field_app, from_field_fill, from_field_gas,
    from_field_temperature, from_field_battery.
  destruct f; simpl; rewrite ?app_nil_r; reflexivity.
Qed.

(** C1.  The threshold policy maps each measured field of a reading to at
    most one candidate, by tier.  Fill level in [50,80) gives exactly one
    fill_warning/medium candidate, in [80,95) fill_critical/high, from 95 on
    fill_critical/critical, below 50 none.  Battery level up to 10 gives
    maintenance_needed/critical, in (10,20] maintenance_needed/medium, above
    20 or absent none.  Gas level from 500 on gives gas_detected/critical, in
    [200,500) gas_detected/high, otherwise none.  Temperature from 60 on
    gives maintenance_needed/critical, in [45,60) maintenance_needed/high,
    otherwise none. *)
Theorem C1_threshold_tiers (r : Reading.t) :
  let c := candidateAlerts r in
  let fill := Reading.fill_level r in
  (* fill level *)
  (50 <= fill /\ fill < 80 -> kinds (from_field Fill c) = [(fill_warning, medium)]) /\
  (80 <= fill /\ fill < 95 -> kinds (from_field Fill c) = [(fill_critical, high)]) /\
  (95 <= fill -> kinds (from_field Fill c) = [(fill_critical, critical)]) /\
  (fill < 50 -> from_field Fill c = []) /\
  (* battery level *)
  (forall b, Reading.battery_level r = Some b -> b <= 10 ->
     kinds (from_field Battery c) = [(maintenance_needed, critical)]) /\
  (forall b, Reading.battery_level r = Some b -> 10 < b /\ b <= 20 ->
     kinds (from_field Battery c) = [(maintenance_needed, medium)]) /\
  (forall b, Reading.battery_level r = Some b -> 20 < b -> from_field Battery c = []) /\
  (Reading.battery_level r = None -> from_field Battery c = []) /\
  (* gas level *)
  (forall g, Reading.gas_level r = Some g -> 500 <= g ->
     kinds (from_field Gas c) = [(gas_detected, critical)]) /\
  (forall g, Reading.gas_level r = Some g -> 200 <= g /\ g < 500 ->
     kinds (from_field Gas c) = [(gas_detected, high)]) /\
  (forall g, Reading.gas_level r = Some g -> g < 200 -> from_field Gas c = []) /\
  (Reading.gas_level r = None -> from_field Gas c = []) /\
  (* temperature *)
  (forall t, Reading.temperature r = Some t -> 60 <= t ->
     kinds (from_field Temperature c) = [(maintenance_needed, critical)]) /\
  (forall t, Reading.temperature r = Some t -> 45 <= t /\ t < 60 ->
     kinds (from_field Temperature c) = [(maintenance_needed, high)]) /\
  (forall t, Reading.temperature r = Some t -> t < 45 -> from_field Temperature c = []) /\
  (Reading.temperature r = None -> from_field Temperature c = []) /\
  (* at most one candidate per field *)
  (forall f, (List.length (from_field f c) <= 1)%nat).
Proof.
  cbv zeta.
  assert (L : forall f, (List.length (from_field f (candidateAlerts r)) <= 1)%nat).
  { intros f. rewrite from_field_candidateAlerts.
    unfold fill_candidates, gas_candidates, temperature_candidates, battery_candidates.
    destruct f, (Reading.gas_level r), (Reading.temperature r), (Reading.battery_level r);
      compare_all; simpl; lia. }
  repeat match goal with |- _ /\ _ => split end; try exact L;
    rewrite from_field_candidateAlerts;
    unfold fill_candidates, gas_candidates, temperature_candidates, battery_candidates;
    intros;
    repeat match goal with
      | H : _ /\ _ |- _ => destruct H
      | H : ?x = _ |- context [match ?x with _ => _ end] => rewrite H
      end;
    compare_all; reflexivity.
Qed.

Lemma C1_threshold_tiers_witness :
  kinds (from_field Fill (candidateAlerts reading_60_250_70_5)) = [(fill_warning, medium)] /\
  kinds (from_field Battery (candidateAlerts reading_60_250_70_5)) =
    [(maintenance_needed, critical)] /\
  kinds (from_field Gas (candidateAlerts reading_60_250_70_5)) = [(gas_detected, high)] /\
  kinds (from_field Temperature (candidateAlerts reading_60_250_70_5)) =
    [(maintenance_needed, critical)] /\
  from_field Fill (candidateAlerts reading_battery_0) = [].
Proof.
  destruct (C1_threshold_tiers reading_60_250_70_5)
    as (H1 & _ & _ & _ & H5 & _ & _ & _ & _ & H10 & _ & _ & H13 & _).
  destruct (C1_threshold_tiers reading_battery_0) as (_ & _ & _ & H4 & _).
  split; [|split; [|split; [|split]]].
  - apply H1. split; vm_compute; [discriminate | reflexivity].
  - apply (H5 5); [reflexivity | vm_compute; discriminate].
  - apply (H10 250); [reflexivity|]. split; vm_compute; [discriminate | reflexivity].
  - apply (H13 70); [reflexivity | vm_compute; discriminate].
  - apply H4. vm_compute. reflexivity.
Defined.

(** C2.  The candidates of a reading come in the order fill, gas,
    temperature, battery.  Each field contributes at most one candidate, the
    highest tier of the rule table that applies to it.  A reading that
    breaches several fields (such as fill 85 with battery 5) yields one
    candidate per breached field, in that order.  A gas, temperature or
    battery field that is absent contributes no candidate. *)
Theorem C2_candidate_order (r : Reading.t) :
  let c := candidateAlerts r in
  (* one candidate per breached field, in the fixed order *)
  fields c = filter (breached r) [Fill; Gas; Temperature; Battery] /\
  c = from_field Fill c ++ from_field Gas c ++ from_field Temperature c
        ++ from_field Battery c /\
  (* at most one per field, and it is the highest applicable tier *)
  (forall f, (List.length (from_field f c) <= 1)%nat) /\
  (forall f, kinds (from_field f c) = tier_kinds (highest (applicable r f))) /\
  (* several breaches in one reading *)
  (Reading.fill_level r = 85 -> Reading.gas_level r = None ->
   Reading.temperature r = None -> Reading.battery_level r = Some 5 ->
   kinds c = [(fill_critical, high); (maintenance_needed, critical)]) /\
  (* absent fields are skipped *)
  (Reading.gas_level r = None -> from_field Gas c = []) /\
  (Reading.temperature r = None -> from_field Temperature c = []) /\
  (Reading.battery_level r = None -> from_field Battery c = []).
Proof.
  cbv zeta.
  repeat match goal with |- _ /\ _ => split end.
  - rewrite candidateAlerts_split.
    unfold fields, breached, applicable, tier_table, tier_applies, measured,
      fill_candidates, gas_candidates, temperature_candidates, battery_candidates.
    thresholds.
    destruct (Reading.gas_level r), (Reading.temperature r), (Reading.battery_level r);
      simpl; compare_all; reflexivity.
  - rewrite !from_field_candidateAlerts. apply candidateAlerts_split.
  - intros f. rewrite from_field_candidateAlerts.
    unfold fill_candidates, gas_candidates, temperature_candidates, battery_candidates.
    destruct f, (Reading.gas_level r), (Reading.temperature r), (Reading.battery_level r);
      compare_all; simpl; lia.
  - intros f. rewrite from_field_candidateAlerts.
    unfold applicable, tier_table, tier_applies, measured,
      fill_candidates, gas_candidates, temperature_candidates, battery_candidates.
    thresholds.
    destruct f, (Reading.gas_level r), (Reading.temperature r), (Reading.battery_level r);
      simpl; compare_all; reflexivity.
  - intros Hf Hg Ht Hb. rewrite candidateAlerts_split.
    unfold fill_candidates, gas_candidates, temperature_candidates, battery_candidates.
    rewrite Hf, Hg, Ht, Hb. reflexivity.
  - intros H. rewrite from_field_candidateAlerts. unfold gas_candidates. now rewrite H.
  - intros H. rewrite from_field_candidateAlerts. unfold temperature_candidates.
    now rewrite H.
  - intros H. rewrite from_field_candidateAlerts. unfold battery_candidates.
    now rewrite H.
Qed.

Lemma C2_candidate_order_witness :
  kinds (candidateAlerts reading_85_5) =
    [(fill_critical, high); (maintenance_needed, critical)] /\
  from_field Gas (candidateAlerts reading_85_5) = [] /\
  from_field Temperature (candidateAlerts reading_85_5) = [].
Proof.
  destruct (C2_candidate_order reading_85_5) as (_ & _ & _ & _ & H5 & H6 & H7 & _).
  split; [|split].
  - apply H5; reflexivity.
  - apply H6; reflexivity.
  - apply H7; reflexivity.
Defined.

(** ** Ingestion: validation, lookup, storage *)

Lemma truthy_string_some (code : string) :
  code <> EmptyString -> truthy_string (Some code) = true.
Proof. destruct code; [congruence | reflexivity]. Qed.

(** What [receiveSensorData] does once the body has passed validation. *)
Lemma receiveSensorData_valid (env : Env) (body : SensorBody.t) (code : string)
  (fill : Q) (w : World) :
  valid_sensor_body body code fill ->
  receiveSensorData env (Some body) w =
  if fails env (select_bin_by_code code) then
    (json_error 404 (bin_with_code_not_found code), w)
  else
    match bin_with_code w code with
    | None => (json_error 404 (bin_with_code_not_found code), w)
    | Some bin_id =>
        if fails env insert_sensor_reading then (json_error 500 store_error_message, w)
        else
          let reading := reading_of_body body bin_id fill (next_id w) in
          let w1 := with_next_id (S (next_id w))
                      (with_sensor_readings (fun t => t ++ [reading]) w) in
          let w2 := snd (db_update_bin_fill env bin_id fill w1) in
          let w3 := snd (emitSensorReading env reading w2) in
          let (alerts, w4) := evaluateReading env reading w3 in
          (json_reading 201 reading (List.length alerts), w4)
    end.
Proof.
  intros (Hc & Hne & Hf & H0 & H100).
  unfold receiveSensorData. rewrite Hc, Hf, (truthy_string_some _ Hne).
  destruct (lt_spec fill 0); [lra|]. destruct (gt_spec fill 100); [lra|].
  cbn [orb]. unfold bind at 1. unfold db_select_bin_by_code, bin_with_code.
  destruct (fails env (select_bin_by_code code)); [reflexivity|].
  destruct (option_map Bin.id _) as [bin_id|]; [|reflexivity].
  unfold bind at 1. unfold db_insert_sensor_reading.
  destruct (fails env insert_sensor_reading); [reflexivity|].
  cbv zeta. unfold bind at 1.
  destruct (db_update_bin_fill env bin_id fill _) as [[] w2]. cbn [snd].
  unfold bind at 1.
  destruct (emitSensorReading env _ w2) as [[] w3]. cbn [snd].
  unfold bind at 1. unfold reading_of_body.
  destruct (evaluateReading env _ w3) as [alerts w4]. reflexivity.
Qed.

(** A body that fails validation is rejected before the store is touched. *)
Lemma receiveSensorData_invalid (env : Env) (body : SensorBody.t) (w : World) :
  bin_code_missing body \/ SensorBody.fill_level body = Undefined \/
  (exists fill, SensorBody.fill_level body = Value fill /\ (fill < 0 \/ 100 < fill)) ->
  exists e, receiveSensorData env (Some body) w = (json_error InvalidInput e, w).
Proof.
  intros H. unfold receiveSensorData.
  destruct H as [[H|H]|[H|(fill & H & Hr)]].
  - rewrite H. eexists; reflexivity.
  - rewrite H. eexists; reflexivity.
  - rewrite H. destruct (truthy_string _), (SensorBody.bin_code body);
      eexists; reflexivity.
  - rewrite H.
    destruct (truthy_string _), (SensorBody.bin_code body);
      try (eexists; reflexivity).
    assert (E : lt fill 0 || gt fill 100 = true).
    { destruct (lt_spec fill 0), (gt_spec fill 100); try reflexivity.
      destruct Hr; lra. }
    rewrite E. eexists; reflexivity.
Qed.

(** What [receiveSensorData] does with a fill level of null. *)
Lemma receiveSensorData_null (env : Env) (body : SensorBody.t) (code : string)
  (w : World) :
  SensorBody.bin_code body = Some code -> code <> EmptyString ->
  SensorBody.fill_level body = Null ->
  receiveSensorData env (Some body) w =
  if fails env (select_bin_by_code code) then
    (json_error 404 (bin_with_code_not_found code), w)
  else
    match bin_with_code w code with
    | None => (json_error 404 (bin_with_code_not_found code), w)
    | Some _ => (json_error 500 store_error_message, w)
    end.
Proof.
  intros Hc Hne Hf. unfold receiveSensorData.
  rewrite Hc, Hf, (truthy_string_some _ Hne).
  unfold bind at 1. unfold db_select_bin_by_code, bin_with_code.
  destruct (fails env (select_bin_by_code code)); [reflexivity|].
  destruct (option_map Bin.id _); reflexivity.
Qed.

Lemma no_bin_with_code (w : World) (code : string) :
  (forall b, In b (bins w) -> Bin.bin_code b <> code) -> bin_with_code w code = None.
Proof.
  intros Hnone.
  assert (E : filter (fun b => String.eqb (Bin.bin_code b) code) (bins w) = []).
  { induction (bins w) as [|b l IH]; [reflexivity|]. simpl.
    destruct (String.eqb_spec (Bin.bin_code b) code) as [Heq|_].
    - exfalso. apply (Hnone b); [now left | exact Heq].
    - apply IH. intros b' Hin. apply Hnone. now right. }
  unfold bin_with_code. now rewrite E.
Qed.

(** C4.  What the submit-reading handler rejects, and what it lets
    through.  A request whose bin code is missing, whose fill level is not
    sent or whose fill level is a number outside [0,100] is rejected with
    InvalidInput (400) and nothing is stored.  A valid request for a bin code
    that no bin carries is rejected with NotFound (404) and nothing is
    stored.  When the insert of the sensor reading fails the request ends
    with StorageError (500) and no later step runs: no bin update, no
    published event, no threshold evaluation.  A fill level of null is not
    taken as missing: the request passes the validation and the bin is looked
    up; it is answered with 404 when the lookup finds no bin and with 500
    otherwise, never with 400, and nothing is stored.  A request without a
    body is answered with 500. *)
Theorem C4_ingestion_rejections (env : Env) (body : SensorBody.t) (w : World) :
  (* validation *)
  (bin_code_missing body \/ SensorBody.fill_level body = Undefined \/
   (exists fill, SensorBody.fill_level body = Value fill /\ (fill < 0 \/ 100 < fill)) ->
   exists e, receiveSensorData env (Some body) w = (json_error InvalidInput e, w)) /\
  (* unknown bin *)
  (forall code fill, valid_sensor_body body code fill ->
   (forall b, In b (bins w) -> Bin.bin_code b <> code) ->
   exists e, receiveSensorData env (Some body) w = (json_error NotFound e, w)) /\
  (* the reading cannot be stored *)
  (forall code fill bin_id, valid_sensor_body body code fill ->
   fails env (select_bin_by_code code) = false ->
   bin_with_code w code = Some bin_id ->
   fails env insert_sensor_reading = true ->
   exists e, receiveSensorData env (Some body) w = (json_error StorageError e, w)) /\
  (* a fill level of null *)
  (forall code,
     SensorBody.bin_code body = Some code -> code <> EmptyString ->
     SensorBody.fill_level body = Null ->
     snd (receiveSensorData env (Some body) w) = w /\
     status_code (fst (receiveSensorData env (Some body) w)) <> InvalidInput /\
     (fails env (select_bin_by_code code) = true \/ bin_with_code w code = None ->
      fst (receiveSensorData env (Some body) w) =
        json_error NotFound (bin_with_code_not_found code)) /\
     (forall bin_id,
        fails env (select_bin_by_code code) = false ->
        bin_with_code w code = Some bin_id ->
        fst (receiveSensorData env (Some body) w) =
          json_error StorageError store_error_message)) /\
  (* no body *)
  receiveSensorData env None w = (json_error 500 internal_server_error, w).
Proof.
  split; [|split; [|split; [|split]]].
  - apply receiveSensorData_invalid.
  - intros code fill Hv Hnone.
    rewrite (receiveSensorData_valid env body code fill w Hv).
    destruct (fails env (select_bin_by_code code)); [eexists; reflexivity|].
    rewrite (no_bin_with_code w code Hnone). eexists; reflexivity.
  - intros code fill bin_id Hv Hsel Hbin Hins.
    rewrite (receiveSensorData_valid env body code fill w Hv), Hsel, Hbin, Hins.
    eexists; reflexivity.
  - intros code Hc Hne Hf. rewrite (receiveSensorData_null env body code w Hc Hne Hf).
    destruct (fails env (select_bin_by_code code)) eqn:Hsel.
    + split; [reflexivity|]. split; [discriminate|]. split; [reflexivity|].
      intros bin_id H. discriminate H.
    + destruct (bin_with_code w code) as [found|] eqn:Hbin.
      * split; [reflexivity|]. split; [discriminate|]. split.
        -- intros [H|H]; discriminate H.
        -- reflexivity.
      * split; [reflexivity|]. split; [discriminate|]. split; [reflexivity|].
        intros bin_id _ H. discriminate H.
  - reflexivity.
Qed.

Lemma C4_ingestion_rejections_witness :
  (exists e, receiveSensorData reliable (Some body_no_code) depot =
             (json_error InvalidInput e, depot)) /\
  (exists e, receiveSensorData reliable (Some body_unknown_bin) depot =
             (json_error NotFound e, depot)) /\
  (exists e, receiveSensorData reading_insert_refused (Some body_97) depot =
             (json_error StorageError e, depot)) /\
  fst (receiveSensorData reliable (Some body_null_fill) depot) =
    json_error StorageError store_error_message.
Proof.
  split; [|split; [|split]].
  - destruct (C4_ingestion_rejections reliable body_no_code depot) as (H & _).
    apply H. left. left. reflexivity.
  - destruct (C4_ingestion_rejections reliable body_unknown_bin depot) as (_ & H & _).
    apply (H "BIN-404"%string 30).
    + unfold valid_sensor_body. repeat apply conj; first [reflexivity | vm_compute; discriminate].
    + intros b [<-|[]]. vm_compute. discriminate.
  - destruct (C4_ingestion_rejections reading_insert_refused body_97 depot)
      as (_ & _ & H & _).
    apply (H "BIN-001"%string 97 1%nat).
    + unfold valid_sensor_body. repeat apply conj; first [reflexivity | vm_compute; discriminate].
    + reflexivity.
    + reflexivity.
    + reflexivity.
  - destruct (C4_ingestion_rejections reliable body_null_fill depot)
      as (_ & _ & _ & H & _).
    destruct (H "BIN-001"%string eq_refl ltac:(discriminate) eq_refl) as (_ & _ & _ & H4).
    exact (H4 1%nat eq_refl eq_refl).
Defined.

(** The validation as the specification words it fails: a reading of the
    known bin BIN-001 whose fill level is null passes the validation and is
    answered with 500 by the refused insert, not with 400. *)
Lemma C4_counterexample :
  ~ fill_level_required reliable body_null_fill depot /\
  receiveSensorData reliable (Some body_null_fill) depot =
    (json_error 500 store_error_message, depot).
Proof.
  split; [|reflexivity].
  intros H. specialize (H (or_intror eq_refl)). discriminate H.
Qed.

(** ** The notification dispatcher *)

Lemma same_records_refl (w : World) : same_records w w.
Proof. repeat split. Qed.

Lemma same_records_trans (w1 w2 w3 : World) :
  same_records w1 w2 -> same_records w2 w3 -> same_records w1 w3.
Proof.
  unfold same_records. intros (A1 & A2 & A3 & A4 & A5) (B1 & B2 & B3 & B4 & B5).
  repeat split; congruence.
Qed.

(** A dispatch whose insert is refused: nothing but the call itself happens. *)
Lemma sendNotification_insert_fails (env : Env) (r : NotificationRequest) (w : World) :
  fails env (insert_notification (req_user_id r) (req_alert_id r) (req_channel r)) = true ->
  sendNotification env r w = (None, with_dispatched (fun l => l ++ [r]) w).
Proof.
  intros H. unfold sendNotification, bind, entered, db_insert_notification.
  cbn. now rewrite H.
Qed.

(** A dispatch whose insert is accepted: the pending row is stored, the
    channel sender is called, the status update is issued. *)
Lemma sendNotification_inserted (env : Env) (r : NotificationRequest) (w : World) :
  fails env (insert_notification (req_user_id r) (req_alert_id r) (req_channel r)) = false ->
  let n := pending_row (next_id w) r in
  let delivered := delivered_by_channel (req_channel r) in
  let rows := notifications w ++ [n] in
  sendNotification env r w =
  (Some n,
   mkWorld (bins w) (sensor_readings w) (alerts w) (users w) (collection_logs w)
     (if fails env (update_notification (next_id w)) then rows
      else set_notification_status (next_id w)
             (if delivered then sent else failed)
             (if delivered then Some (now env) else None) rows)
     (S (next_id w)) (emitted w)
     (transported w ++ deliveries_of r)
     (dispatched w ++ [r])).
Proof.
  intros H. unfold sendNotification, bind, entered, db_insert_notification.
  cbn. rewrite H. cbn.
  unfold deliveries_of, sendEmail, sendSMS, sendPush, transport, ret,
    db_update_notification, pending_row.
  destruct (req_channel r); cbn;
    destruct (fails env (update_notification (next_id w))); cbn;
    rewrite ?app_nil_r; reflexivity.
Qed.

Lemma sendNotification_frame (env : Env) (r : NotificationRequest) (w : World) :
  let w' := snd (sendNotification env r w) in
  same_records w w' /\ emitted w' = emitted w /\ dispatched w' = dispatched w ++ [r].
Proof.
  destruct (fails env (insert_notification (req_user_id r) (req_alert_id r) (req_channel r)))
    eqn:E.
  - rewrite sendNotification_insert_fails by assumption. cbn. repeat split.
  - rewrite sendNotification_inserted by assumption. cbn. repeat split.
Qed.

Lemma In_set_notification_status (id : nat) (s : Status) (t : option nat)
  (rows : list Notification.t) (row : Notification.t) :
  In row (set_notification_status id s t rows) ->
  Notification.id row = id ->
  Notification.status row = s /\ Notification.sent_at row = t.
Proof.
  unfold set_notification_status. intros Hin Hid.
  apply in_map_iff in Hin. destruct Hin as (row0 & <- & _).
  destruct (Nat.eqb_spec (Notification.id row0) id) as [E|E]; [split; reflexivity|].
  contradiction.
Qed.

(** C7 (as the code has it).  Every dispatch call first inserts a pending
    notification row; when that insert fails the call returns nothing and no
    delivery is attempted.  For a row that was created the channel sender is
    called and one status update is issued, to sent with sent_at set or to
    failed with sent_at absent; once the store has carried out that update no
    row of the notification is pending.  The outcome of the update is not
    inspected: when the store refuses it the call still returns the
    notification and the row stays pending. *)
Theorem C7_dispatch_outcome (env : Env) (r : NotificationRequest) (w : World) :
  let inserting := insert_notification (req_user_id r) (req_alert_id r) (req_channel r) in
  let result := sendNotification env r w in
  let id := next_id w in
  (fails env inserting = true ->
   fst result = None /\
   transported (snd result) = transported w /\
   notifications (snd result) = notifications w) /\
  (fails env inserting = false ->
   fst result = Some (pending_row id r) /\
   transported (snd result) = transported w ++ deliveries_of r /\
   (fails env (update_notification id) = false ->
    In (Notification.mk id (req_user_id r) (req_alert_id r) (req_channel r)
          (req_message r) (final_status r) (final_sent_at env r))
       (notifications (snd result)) /\
    (forall row, In row (notifications (snd result)) -> Notification.id row = id ->
       Notification.status row = sent /\ Notification.sent_at row = Some (now env) \/
       Notification.status row = failed /\ Notification.sent_at row = None) /\
    never_left_pending env r w) /\
   (fails env (update_notification id) = true ->
    notifications (snd result) = notifications w ++ [pending_row id r])).
Proof.
  cbv zeta. split.
  - intros H. rewrite sendNotification_insert_fails by assumption. cbn. auto.
  - intros H.
    assert (Hrow : fails env (update_notification (next_id w)) = false ->
      forall row, In row (notifications (snd (sendNotification env r w))) ->
      Notification.id row = next_id w ->
      Notification.status row = final_status r /\
      Notification.sent_at row = final_sent_at env r).
    { intros Hu row. rewrite sendNotification_inserted by assumption. cbn.
      rewrite Hu. apply In_set_notification_status. }
    unfold never_left_pending.
    rewrite sendNotification_inserted in * by assumption. cbn in *.
    split; [reflexivity|]. split; [reflexivity|]. split.
    + intros Hu. specialize (Hrow Hu). rewrite Hu in *. split; [|split].
      * unfold set_notification_status. rewrite map_app. apply in_or_app. right.
        cbn. rewrite Nat.eqb_refl. left. reflexivity.
      * intros row Hin Hid. destruct (Hrow row Hin Hid) as [Hs Ht].
        unfold final_status, final_sent_at in *.
        destruct (delivered_by_channel (req_channel r)); auto.
      * intros n Hn row Hin Hid. injection Hn as <-. cbn in Hid.
        destruct (Hrow row Hin Hid) as [Hs _]. rewrite Hs. unfold final_status.
        destruct (delivered_by_channel (req_channel r)); discriminate.
    + intros Hu. now rewrite Hu.
Qed.

Lemma C7_dispatch_outcome_witness :
  fst (sendNotification reliable email_to_alice depot) =
    Some (pending_row 100 email_to_alice) /\
  never_left_pending reliable email_to_alice depot.
Proof.
  destruct (C7_dispatch_outcome reliable email_to_alice depot) as [_ H].
  destruct (H eq_refl) as (H1 & _ & H3 & _).
  destruct (H3 eq_refl) as (_ & _ & H4).
  split; [exact H1 | exact H4].
Defined.

(** The property as the specification words it fails: with a store that
    refuses the status update, the dispatch call returns the notification
    and its row is still pending. *)
Lemma C7_counterexample :
  ~ never_left_pending status_update_refused email_to_alice depot.
Proof.
  intros H.
  apply (H (pending_row 100 email_to_alice) eq_refl (pending_row 100 email_to_alice)).
  - cbn. left. reflexivity.
  - reflexivity.
  - reflexivity.
Qed.

(** ** Fan-out of notifications *)

Lemma forEach_dispatched {A} (body : A -> M unit)
  (effect : list User.t -> A -> list NotificationRequest) :
  (forall x w, same_records w (snd (body x w)) /\
               dispatched (snd (body x w)) = dispatched w ++ effect (users w) x) ->
  forall xs w,
    same_records w (snd (forEach xs body w)) /\
    dispatched (snd (forEach xs body w)) = dispatched w ++ flat_map (effect (users w)) xs.
Proof.
  intros Hbody. induction xs as [|x xs IH]; intros w.
  - cbn. rewrite app_nil_r. split; [apply same_records_refl | reflexivity].
  - cbn [forEach flat_map]. unfold bind at 1 2.
    destruct (Hbody x w) as [Hs Hd]. destruct (body x w) as [[] w1]. cbn [snd] in *.
    destruct (IH w1) as [Hs' Hd']. split.
    + eapply same_records_trans; eassumption.
    + rewrite Hd', Hd, <- app_assoc.
      destruct Hs as (_ & _ & _ & -> & _). reflexivity.
Qed.

Lemma notify_one_user (env : Env) (alert : Alert.t) (user : User.t) (w : World) :
  let body :=
    (when (truthy_string (Some (User.email user)))
       (sendNotification env (email_request alert user) ;;; ret tt) ;;;
     when (truthy_string (User.phone user)
           && Severity_eqb (Alert.severity alert) critical)
       (sendNotification env (sms_request alert user) ;;; ret tt))%handler in
  same_records w (snd (body w)) /\
  dispatched (snd (body w)) = dispatched w ++ requests_for alert user.
Proof.
  cbv zeta. unfold requests_for, when.
  destruct (truthy_string (Some (User.email user)));
    destruct (truthy_string (User.phone user) && Severity_eqb (Alert.severity alert) critical);
    unfold bind, ret;
    repeat match goal with
      | |- context [sendNotification env ?r ?w1] =>
          let H := fresh "H" in
          pose proof (sendNotification_frame env r w1) as H; cbv zeta in H;
          destruct (sendNotification env r w1) as [? ?]; cbn [snd] in H;
          destruct H as (? & _ & ?)
      end; cbn [snd]; split;
    try apply same_records_refl;
    try (eapply same_records_trans; eassumption);
    try assumption;
    rewrite ?app_nil_r; try reflexivity.
  repeat match goal with H : dispatched _ = _ |- _ => rewrite H; clear H end.
  now rewrite <- app_assoc.
Qed.

Lemma notifyRelevantUsers_effect (env : Env) (alert : Alert.t) (w : World) :
  same_records w (snd (notifyRelevantUsers env alert w)) /\
  dispatched (snd (notifyRelevantUsers env alert w)) =
  dispatched w ++ notified env (users w) alert.
Proof.
  unfold notifyRelevantUsers, notified, bind at 1. unfold db_select_users.
  destruct (fails env (select_users (Alert.id alert))).
  - cbn. rewrite app_nil_r. split; [apply same_records_refl | reflexivity].
  - pose proof (forEach_dispatched
      (fun user =>
         (when (truthy_string (Some (User.email user)))
            (sendNotification env (email_request alert user) ;;; ret tt) ;;;
          when (truthy_string (User.phone user)
                && Severity_eqb (Alert.severity alert) critical)
            (sendNotification env (sms_request alert user) ;;; ret tt))%handler)
      (fun _ => requests_for alert)
      (fun user w1 => notify_one_user env alert user w1)) as H.
    apply (H (filter _ (users w)) w).
Qed.

Lemma alert_step_effect (env : Env) (alert : Alert.t) (w : World) :
  let body := (emitAlert env alert ;;;
               when (high_or_critical (Alert.severity alert))
                 (notifyRelevantUsers env alert))%handler in
  same_records w (snd (body w)) /\
  dispatched (snd (body w)) = dispatched w ++ fan_out env (users w) alert.
Proof.
  cbv zeta. unfold bind, emitAlert, emit, ret, when, fan_out.
  destruct (io env); cbn [negb];
    destruct (high_or_critical (Alert.severity alert)); cbn [snd].
  - match goal with |- context [notifyRelevantUsers env alert ?w1] =>
      destruct (notifyRelevantUsers_effect env alert w1) as [Hs Hd] end.
    rewrite Hd. split; [|reflexivity].
    eapply same_records_trans; [|exact Hs]. repeat split.
  - rewrite app_nil_r. repeat split.
  - destruct (notifyRelevantUsers_effect env alert w) as [Hs Hd].
    rewrite Hd. split; [exact Hs | reflexivity].
  - rewrite app_nil_r. repeat split.
Qed.

(** What [evaluateReading] leaves behind. *)
Lemma evaluateReading_run (env : Env) (reading : Reading.t) (w w' : World)
  (created : list Alert.t) :
  evaluateReading env reading w = (created, w') ->
  (created = [] \/ created = alert_rows (next_id w) (candidateAlerts reading)) /\
  alerts w' = alerts w ++ created /\
  bins w' = bins w /\ sensor_readings w' = sensor_readings w /\
  users w' = users w /\ collection_logs w' = collection_logs w /\
  dispatched w' = dispatched w ++ flat_map (fan_out env (users w)) created.
Proof.
  unfold evaluateReading.
  destruct (0 <? List.length (candidateAlerts reading))%nat.
  2:{ intros [= <- <-]. cbn. rewrite !app_nil_r. auto 10. }
  unfold bind at 1. unfold db_insert_alerts.
  destruct (fails env insert_alerts).
  { intros [= <- <-]. cbn. rewrite !app_nil_r. auto 10. }
  cbv zeta. unfold bind at 1.
  match goal with |- context [forEach ?xs ?body ?w1] =>
    destruct (forEach_dispatched body (fan_out env)
                (fun alert w2 => alert_step_effect env alert w2) xs w1)
      as [(H1 & H2 & H3 & H4 & H5) Hd];
    destruct (forEach xs body w1) as [[] w2]
  end.
  intros [= <- <-]. cbn in *. rewrite H1, H2, H3, H4, H5, Hd. auto 10.
Qed.

Lemma evaluateReading_effect (env : Env) (reading : Reading.t) (w : World) :
  let created := fst (evaluateReading env reading w) in
  let w' := snd (evaluateReading env reading w) in
  (created = [] \/ created = alert_rows (next_id w) (candidateAlerts reading)) /\
  alerts w' = alerts w ++ created /\
  bins w' = bins w /\ sensor_readings w' = sensor_readings w /\
  users w' = users w /\ collection_logs w' = collection_logs w /\
  dispatched w' = dispatched w ++ flat_map (fan_out env (users w)) created.
Proof.
  cbv zeta. apply evaluateReading_run. apply surjective_pairing.
Qed.

(** ** Notifications that get their row and their sender call *)

Lemma sent_between_refl (w : World) : sent_between w w [].
Proof. unfold sent_between. cbn. now rewrite !app_nil_r. Qed.

Lemma sent_between_trans (w1 w2 w3 : World) (l1 l2 : list NotificationRequest) :
  sent_between w1 w2 l1 -> sent_between w2 w3 l2 -> sent_between w1 w3 (l1 ++ l2).
Proof.
  unfold sent_between. intros [A1 A2] [B1 B2].
  rewrite B1, A1, B2, A2, flat_map_app, <- !app_assoc. auto.
Qed.

(** A step that touches neither the notification table nor the senders. *)
Lemma sent_between_same (w w' : World) :
  notifications w' = notifications w -> transported w' = transported w ->
  sent_between w w' [].
Proof. unfold sent_between. intros -> ->. cbn. now rewrite !app_nil_r. Qed.

Lemma request_of_set_notification_status (id : nat) (s : Status) (t : option nat)
  (rows : list Notification.t) :
  map request_of (set_notification_status id s t rows) = map request_of rows.
Proof.
  unfold set_notification_status. rewrite map_map. apply map_ext.
  intros n. destruct (Nat.eqb (Notification.id n) id); reflexivity.
Qed.

Lemma filter_flat_map {A B} (p : B -> bool) (f : A -> list B) (l : list A) :
  filter p (flat_map f l) = flat_map (fun x => filter p (f x)) l.
Proof.
  induction l as [|x l IH]; [reflexivity|]. cbn. now rewrite filter_app, IH.
Qed.

Lemma sendNotification_sent (env : Env) (r : NotificationRequest) (w : World) :
  sent_between w (snd (sendNotification env r w)) (filter (accepted env) [r]).
Proof.
  cbn [filter]. unfold accepted.
  destruct (fails env (insert_notification (req_user_id r) (req_alert_id r) (req_channel r)))
    eqn:E; cbn [negb].
  - rewrite sendNotification_insert_fails by assumption. cbn [snd].
    apply sent_between_same; reflexivity.
  - rewrite sendNotification_inserted by assumption. cbv zeta. cbn [snd].
    unfold sent_between. cbn [notifications transported flat_map]. split.
    + destruct (fails env (update_notification (next_id w)));
        rewrite ?request_of_set_notification_status, map_app; cbn [map];
        unfold request_of, pending_row; cbn; destruct r; reflexivity.
    + now rewrite app_nil_r.
Qed.

Lemma forEach_sent {A} (body : A -> M unit)
  (effect : list User.t -> A -> list NotificationRequest) :
  (forall x w, same_records w (snd (body x w)) /\
               sent_between w (snd (body x w)) (effect (users w) x)) ->
  forall xs w,
    same_records w (snd (forEach xs body w)) /\
    sent_between w (snd (forEach xs body w)) (flat_map (effect (users w)) xs).
Proof.
  intros Hbody. induction xs as [|x xs IH]; intros w.
  - cbn. split; [apply same_records_refl | apply sent_between_refl].
  - cbn [forEach flat_map]. unfold bind at 1 2.
    destruct (Hbody x w) as [Hs Hd]. destruct (body x w) as [[] w1]. cbn [snd] in *.
    destruct (IH w1) as [Hs' Hd']. split.
    + eapply same_records_trans; eassumption.
    + eapply sent_between_trans; [exact Hd|].
      destruct Hs as (_ & _ & _ & <- & _). exact Hd'.
Qed.

Lemma notify_one_user_sent (env : Env) (alert : Alert.t) (user : User.t) (w : World) :
  let body :=
    (when (truthy_string (Some (User.email user)))
       (sendNotification env (email_request alert user) ;;; ret tt) ;;;
     when (truthy_string (User.phone user)
           && Severity_eqb (Alert.severity alert) critical)
       (sendNotification env (sms_request alert user) ;;; ret tt))%handler in
  same_records w (snd (body w)) /\
  sent_between w (snd (body w)) (filter (accepted env) (requests_for alert user)).
Proof.
  cbv zeta. split; [apply (notify_one_user env alert user w)|].
  unfold requests_for, when. rewrite filter_app.
  destruct (truthy_string (Some (User.email user)));
    destruct (truthy_string (User.phone user) && Severity_eqb (Alert.severity alert) critical);
    unfold bind, ret;
    repeat match goal with
      | |- context [sendNotification env ?r ?w1] =>
          let H := fresh "H" in
          pose proof (sendNotification_sent env r w1) as H;
          destruct (sendNotification env r w1) as [? ?]; cbn [snd] in H
      end; cbn [snd].
  - eapply sent_between_trans; eassumption.
  - change (filter (accepted env) []) with (@nil NotificationRequest).
    rewrite app_nil_r. assumption.
  - assumption.
  - apply sent_between_refl.
Qed.

Lemma notifyRelevantUsers_sent (env : Env) (alert : Alert.t) (w : World) :
  sent_between w (snd (notifyRelevantUsers env alert w))
    (filter (accepted env) (notified env (users w) alert)).
Proof.
  unfold notifyRelevantUsers, notified, bind at 1. unfold db_select_users.
  destruct (fails env (select_users (Alert.id alert))).
  - cbn. apply sent_between_refl.
  - rewrite filter_flat_map.
    pose proof (forEach_sent
      (fun user =>
         (when (truthy_string (Some (User.email user)))
            (sendNotification env (email_request alert user) ;;; ret tt) ;;;
          when (truthy_string (User.phone user)
                && Severity_eqb (Alert.severity alert) critical)
            (sendNotification env (sms_request alert user) ;;; ret tt))%handler)
      (fun _ user => filter (accepted env) (requests_for alert user))
      (fun user w1 => notify_one_user_sent env alert user w1)) as H.
    apply (H (filter _ (users w)) w).
Qed.

Lemma alert_step_sent (env : Env) (alert : Alert.t) (w : World) :
  let body := (emitAlert env alert ;;;
               when (high_or_critical (Alert.severity alert))
                 (notifyRelevantUsers env alert))%handler in
  same_records w (snd (body w)) /\
  sent_between w (snd (body w)) (recorded env (users w) alert).
Proof.
  cbv zeta. split; [apply (alert_step_effect env alert w)|].
  unfold bind, emitAlert, emit, ret, when, recorded, fan_out.
  destruct (io env); cbn [negb];
    destruct (high_or_critical (Alert.severity alert)); cbn [snd].
  - match goal with |- context [notifyRelevantUsers env alert ?w1] =>
      pose proof (notifyRelevantUsers_sent env alert w1) as H end.
    exact H.
  - apply sent_between_same; reflexivity.
  - apply notifyRelevantUsers_sent.
  - apply sent_between_refl.
Qed.

(** The notifications [evaluateReading] sends: for every created alert, in
    order, the fanned-out requests whose row the store accepts. *)
Lemma evaluateReading_sent_run (env : Env) (reading : Reading.t) (w w' : World)
  (created : list Alert.t) :
  evaluateReading env reading w = (created, w') ->
  sent_between w w' (flat_map (recorded env (users w)) created).
Proof.
  unfold evaluateReading.
  destruct (0 <? List.length (candidateAlerts reading))%nat.
  2:{ intros [= <- <-]. apply sent_between_refl. }
  unfold bind at 1. unfold db_insert_alerts.
  destruct (fails env insert_alerts).
  { intros [= <- <-]. apply sent_between_refl. }
  cbv zeta. unfold bind at 1.
  match goal with |- context [forEach ?xs ?body ?w1] =>
    destruct (forEach_sent body (recorded env)
                (fun alert w2 => alert_step_sent env alert w2) xs w1)
      as [_ Hd];
    destruct (forEach xs body w1) as [[] w2]
  end.
  intros [= <- <-]. cbn [snd] in Hd. unfold sent_between in *.
  cbn [users notifications transported with_next_id with_alerts] in Hd. exact Hd.
Qed.

Lemma evaluateReading_sent (env : Env) (reading : Reading.t) (w : World) :
  sent_between w (snd (evaluateReading env reading w))
    (flat_map (recorded env (users w)) (fst (evaluateReading env reading w))).
Proof. apply (evaluateReading_sent_run env reading). apply surjective_pairing. Qed.

Lemma sensor_body_valid_or_not (body : SensorBody.t) :
  (exists code fill, valid_sensor_body body code fill) \/
  (bin_code_missing body \/ SensorBody.fill_level body = Undefined \/
   (exists fill, SensorBody.fill_level body = Value fill /\ (fill < 0 \/ 100 < fill))) \/
  (exists code, SensorBody.bin_code body = Some code /\ code <> EmptyString /\
                SensorBody.fill_level body = Null).
Proof.
  unfold valid_sensor_body, bin_code_missing.
  destruct (SensorBody.bin_code body) as [[|c code]|]; auto.
  destruct (SensorBody.fill_level body) as [| |fill]; auto.
  - right. right. exists (String c code). repeat split; auto. discriminate.
  - destruct (Qlt_le_dec fill 0); [right; left; right; right; eauto|].
    destruct (Qlt_le_dec 100 fill); [right; left; right; right; eauto|].
    left. exists (String c code), fill. repeat split; auto. discriminate.
Qed.

(** A body that is not valid is answered with an error and changes nothing. *)
Lemma receiveSensorData_valid_or_rejected (env : Env) (body : SensorBody.t) (w : World) :
  (exists code fill, valid_sensor_body body code fill) \/
  (exists s e, receiveSensorData env (Some body) w = (json_error s e, w)).
Proof.
  destruct (sensor_body_valid_or_not body)
    as [Hv|[Hinv|(code & Hc & Hne & Hf)]]; [now left| |]; right.
  - destruct (receiveSensorData_invalid env body w Hinv) as [e ->]. eauto.
  - rewrite (receiveSensorData_null env body code w Hc Hne Hf).
    destruct (fails env (select_bin_by_code code)); [eauto|].
    destruct (bin_with_code w code); eauto.
Qed.

Lemma evaluateReading_insert_fails (env : Env) (reading : Reading.t) (w : World) :
  fails env insert_alerts = true -> evaluateReading env reading w = ([], w).
Proof.
  intros H. unfold evaluateReading.
  destruct (0 <? List.length (candidateAlerts reading))%nat; [|reflexivity].
  unfold bind, db_insert_alerts. now rewrite H.
Qed.

Lemma status_after_evaluation (env : Env) (reading : Reading.t) (w : World) :
  status_code
    (fst (let (alerts, w') := evaluateReading env reading w in
          (json_reading 201 reading (List.length alerts), w'))) = 201%nat.
Proof. destruct (evaluateReading env reading w). reflexivity. Qed.

Lemma evaluateReading_insert_accepted (env : Env) (reading : Reading.t) (w : World) :
  fails env insert_alerts = false ->
  fst (evaluateReading env reading w) = alert_rows (next_id w) (candidateAlerts reading).
Proof.
  intros H. unfold evaluateReading.
  destruct (candidateAlerts reading) as [|c l] eqn:E; [reflexivity|].
  cbn [List.length Nat.ltb Nat.leb]. unfold bind at 1. unfold db_insert_alerts.
  rewrite H. cbv zeta. unfold bind at 1.
  match goal with |- context [forEach ?xs ?body ?w1] =>
    destruct (forEach xs body w1) as [[] w2] end.
  reflexivity.
Qed.

(** C3.  Alert recording is all-or-nothing.  When the store accepts the
    batch insert, one row per candidate is stored and returned.  When the
    batch insert of the candidates of a reading fails, [evaluateReading]
    returns the empty sequence and no alert row is stored; the ingestion request still succeeds
    for the reading and reports zero alerts generated.  Whether the alert
    insert fails never changes the status of the ingestion request. *)
Theorem C3_alert_insert_failure (env : Env) (w : World) :
  (fails env insert_alerts = false ->
   forall reading,
     fst (evaluateReading env reading w) =
       alert_rows (next_id w) (candidateAlerts reading) /\
     alerts (snd (evaluateReading env reading w)) =
       alerts w ++ alert_rows (next_id w) (candidateAlerts reading)) /\
  (fails env insert_alerts = true ->
   (forall reading, evaluateReading env reading w = ([], w)) /\
   (forall body code fill bin_id,
      valid_sensor_body body code fill ->
      fails env (select_bin_by_code code) = false ->
      bin_with_code w code = Some bin_id ->
      fails env insert_sensor_reading = false ->
      let reading := reading_of_body body bin_id fill (next_id w) in
      exists w',
        receiveSensorData env (Some body) w = (json_reading 201 reading 0, w') /\
        sensor_readings w' = sensor_readings w ++ [reading] /\
        alerts w' = alerts w /\
        notifications w' = notifications w)) /\
  (forall req_body,
     status_code (fst (receiveSensorData (failing_alert_insert env) req_body w)) =
     status_code (fst (receiveSensorData env req_body w))).
Proof.
  split; [|split].
  - intros Hok reading.
    destruct (evaluateReading_effect env reading w) as (_ & Ha & _). cbv zeta in Ha.
    rewrite Ha, (evaluateReading_insert_accepted env reading w Hok). auto.
  - intros Hfail. split.
    + intros reading. now apply evaluateReading_insert_fails.
    + intros body code fill bin_id Hv Hsel Hbin Hins reading.
      rewrite (receiveSensorData_valid env body code fill w Hv), Hsel, Hbin, Hins.
      cbv zeta. rewrite evaluateReading_insert_fails by assumption.
      eexists. split; [reflexivity|].
      unfold db_update_bin_fill, emitSensorReading, emit, ret.
      destruct (fails env (update_bin_fill bin_id)), (io env); cbn; auto.
  - intros [body|]; [|reflexivity].
    destruct (sensor_body_valid_or_not body)
      as [(code & fill & Hv)|[Hinv|(code & Hc & Hne & Hf)]].
    + rewrite !(receiveSensorData_valid _ body code fill w Hv).
      cbn [failing_alert_insert fails].
      destruct (fails env (select_bin_by_code code)); [reflexivity|].
      destruct (bin_with_code w code); [|reflexivity].
      destruct (fails env insert_sensor_reading); [reflexivity|].
      cbv zeta. now rewrite !status_after_evaluation.
    + destruct (receiveSensorData_invalid env body w Hinv) as [e ->].
      destruct (receiveSensorData_invalid (failing_alert_insert env) body w Hinv)
        as [e' ->].
      reflexivity.
    + rewrite !(receiveSensorData_null _ body code w Hc Hne Hf).
      cbn [failing_alert_insert fails].
      destruct (fails env (select_bin_by_code code)); [reflexivity|].
      destruct (bin_with_code w code); reflexivity.
Qed.

Lemma C3_alert_insert_failure_witness :
  evaluateReading alert_insert_refused reading_97 depot = ([], depot) /\
  exists w',
    receiveSensorData alert_insert_refused (Some body_97) depot =
      (json_reading 201 (reading_of_body body_97 1 97 100) 0, w') /\
    alerts w' = alerts depot.
Proof.
  destruct (C3_alert_insert_failure alert_insert_refused depot) as (_ & H & _).
  destruct (H eq_refl) as [H1 H2]. split; [apply H1|].
  destruct (H2 body_97 "BIN-001"%string 97 1%nat) as (w' & Hr & _ & Ha & _);
    try reflexivity.
  - unfold valid_sensor_body. repeat apply conj; first [reflexivity | vm_compute; discriminate].
  - exists w'. split; assumption.
Defined.

Lemma truthy_string_iff (s : string) :
  truthy_string (Some s) = true <-> s <> EmptyString.
Proof. destruct s; cbn; split; congruence. Qed.

Lemma truthy_phone_iff (p : option string) :
  truthy_string p = true <-> exists s, p = Some s /\ s <> EmptyString.
Proof.
  destruct p as [[|c s]|]; cbn; split; try congruence.
  - intros (s & [= <-] & H). congruence.
  - intros _. eexists. split; [reflexivity | discriminate].
  - intros (s & H & _). discriminate.
Qed.

Lemma Severity_eqb_iff (s t : Severity) : Severity_eqb s t = true <-> s = t.
Proof. destruct s, t; cbn; split; congruence. Qed.

Lemma high_or_critical_iff (s : Severity) :
  high_or_critical s = true <-> s = high \/ s = critical.
Proof. destruct s; cbn; split; intros; try tauto; try congruence; destruct H; congruence. Qed.

Lemma relevant_iff (u : User.t) :
  relevant u = true <->
  User.is_active u = true /\ (User.role u = admin \/ User.role u = collector).
Proof.
  unfold relevant. destruct (User.role u), (User.is_active u); cbn; split;
    intros; try tauto; try congruence; destruct H as [? [?|?]]; congruence.
Qed.

Lemma In_requests_for (a : Alert.t) (u : User.t) (r : NotificationRequest) :
  In r (requests_for a u) <->
  (User.email u <> EmptyString /\ r = email_request a u) \/
  ((exists p, User.phone u = Some p /\ p <> EmptyString) /\
   Alert.severity a = critical /\ r = sms_request a u).
Proof.
  unfold requests_for. rewrite in_app_iff.
  rewrite <- truthy_string_iff, <- truthy_phone_iff, <- Severity_eqb_iff.
  destruct (truthy_string (Some (User.email u))), (truthy_string (User.phone u)),
    (Severity_eqb (Alert.severity a) critical); cbn; intuition congruence.
Qed.

Lemma In_fan_out (env : Env) (us : list User.t) (a : Alert.t) (r : NotificationRequest) :
  In r (fan_out env us a) <->
  (Alert.severity a = high \/ Alert.severity a = critical) /\
  fails env (select_users (Alert.id a)) = false /\
  exists u, In u us /\ User.is_active u = true /\
    (User.role u = admin \/ User.role u = collector) /\
    (User.email u <> EmptyString /\ r = email_request a u \/
     (exists p, User.phone u = Some p /\ p <> EmptyString) /\
     Alert.severity a = critical /\ r = sms_request a u).
Proof.
  unfold fan_out, notified. rewrite <- high_or_critical_iff.
  destruct (high_or_critical (Alert.severity a)); [|cbn; intuition congruence].
  destruct (fails env (select_users (Alert.id a))); [cbn; intuition congruence|].
  rewrite in_flat_map. split.
  - intros (u & Hu & Hr). apply filter_In in Hu. destruct Hu as [Hin Hrel].
    apply relevant_iff in Hrel. apply In_requests_for in Hr.
    repeat split; try reflexivity. exists u. tauto.
  - intros (_ & _ & u & Hin & Hact & Hrole & Hr). exists u. split.
    + apply filter_In. split; [exact Hin|]. apply relevant_iff. tauto.
    + apply In_requests_for. exact Hr.
Qed.

Lemma In_recorded (env : Env) (us : list User.t) (a : Alert.t) (r : NotificationRequest) :
  In r (recorded env us a) <->
  In r (fan_out env us a) /\
  fails env (insert_notification (req_user_id r) (req_alert_id r) (req_channel r)) = false.
Proof.
  unfold recorded, accepted. rewrite filter_In, negb_true_iff. reflexivity.
Qed.

(** A request that was sent between two states has its row in the table and
    its sender call among the calls. *)
Lemma sent_between_In (w w' : World) (l : list NotificationRequest)
  (r : NotificationRequest) :
  sent_between w w' l -> In r l ->
  (exists n, In n (notifications w') /\ request_of n = r) /\
  (delivered_by_channel (req_channel r) = true ->
   In (mkDelivery (req_channel r) (req_user_id r) (req_message r)) (transported w')).
Proof.
  intros [Hn Ht] Hin. split.
  - assert (H : In r (map request_of (notifications w'))).
    { rewrite Hn. apply in_or_app. now right. }
    apply in_map_iff in H. destruct H as (n & E & H). now exists n.
  - intros Hd. rewrite Ht. apply in_or_app. right. apply in_flat_map.
    exists r. split; [exact Hin|]. unfold deliveries_of. rewrite Hd. now left.
Qed.

(** C8 (as the code has it).  Notifications are fanned out exactly for the
    created alerts of high or critical severity.  For such an alert, when the
    user lookup succeeds, [sendNotification] is called with an email for
    every active admin or collector whose email is not empty, and with an sms
    as well exactly when the phone is present and the alert is critical.  A
    call whose notification row the store accepts sends the notification: the
    row is stored and the sender of the channel is called.  The rows added
    and the sender calls made are those of the accepted calls, in order, and
    no other.  No notification is sent for an alert of medium or low
    severity, and none when the user lookup fails. *)
Theorem C8_fan_out_policy (env : Env) (reading : Reading.t) (w : World) :
  let created := fst (evaluateReading env reading w) in
  let w' := snd (evaluateReading env reading w) in
  (* the calls of the dispatcher, in order *)
  dispatched w' = dispatched w ++ flat_map (fan_out env (users w)) created /\
  (* the notifications that are sent, in order: rows and sender calls *)
  sent_between w w' (flat_map (recorded env (users w)) created) /\
  (forall a r, In r (recorded env (users w) a) <->
     In r (fan_out env (users w) a) /\
     fails env (insert_notification (req_user_id r) (req_alert_id r) (req_channel r))
       = false) /\
  (* who is sent what for one alert *)
  (forall a r, In r (fan_out env (users w) a) <->
     (Alert.severity a = high \/ Alert.severity a = critical) /\
     fails env (select_users (Alert.id a)) = false /\
     exists u, In u (users w) /\ User.is_active u = true /\
       (User.role u = admin \/ User.role u = collector) /\
       (User.email u <> EmptyString /\ r = email_request a u \/
        (exists p, User.phone u = Some p /\ p <> EmptyString) /\
        Alert.severity a = critical /\ r = sms_request a u)) /\
  (* every relevant user with an email is reached *)
  (forall a u, In a created ->
     Alert.severity a = high \/ Alert.severity a = critical ->
     fails env (select_users (Alert.id a)) = false ->
     In u (users w) -> relevant u = true -> User.email u <> EmptyString ->
     fails env (insert_notification (User.id u) (Some (Alert.id a)) email) = false ->
     (exists l, sent_between w w' l /\ In (email_request a u) l) /\
     (exists n, In n (notifications w') /\
                Notification.user_id n = User.id u /\
                Notification.alert_id n = Some (Alert.id a) /\
                Notification.channel n = email /\
                Notification.message n = Alert.message a) /\
     In (mkDelivery email (User.id u) (Alert.message a)) (transported w')) /\
  (* nothing for medium or low *)
  (forall a, Alert.severity a = medium \/ Alert.severity a = low ->
     fan_out env (users w) a = [] /\ recorded env (users w) a = []).
Proof.
  cbv zeta.
  destruct (evaluateReading_effect env reading w) as (_ & _ & _ & _ & _ & _ & Hd).
  pose proof (evaluateReading_sent env reading w) as Hs.
  cbv zeta in Hd. split; [exact Hd|]. split; [exact Hs|].
  split; [|split; [|split]].
  - intros a r. apply In_recorded.
  - intros a r. apply In_fan_out.
  - intros a u Ha Hsev Hsel Hu Hrel Hmail Hins.
    assert (Hin : In (email_request a u)
                    (flat_map (recorded env (users w))
                       (fst (evaluateReading env reading w)))).
    { apply in_flat_map. exists a. split; [exact Ha|].
      apply In_recorded. split; [|exact Hins].
      apply In_fan_out. repeat split; try assumption.
      apply relevant_iff in Hrel. exists u. tauto. }
    split; [eauto|].
    destruct (sent_between_In _ _ _ _ Hs Hin) as [(n & Hn & E) Ht].
    split.
    + exists n. split; [exact Hn|]. unfold request_of, email_request in E.
      injection E as E1 E2 E3 E4. auto.
    + apply (Ht eq_refl).
  - intros a [H|H]; unfold recorded, fan_out; rewrite H; split; reflexivity.
Qed.

Lemma C8_fan_out_policy_witness :
  In (mkDelivery email (User.id bob) (msg_fill_flash 97))
     (transported (snd (evaluateReading reliable reading_97 depot))) /\
  exists n, In n (notifications (snd (evaluateReading reliable reading_97 depot))) /\
            Notification.user_id n = User.id bob /\ Notification.channel n = email.
Proof.
  destruct (C8_fan_out_policy reliable reading_97 depot) as (_ & _ & _ & _ & H & _).
  destruct (H (alert_row 100 (buildAlert reading_97 fill_critical critical
                                (msg_fill_flash 97))) bob)
    as (_ & (n & Hn & Hu & _ & Hc & _) & Ht).
  - cbn. left. reflexivity.
  - right. reflexivity.
  - reflexivity.
  - cbn. right. left. reflexivity.
  - reflexivity.
  - discriminate.
  - reflexivity.
  - split; [exact Ht|]. exists n. auto.
Defined.

(** The property as the specification words it fails three times: an active
    admin whose email is empty is skipped by the guard on [user.email],
    nobody is notified when the user lookup fails, and a user whose
    notification row the store refuses gets neither row nor sender call. *)
Lemma C8_counterexample :
  ~ every_relevant_user_emailed reliable reading_97 depot_with_erin /\
  ~ every_relevant_user_emailed user_lookup_refused reading_97 depot /\
  ~ every_relevant_user_emailed alice_email_refused reading_97 depot /\
  (forall n,
     In n (notifications (snd (evaluateReading reliable reading_97 depot_with_erin))) ->
     Notification.user_id n = User.id erin -> Notification.channel n = sms).
Proof.
  assert (E1 : notifications (snd (evaluateReading reliable reading_97 depot_with_erin)) =
                [Notification.mk 101 11 (Some 100%nat) email (msg_fill_flash 97) sent
                   (Some 1000%nat);
                 Notification.mk 102 11 (Some 100%nat) sms (msg_fill_flash 97) sent
                   (Some 1000%nat);
                 Notification.mk 103 15 (Some 100%nat) sms (msg_fill_flash 97) sent
                   (Some 1000%nat)])
    by (vm_compute; reflexivity).
  assert (E2 : notifications (snd (evaluateReading user_lookup_refused reading_97 depot))
               = []) by (vm_compute; reflexivity).
  assert (E3 : notifications (snd (evaluateReading alice_email_refused reading_97 depot)) =
                [Notification.mk 101 11 (Some 100%nat) sms (msg_fill_flash 97) sent
                   (Some 1000%nat);
                 Notification.mk 102 12 (Some 100%nat) email (msg_fill_flash 97) sent
                   (Some 1000%nat)])
    by (vm_compute; reflexivity).
  split; [|split; [|split]]; [intros H | intros H | intros H |].
  - destruct (H (alert_row 100 (buildAlert reading_97 fill_critical critical
                                  (msg_fill_flash 97))) erin)
      as (l & [Hl _] & Hin).
    + cbn. left. reflexivity.
    + right. reflexivity.
    + cbn. right. left. reflexivity.
    + reflexivity.
    + rewrite E1 in Hl. cbn in Hl. subst l.
      repeat (destruct Hin as [Hin|Hin]; [discriminate Hin|]). exact Hin.
  - destruct (H (alert_row 100 (buildAlert reading_97 fill_critical critical
                                  (msg_fill_flash 97))) alice)
      as (l & [Hl _] & Hin).
    + cbn. left. reflexivity.
    + right. reflexivity.
    + cbn. left. reflexivity.
    + reflexivity.
    + rewrite E2 in Hl. cbn in Hl. subst l. exact Hin.
  - destruct (H (alert_row 100 (buildAlert reading_97 fill_critical critical
                                  (msg_fill_flash 97))) alice)
      as (l & [Hl _] & Hin).
    + cbn. left. reflexivity.
    + right. reflexivity.
    + cbn. left. reflexivity.
    + reflexivity.
    + rewrite E3 in Hl. cbn in Hl. subst l.
      repeat (destruct Hin as [Hin|Hin]; [discriminate Hin|]). exact Hin.
  - rewrite E1. intros n [<-|[<-|[<-|[]]]] Hid; try reflexivity. discriminate Hid.
Qed.

(** ** The collection workflow *)

Lemma createCollection_run (env : Env) (body : CollectionBody.t) (w : World) :
  createCollection env body w =
  match CollectionBody.bin_id body with
  | None => (json_error 400 bin_id_required, w)
  | Some id =>
      if fails env (select_bin_by_id id) then (json_error 404 bin_not_found, w)
      else
        match bin_with_id w id with
        | None => (json_error 404 bin_not_found, w)
        | Some bin =>
            if fails env insert_collection_log
            then (json_error 500 store_error_message, w)
            else
              let log := log_of_body body bin id (next_id w) in
              (json_collection 201 log,
               snd (after_log_insert env body id
                      (with_next_id (S (next_id w))
                         (with_collection_logs (fun t => t ++ [log]) w))))
        end
  end.
Proof.
  unfold createCollection.
  destruct (CollectionBody.bin_id body) as [id|]; [|reflexivity].
  unfold bind at 1. unfold db_select_bin_by_id, bin_with_id.
  destruct (fails env (select_bin_by_id id)); [reflexivity|].
  destruct (single _) as [bin|]; [|reflexivity].
  unfold bind at 1. unfold db_insert_collection_log.
  destruct (fails env insert_collection_log); [reflexivity|].
  cbv zeta. unfold after_log_insert, log_of_body, bind.
  destruct (db_update_bin_emptied env id (now env) _) as [updatedBin w2].
  destruct (db_update_alerts_resolved env id (now env) _ w2) as [[] w3].
  destruct updatedBin as [b|].
  - destruct (emitBinStatusUpdate env b w3) as [[] w4]. reflexivity.
  - reflexivity.
Qed.

(** The tables after the steps that follow the insert of the log. *)
Lemma after_log_insert_tables (env : Env) (body : CollectionBody.t) (id : nat)
  (w : World) :
  let w' := snd (after_log_insert env body id w) in
  bins w' = (if fails env (update_bin_emptied id) then bins w
             else empty_bin id (now env) (bins w)) /\
  alerts w' = (if fails env (update_alerts_resolved id) then alerts w
               else resolve_open_alerts id (now env)
                      (CollectionBody.collected_by body) (alerts w)) /\
  collection_logs w' = collection_logs w /\
  sensor_readings w' = sensor_readings w /\
  users w' = users w /\ notifications w' = notifications w.
Proof.
  cbv zeta. unfold after_log_insert, bind, db_update_bin_emptied,
    db_update_alerts_resolved, emitBinStatusUpdate, emit, ret.
  destruct (fails env (update_bin_emptied id)),
    (fails env (update_alerts_resolved id)); cbn;
    try destruct (single _); destruct (io env); cbn; auto 10.
Qed.

Lemma filter_empty_bin (id t : nat) (rows : list Bin.t) :
  filter (fun b => Nat.eqb (Bin.id b) id) (empty_bin id t rows) =
  map (fun r => Bin.mk (Bin.id r) (Bin.bin_code r) 0 (Some t))
    (filter (fun b => Nat.eqb (Bin.id b) id) rows).
Proof.
  unfold empty_bin. induction rows as [|b rows IH]; [reflexivity|].
  cbn. destruct (Nat.eqb (Bin.id b) id) eqn:E; cbn; rewrite E, IH; reflexivity.
Qed.

Lemma bin_with_id_found (w : World) (id : nat) (bin : Bin.t) :
  bin_with_id w id = Some bin -> Bin.id bin = id /\ In bin (bins w).
Proof.
  unfold bin_with_id. intros H.
  assert (Hin : In bin (filter (fun b => Nat.eqb (Bin.id b) id) (bins w))).
  { destruct (filter _ (bins w)) as [|x [|y l]]; try discriminate.
    injection H as ->. now left. }
  apply filter_In in Hin. destruct Hin as [Hin E].
  apply Nat.eqb_eq in E. auto.
Qed.

Lemma bin_with_id_absent (w : World) (id : nat) :
  (forall b, In b (bins w) -> Bin.id b <> id) -> bin_with_id w id = None.
Proof.
  intros H. unfold bin_with_id.
  assert (E : filter (fun b => Nat.eqb (Bin.id b) id) (bins w) = []).
  { induction (bins w) as [|b l IH]; [reflexivity|]. cbn.
    destruct (Nat.eqb_spec (Bin.id b) id) as [Heq|_].
    - exfalso. apply (H b); [now left | exact Heq].
    - apply IH. intros b' Hin. apply H. now right. }
  now rewrite E.
Qed.

(** C5 (as the code has it).  A collection request names a bin.  For an
    existing bin whose log row the store accepts, the request succeeds, the
    inserted log has fill_level_before equal to the fill of the bin at the
    start of the request and fill_level_after equal to 0, and the reset that
    is issued sets fill_level to exactly 0 and last_emptied to the current
    time whatever the prior fill was; the bin is in that state once the store
    has carried out the reset.  The outcome of the reset is not inspected
    beyond skipping the socket event: when the store refuses it the request
    still succeeds and the bin keeps its fill level.  A request for a bin
    that does not exist fails with NotFound and changes nothing. *)
Theorem C5_collection_resets_bin (env : Env) (body : CollectionBody.t) (w : World)
  (id : nat) :
  CollectionBody.bin_id body = Some id ->
  let result := createCollection env body w in
  (forall bin,
     fails env (select_bin_by_id id) = false ->
     bin_with_id w id = Some bin ->
     fails env insert_collection_log = false ->
     exists log,
       fst result = json_collection 201 log /\
       collection_logs (snd result) = collection_logs w ++ [log] /\
       CollectionLog.bin_id log = id /\
       CollectionLog.fill_level_before log = Bin.fill_level bin /\
       CollectionLog.fill_level_after log = 0 /\
       (fails env (update_bin_emptied id) = false ->
        bin_with_id (snd result) id =
          Some (Bin.mk id (Bin.bin_code bin) 0 (Some (now env))) /\
        bin_emptied_after_collection env body w) /\
       (fails env (update_bin_emptied id) = true -> bins (snd result) = bins w)) /\
  ((forall b, In b (bins w) -> Bin.id b <> id) ->
   result = (json_error NotFound bin_not_found, w)).
Proof.
  intros Hid. cbv zeta. split.
  - intros bin Hsel Hbin Hins.
    unfold bin_emptied_after_collection.
    rewrite createCollection_run, Hid, Hsel, Hbin, Hins. cbv zeta. cbn [fst snd].
    match goal with |- context [after_log_insert env body id ?w1] =>
      destruct (after_log_insert_tables env body id w1) as (Hb & _ & Hl & _) end.
    cbv zeta in Hb, Hl.
    cbn [bins collection_logs with_next_id with_collection_logs] in Hb, Hl.
    eexists. split; [reflexivity|]. split; [exact Hl|].
    split; [reflexivity|]. split; [reflexivity|]. split; [reflexivity|].
    assert (Hreset : fails env (update_bin_emptied id) = false ->
      bin_with_id (snd (after_log_insert env body id
         (with_next_id (S (next_id w))
            (with_collection_logs
               (fun t => t ++ [log_of_body body bin id (next_id w)]) w)))) id =
      Some (Bin.mk id (Bin.bin_code bin) 0 (Some (now env)))).
    { intros Hu. rewrite Hu in Hb. unfold bin_with_id at 1.
      rewrite Hb, filter_empty_bin.
      destruct (bin_with_id_found w id bin Hbin) as [Hbid _].
      unfold bin_with_id in Hbin.
      destruct (filter _ (bins w)) as [|x [|y l]]; try discriminate.
      injection Hbin as ->. cbn. now rewrite Hbid. }
    split.
    + intros Hu. split; [exact (Hreset Hu)|].
      intros id' log' [= <-] _. eexists. split; [exact (Hreset Hu)|].
      split; reflexivity.
    + intros Hu. now rewrite Hu in Hb.
  - intros Hnone. rewrite createCollection_run, Hid.
    rewrite (bin_with_id_absent w id Hnone).
    destruct (fails env (select_bin_by_id id)); reflexivity.
Qed.

Lemma C5_collection_resets_bin_witness :
  bin_with_id (snd (createCollection reliable collection_by_bob depot)) 1 =
    Some (Bin.mk 1 "BIN-001" 0 (Some 1000%nat)) /\
  createCollection reliable collection_of_missing_bin depot =
    (json_error NotFound bin_not_found, depot).
Proof.
  split.
  - destruct (C5_collection_resets_bin reliable collection_by_bob depot 1 eq_refl)
      as [H _].
    destruct (H bin_1 eq_refl eq_refl eq_refl) as (log & _ & _ & _ & _ & _ & H1 & _).
    exact (proj1 (H1 eq_refl)).
  - destruct (C5_collection_resets_bin reliable collection_of_missing_bin depot 9 eq_refl)
      as [_ H].
    apply H. intros b [<-|[]]. discriminate.
Defined.

(** The property as the specification words it fails: with a store that
    refuses the reset of the bin, the request succeeds with status 201 and
    the bin still has its fill level of 70. *)
Lemma C5_counterexample :
  ~ bin_emptied_after_collection bin_reset_refused collection_by_bob depot.
Proof.
  intros H.
  destruct (H 1%nat (log_of_body collection_by_bob bin_1 1 100) eq_refl eq_refl)
    as (b & Hb & Hfill & _).
  vm_compute in Hb. injection Hb as <-. vm_compute in Hfill. discriminate Hfill.
Qed.



Lemma resolve_open_alerts_closed (b t : nat) (u : option nat) (rows : list Alert.t)
  (a' : Alert.t) :
  In a' (resolve_open_alerts b t u rows) -> Alert.bin_id a' = b ->
  Alert.resolved a' = Some true \/ (Alert.resolved a' = None /\ In a' rows).
Proof.
  unfold resolve_open_alerts. intros Hin Hb.
  apply in_map_iff in Hin. destruct Hin as (a & <- & Hin). revert Hb.
  destruct (Nat.eqb_spec (Alert.bin_id a) b) as [E|E];
    destruct (Alert.resolved a) as [[|]|] eqn:R; cbn; intros; auto; congruence.
Qed.

Lemma resolve_open_alerts_not_open (b t : nat) (u : option nat) (rows : list Alert.t)
  (a' : Alert.t) :
  In a' (resolve_open_alerts b t u rows) -> Alert.bin_id a' = b ->
  Alert.resolved a' <> Some false.
Proof.
  intros Hin Hb.
  destruct (resolve_open_alerts_closed b t u rows a' Hin Hb) as [H|[H _]];
    rewrite H; discriminate.
Qed.


(** ** Resolution state *)

Lemma alert_rows_unresolved (first : nat) (l : list NewAlert.t) (a : Alert.t) :
  (forall c, In c l -> NewAlert.resolved c = false) ->
  In a (alert_rows first l) -> unresolved a.
Proof.
  revert first. induction l as [|c l IH]; intros first Hl; cbn; [tauto|].
  intros [<-|Hin].
  - unfold unresolved, alert_row. cbn. rewrite (Hl c (or_introl eq_refl)). auto.
  - apply (IH (S first)); [|exact Hin]. intros c' Hc'. apply Hl. now right.
Qed.

Lemma candidateAlerts_open (reading : Reading.t) (c : NewAlert.t) :
  In c (candidateAlerts reading) -> NewAlert.resolved c = false.
Proof.
  rewrite candidateAlerts_split, !in_app_iff.
  unfold fill_candidates, gas_candidates, temperature_candidates, battery_candidates.
  destruct (Reading.gas_level reading), (Reading.temperature reading),
    (Reading.battery_level reading);
    repeat match goal with
      | |- context [if geq ?x ?y then _ else _] => destruct (geq x y)
      | |- context [if leq ?x ?y then _ else _] => destruct (leq x y)
      end; cbn; intuition (subst; reflexivity).
Qed.

Lemma created_unresolved (env : Env) (reading : Reading.t) (w : World) (a : Alert.t) :
  In a (fst (evaluateReading env reading w)) -> unresolved a.
Proof.
  destruct (evaluateReading_effect env reading w) as ([E|E] & _); cbv zeta in E;
    rewrite E; [intros []|].
  apply alert_rows_unresolved. apply candidateAlerts_open.
Qed.

Lemma resolveAlert_run (env : Env) (id : nat) (body : ResolveBody.t) (w : World) :
  resolveAlert env id body w =
  if fails env (update_alert id)
     || rejected (reads_boolean env) (ResolveBody.resolved body)
  then (json_error 404 alert_not_found_or_update_failed, w)
  else
    let rows := map (fun a => if Nat.eqb (Alert.id a) id
                              then apply_patch (reads_boolean env)
                                     (patch_of_body env body) a
                              else a)
                  (alerts w) in
    (match single (filter (fun a => Nat.eqb (Alert.id a) id) rows) with
     | Some data => json_alert 200 data
     | None => json_error 404 alert_not_found_or_update_failed
     end,
     with_alerts (fun _ => rows) w).
Proof.
  unfold resolveAlert, bind, db_update_alert, patch_of_body.
  destruct (ResolveBody.resolved body) as [| |s], (ResolveBody.resolved_by body);
    cbn [patch_resolved patch_resolved_at patch_resolved_by];
    match goal with |- context [if ?c then _ else _] => destruct c end;
    try reflexivity; cbn;
    match goal with |- context [single ?l] => destruct (single l) end; reflexivity.
Qed.

Lemma single_In {A} (l : list A) (x : A) : single l = Some x -> In x l.
Proof. destruct l as [|y [|z l]]; cbn; try discriminate. intros [= ->]. now left. Qed.

(** The alert that a patch returns is the patched row of an alert that was
    stored under the identifier. *)
Lemma resolveAlert_returns (env : Env) (id : nat) (body : ResolveBody.t) (w : World)
  (a : Alert.t) :
  fst (resolveAlert env id body w) = json_alert 200 a ->
  exists a0, In a0 (alerts w) /\ Alert.id a0 = id /\
             a = apply_patch (reads_boolean env) (patch_of_body env body) a0.
Proof.
  rewrite resolveAlert_run.
  destruct (fails env (update_alert id) || rejected _ _); [discriminate|].
  cbv zeta. cbn [fst].
  destruct (single _) as [data|] eqn:E; [|discriminate].
  intros [= ->]. apply single_In, filter_In in E. destruct E as [Hin Hid].
  apply in_map_iff in Hin. destruct Hin as (a0 & Ha & Hin0).
  apply Nat.eqb_eq in Hid.
  destruct (Nat.eqb_spec (Alert.id a0) id) as [E0|E0].
  - exists a0. auto.
  - subst a. contradiction.
Qed.

(** C9.  What the code does about the resolution state.  Every alert
    created by the alert service starts open, with no resolution time and no
    resolver.  The manual un-resolution path (a patch with resolved = false)
    returns the alert open and with its resolution time cleared, but it never
    clears the resolver: the resolver that comes back is the one sent with
    the request if there is one, and otherwise the one the alert already had,
    so an alert that had been resolved by someone is open with resolved_by
    still set.  A patch with resolved = null writes null to both resolved and
    resolved_at.  A patch that sends a truthy value other than a boolean
    for resolved (a non-empty text, a number other than 0, an array, an
    object) sets resolved_at to the current time whatever the value says:
    when the store reads the value as false, as it may the text false, the
    alert comes back open with a resolution time. *)
Theorem C9_resolution_state (env : Env) (w : World) :
  (forall reading a, In a (fst (evaluateReading env reading w)) -> unresolved a) /\
  (forall id body a,
     ResolveBody.resolved body = Value (Boolean false) ->
     fst (resolveAlert env id body w) = json_alert 200 a ->
     Alert.resolved a = Some false /\ Alert.resolved_at a = None /\
     exists a0, In a0 (alerts w) /\ Alert.id a0 = id /\
       Alert.resolved_by a =
       match ResolveBody.resolved_by body with
       | Some u => Some u
       | None => Alert.resolved_by a0
       end) /\
  (forall id body a,
     ResolveBody.resolved body = Null ->
     fst (resolveAlert env id body w) = json_alert 200 a ->
     Alert.resolved a = None /\ Alert.resolved_at a = None) /\
  (forall id body v a,
     ResolveBody.resolved body = Value v -> (forall b, v <> Boolean b) ->
     truthy (Value v) = true -> reads_boolean env v = Some false ->
     fst (resolveAlert env id body w) = json_alert 200 a ->
     Alert.resolved a = Some false /\ Alert.resolved_at a = Some (now env)).
Proof.
  split; [|split; [|split]].
  - intros reading a. apply created_unresolved.
  - intros id body a Hres Hret.
    destruct (resolveAlert_returns env id body w a Hret) as (a0 & Hin & Hid & ->).
    unfold apply_patch, patch_of_body. rewrite Hres. cbn.
    split; [reflexivity|]. split; [reflexivity|].
    exists a0. repeat split; assumption.
  - intros id body a Hres Hret.
    destruct (resolveAlert_returns env id body w a Hret) as (a0 & Hin & Hid & ->).
    unfold apply_patch, patch_of_body. rewrite Hres. cbn. split; reflexivity.
  - intros id body v a Hres Hnb Htrue Hread Hret.
    destruct (resolveAlert_returns env id body w a Hret) as (a0 & Hin & Hid & ->).
    unfold apply_patch, patch_of_body. rewrite Hres.
    cbn [patch_resolved patch_resolved_at Alert.resolved Alert.resolved_at].
    rewrite Htrue. split; [|reflexivity].
    destruct v as [b| | |]; [now destruct (Hnb b)| | |]; cbn [written]; exact Hread.
Qed.

Lemma C9_resolution_state_witness :
  (exists a,
     fst (resolveAlert reliable 22 reopen depot) = json_alert 200 a /\
     Alert.resolved a = Some false /\ Alert.resolved_at a = None /\
     Alert.resolved_by a = Some 12%nat) /\
  (exists a,
     fst (resolveAlert reliable 22 reopen_as_text depot) = json_alert 200 a /\
     Alert.resolved a = Some false /\ Alert.resolved_at a = Some 1000%nat).
Proof.
  destruct (C9_resolution_state reliable depot) as (_ & H2 & _ & H4).
  split.
  - eexists. split; [reflexivity|].
    destruct (H2 22%nat reopen _ eq_refl eq_refl) as (Hr & Ht & a0 & Hin & Hid & Hby).
    split; [exact Hr|]. split; [exact Ht|]. rewrite Hby.
    destruct Hin as [<-|[<-|[<-|[]]]]; first [discriminate Hid | reflexivity].
  - eexists. split; [reflexivity|].
    exact (H4 22%nat reopen_as_text (Text "false") _ eq_refl
             ltac:(discriminate) eq_refl eq_refl eq_refl).
Defined.

(** The property as the specification words it fails: re-opening alert 22,
    which user 12 had resolved, returns it open with resolved_by still set,
    and the stored row breaks the invariant that held before. *)
Lemma C9_counterexample :
  ~ unresolution_clears_both reliable 22 reopen depot /\
  resolution_invariant (alerts depot) /\
  ~ resolution_invariant (alerts (snd (resolveAlert reliable 22 reopen depot))) /\
  resolveAlert reliable 22 reopen depot =
    (json_alert 200
       (Alert.mk 22 1 fill_warning medium (msg_fill_warning 60) (Some false) None
          (Some 12%nat)),
     with_alerts
       (fun _ => [open_alert;
                  Alert.mk 22 1 fill_warning medium (msg_fill_warning 60) (Some false)
                    None (Some 12%nat);
                  other_bin_alert]) depot).
Proof.
  split; [|split; [|split]].
  - intros H. destruct (H _ eq_refl eq_refl) as [_ Hby]. discriminate Hby.
  - intros a [<-|[<-|[<-|[]]]]; cbn; intros; split; congruence.
  - intros H.
    destruct (H (Alert.mk 22 1 fill_warning medium (msg_fill_warning 60) (Some false)
                   None (Some 12%nat))) as [_ Hby].
    + cbn. right. left. reflexivity.
    + reflexivity.
    + discriminate Hby.
  - reflexivity.
Qed.

(** ** Falsy optional fields *)






(* ================================================================= *)
(** * Further properties *)

(** ** Threshold policy *)

Lemma fields_breached (r : Reading.t) :
  fields (candidateAlerts r) = filter (breached r) [Fill; Gas; Temperature; Battery].
Proof.
  rewrite candidateAlerts_split.
  unfold fields, breached, applicable, tier_table, tier_applies, measured,
    fill_candidates, gas_candidates, temperature_candidates, battery_candidates.
  thresholds.
  destruct (Reading.gas_level r), (Reading.temperature r), (Reading.battery_level r);
    simpl; compare_all; reflexivity.
Qed.

Lemma candidateAlerts_at_most_four (r : Reading.t) :
  (List.length (candidateAlerts r) <= 4)%nat.
Proof.
  rewrite <- (length_map (fun a => field_of_message (NewAlert.message a))).
  change (List.length (fields (candidateAlerts r)) <= 4)%nat.
  rewrite fields_breached.
  apply (filter_length_le (breached r) [Fill; Gas; Temperature; Battery]).
Qed.

(** X1.  The urgency of a sensor's candidate follows the measured value: a
    higher fill level, gas level or temperature never gives a less severe
    candidate (or none where there was one), and a higher battery level never
    gives a more severe one. *)
Theorem X1_urgency_is_monotone (r1 r2 : Reading.t) :
  (Reading.fill_level r1 <= Reading.fill_level r2 ->
   (urgency r1 Fill <= urgency r2 Fill)%nat) /\
  (forall g1 g2, Reading.gas_level r1 = Some g1 -> Reading.gas_level r2 = Some g2 ->
     g1 <= g2 -> (urgency r1 Gas <= urgency r2 Gas)%nat) /\
  (forall t1 t2, Reading.temperature r1 = Some t1 -> Reading.temperature r2 = Some t2 ->
     t1 <= t2 -> (urgency r1 Temperature <= urgency r2 Temperature)%nat) /\
  (forall b1 b2, Reading.battery_level r1 = Some b1 -> Reading.battery_level r2 = Some b2 ->
     b1 <= b2 -> (urgency r2 Battery <= urgency r1 Battery)%nat).
Proof.
  unfold urgency. rewrite !from_field_candidateAlerts.
  unfold fill_candidates, gas_candidates, temperature_candidates, battery_candidates.
  repeat split; intros;
    repeat match goal with
      | H : ?x = Some _ |- context [match ?x with _ => _ end] => rewrite H
      end;
    compare_all; cbn; lia.
Qed.

Lemma X1_urgency_is_monotone_witness :
  (urgency reading_60_250_70_5 Fill <= urgency reading_85_5 Fill)%nat /\
  (urgency reading_85_5 Battery <= urgency reading_battery_0 Battery)%nat.
Proof.
  split.
  - apply (proj1 (X1_urgency_is_monotone reading_60_250_70_5 reading_85_5)).
    vm_compute. discriminate.
  - destruct (X1_urgency_is_monotone reading_battery_0 reading_85_5) as (_ & _ & _ & H).
    apply (H 0 5); try reflexivity. vm_compute. discriminate.
Defined.

(** ** Ingestion: what a stored reading leaves behind *)

Lemma forEach_emitted {A} (body : A -> M unit) (ev : A -> list Event) :
  (forall x w, emitted (snd (body x w)) = emitted w ++ ev x) ->
  forall xs w, emitted (snd (forEach xs body w)) = emitted w ++ flat_map ev xs.
Proof.
  intros Hbody. induction xs as [|x xs IH]; intros w.
  - cbn. now rewrite app_nil_r.
  - cbn [forEach flat_map]. unfold bind at 1.
    specialize (Hbody x w). destruct (body x w) as [[] w1]. cbn [snd] in *.
    rewrite IH, Hbody. now rewrite app_assoc.
Qed.

Lemma flat_map_nothing {A B} (l : list A) : flat_map (fun _ => @nil B) l = [].
Proof. induction l as [|x l IH]; [reflexivity | exact IH]. Qed.

Lemma notifyRelevantUsers_emitted (env : Env) (alert : Alert.t) (w : World) :
  emitted (snd (notifyRelevantUsers env alert w)) = emitted w.
Proof.
  unfold notifyRelevantUsers, bind at 1. unfold db_select_users.
  destruct (fails env (select_users (Alert.id alert))); [reflexivity|].
  rewrite (forEach_emitted _ (fun _ => [])).
  - rewrite flat_map_nothing. apply app_nil_r.
  - intros user w1. unfold when.
    destruct (truthy_string (Some (User.email user)));
      destruct (truthy_string (User.phone user)
                && Severity_eqb (Alert.severity alert) critical);
      unfold bind, ret;
      repeat match goal with
        | |- context [sendNotification env ?r ?w2] =>
            let H := fresh "H" in
            pose proof (sendNotification_frame env r w2) as H; cbv zeta in H;
            destruct (sendNotification env r w2) as [? ?]; cbn [snd] in H;
            destruct H as (_ & ? & _)
        end; cbn [snd]; rewrite app_nil_r; congruence.
Qed.

Lemma evaluateReading_emitted (env : Env) (reading : Reading.t) (w w' : World)
  (created : list Alert.t) :
  evaluateReading env reading w = (created, w') ->
  emitted w' = emitted w ++ (if io env then flat_map alert_events created else []).
Proof.
  unfold evaluateReading.
  destruct (0 <? List.length (candidateAlerts reading))%nat.
  2:{ intros [= <- <-]. cbn. destruct (io env); now rewrite app_nil_r. }
  unfold bind at 1. unfold db_insert_alerts.
  destruct (fails env insert_alerts).
  { intros [= <- <-]. cbn. destruct (io env); now rewrite app_nil_r. }
  cbv zeta. unfold bind at 1.
  match goal with |- context [forEach ?xs ?body ?w1] =>
    assert (He : emitted (snd (forEach xs body w1)) =
                 emitted w1 ++ flat_map (fun a => if io env then alert_events a else []) xs);
    [apply forEach_emitted | destruct (forEach xs body w1) as [[] w2]]
  end.
  - intros a w1. unfold bind, emitAlert, emit, ret, when.
    destruct (io env); cbn [negb];
      destruct (high_or_critical (Alert.severity a)); cbn [snd];
      rewrite ?notifyRelevantUsers_emitted; cbn; rewrite ?app_nil_r; reflexivity.
  - intros [= <- <-]. cbn [snd] in He. rewrite He. cbn. f_equal.
    destruct (io env); [reflexivity|]. apply flat_map_nothing.
Qed.

(** The world after the steps of [receiveSensorData] that follow the insert
    of the reading and precede the evaluation. *)
Lemma before_evaluation (env : Env) (bin_id : nat) (fill : Q) (reading : Reading.t)
  (w : World) :
  let w3 := snd (emitSensorReading env reading
                   (snd (db_update_bin_fill env bin_id fill w))) in
  bins w3 = (if fails env (update_bin_fill bin_id) then bins w
             else set_bin_fill bin_id fill (bins w)) /\
  sensor_readings w3 = sensor_readings w /\ alerts w3 = alerts w /\
  users w3 = users w /\ collection_logs w3 = collection_logs w /\
  notifications w3 = notifications w /\ next_id w3 = next_id w /\
  emitted w3 = emitted w ++ (if io env
                             then [sensor_reading reading;
                                   bin_update_reading (Reading.bin_id reading) reading]
                             else []).
Proof.
  cbv zeta. unfold db_update_bin_fill, emitSensorReading, emit, ret.
  destruct (fails env (update_bin_fill bin_id)), (io env); cbn;
    rewrite ?app_nil_r; auto 10.
Qed.

Lemma In_set_bin_fill (id : nat) (v : Q) (rows : list Bin.t) (b : Bin.t) :
  In b (set_bin_fill id v rows) -> Bin.id b = id -> Bin.fill_level b = v.
Proof.
  unfold set_bin_fill. intros Hin Hid. apply in_map_iff in Hin.
  destruct Hin as (b0 & <- & _).
  destruct (Nat.eqb_spec (Bin.id b0) id); [reflexivity | contradiction].
Qed.

(** X2.  A valid reading for a known bin that the store accepts is answered
    with 201; the reading is appended to the stored readings; once the store
    has carried out the bin update, every row of that bin shows the submitted
    fill level and the other bins are as before; when the store accepts the
    alert insert, alerts_generated is the number of sensors whose threshold
    the reading breaches, at most four. *)
Theorem X2_ingestion_success (env : Env) (body : SensorBody.t) (w : World)
  (code : string) (fill : Q) (bin_id : nat) :
  valid_sensor_body body code fill ->
  fails env (select_bin_by_code code) = false ->
  bin_with_code w code = Some bin_id ->
  fails env insert_sensor_reading = false ->
  let reading := reading_of_body body bin_id fill (next_id w) in
  let w' := snd (receiveSensorData env (Some body) w) in
  exists n,
    fst (receiveSensorData env (Some body) w) = json_reading 201 reading n /\
    sensor_readings w' = sensor_readings w ++ [reading] /\
    (fails env (update_bin_fill bin_id) = false ->
     bins w' = set_bin_fill bin_id fill (bins w) /\
     (forall b, In b (bins w') -> Bin.id b = bin_id -> Bin.fill_level b = fill) /\
     (forall b, In b (bins w) -> Bin.id b <> bin_id -> In b (bins w'))) /\
    (fails env insert_alerts = false ->
     n = List.length (filter (breached reading) [Fill; Gas; Temperature; Battery]) /\
     (n <= 4)%nat).
Proof.
  intros Hv Hsel Hbin Hins. cbv zeta.
  rewrite (receiveSensorData_valid env body code fill w Hv), Hsel, Hbin, Hins.
  cbv zeta.
  match goal with |- context [evaluateReading env ?r ?w3] =>
    pose proof (evaluateReading_effect env r w3) as He;
    pose proof (fun H => evaluateReading_insert_accepted env r w3 H) as Hacc;
    destruct (evaluateReading env r w3) as [created w4]
  end.
  cbv zeta in He. cbn [fst snd] in *.
  destruct He as (_ & _ & Hb & Hr & _).
  match type of Hb with _ = bins (snd (emitSensorReading env ?r (snd (db_update_bin_fill env ?b ?f ?w1)))) =>
    destruct (before_evaluation env b f r w1) as (Hb1 & Hr1 & _) end.
  cbv zeta in Hb1, Hr1. cbn [bins sensor_readings with_next_id with_sensor_readings] in Hb1, Hr1.
  eexists. split; [reflexivity|]. split; [|split].
  - now rewrite Hr, Hr1.
  - intros Hu. rewrite Hu in Hb1. rewrite Hb, Hb1. split; [reflexivity|]. split.
    + intros b. apply In_set_bin_fill.
    + intros b Hin Hne. unfold set_bin_fill. apply in_map_iff. exists b.
      split; [|exact Hin]. destruct (Nat.eqb_spec (Bin.id b) bin_id); [contradiction|reflexivity].
  - intros Hok. rewrite (Hacc Hok).
    assert (L : forall first l, List.length (alert_rows first l) = List.length l).
    { intros first l. revert first. induction l; intros; cbn; auto. }
    rewrite L. split.
    + rewrite <- fields_breached. unfold fields. now rewrite length_map.
    + apply candidateAlerts_at_most_four.
Qed.

Lemma X2_ingestion_success_witness :
  exists n,
    fst (receiveSensorData reliable (Some body_97) depot) =
      json_reading 201 (reading_of_body body_97 1 97 100) n /\
    n = 1%nat.
Proof.
  destruct (X2_ingestion_success reliable body_97 depot "BIN-001"%string 97 1)
    as (n & Hr & _ & _ & Hn); try reflexivity.
  - unfold valid_sensor_body. repeat apply conj;
      first [reflexivity | vm_compute; discriminate].
  - exists n. split; [exact Hr|]. now destruct (Hn eq_refl) as [-> _].
Defined.

(** The alerts of a stored reading: the rows the request appended. *)
Lemma accepted_reading_alerts (env : Env) (body : SensorBody.t) (w : World)
  (reading : Reading.t) (n : nat) :
  fst (receiveSensorData env (Some body) w) = json_reading 201 reading n ->
  exists created,
    n = List.length created /\
    alerts (snd (receiveSensorData env (Some body) w)) = alerts w ++ created /\
    forall a, In a created -> unresolved a.
Proof.
  destruct (receiveSensorData_valid_or_rejected env body w)
    as [(code & fill & Hv)|(s & e & E)].
  2:{ rewrite E. discriminate. }
  rewrite (receiveSensorData_valid env body code fill w Hv).
  destruct (fails env (select_bin_by_code code)); [discriminate|].
  destruct (bin_with_code w code) as [bin_id|]; [|discriminate].
  destruct (fails env insert_sensor_reading); [discriminate|].
  cbv zeta.
  match goal with |- context [evaluateReading env ?r ?w3] =>
    pose proof (evaluateReading_effect env r w3) as He;
    pose proof (created_unresolved env r w3) as Hc;
    destruct (evaluateReading env r w3) as [created w4]
  end.
  cbv zeta in He. cbn [fst snd] in *. destruct He as (_ & Ha & _).
  intros [= <- <-]. exists created. split; [reflexivity|]. split; [|exact Hc].
  match type of Ha with _ = alerts (snd (emitSensorReading env ?r (snd (db_update_bin_fill env ?b ?f ?w1)))) ++ _ =>
    destruct (before_evaluation env b f r w1) as (_ & _ & Ha1 & _) end.
  cbv zeta in Ha1. cbn [alerts with_next_id with_sensor_readings] in Ha1.
  now rewrite Ha, Ha1.
Qed.

(** X3.  The socket events of a stored reading, in order: when the socket
    layer is up, the reading is published to everyone and to the room of its
    bin, then every created alert is published to everyone and to the room of
    its bin; when the socket layer is down nothing is published. *)
Theorem X3_ingestion_events (env : Env) (body : SensorBody.t) (w : World)
  (reading : Reading.t) (n : nat) :
  fst (receiveSensorData env (Some body) w) = json_reading 201 reading n ->
  exists created,
    n = List.length created /\
    alerts (snd (receiveSensorData env (Some body) w)) = alerts w ++ created /\
    emitted (snd (receiveSensorData env (Some body) w)) =
    emitted w ++
    (if io env
     then [sensor_reading reading; bin_update_reading (Reading.bin_id reading) reading]
          ++ flat_map alert_events created
     else []).
Proof.
  destruct (receiveSensorData_valid_or_rejected env body w)
    as [(code & fill & Hv)|(s & e & E)].
  2:{ rewrite E. discriminate. }
  rewrite (receiveSensorData_valid env body code fill w Hv).
  destruct (fails env (select_bin_by_code code)); [discriminate|].
  destruct (bin_with_code w code) as [bin_id|]; [|discriminate].
  destruct (fails env insert_sensor_reading); [discriminate|].
  cbv zeta.
  match goal with |- context [evaluateReading env ?r ?w3] =>
    pose proof (evaluateReading_effect env r w3) as He;
    pose proof (evaluateReading_emitted env r w3) as Hev;
    destruct (evaluateReading env r w3) as [created w4]
  end.
  cbv zeta in He. cbn [fst snd] in *. destruct He as (_ & Ha & _).
  specialize (Hev w4 created eq_refl).
  intros [= <- <-]. exists created. split; [reflexivity|].
  match type of Ha with _ = alerts (snd (emitSensorReading env ?r (snd (db_update_bin_fill env ?b ?f ?w1)))) ++ _ =>
    destruct (before_evaluation env b f r w1) as (_ & _ & Ha1 & _ & _ & _ & _ & He1) end.
  cbv zeta in Ha1, He1. cbn [alerts emitted with_next_id with_sensor_readings] in Ha1, He1.
  split.
  - now rewrite Ha, Ha1.
  - rewrite Hev, He1, <- app_assoc. f_equal.
    destruct (io env); cbn; [reflexivity|]. reflexivity.
Qed.

Lemma X3_ingestion_events_witness :
  exists created,
    1%nat = List.length created /\
    alerts (snd (receiveSensorData reliable (Some body_97) depot)) = alerts depot ++ created /\
    emitted (snd (receiveSensorData reliable (Some body_97) depot)) =
    emitted depot ++
    ([sensor_reading (reading_of_body body_97 1 97 100);
      bin_update_reading 1 (reading_of_body body_97 1 97 100)]
     ++ flat_map alert_events created).
Proof.
  exact (X3_ingestion_events reliable body_97 depot (reading_of_body body_97 1 97 100) 1
           eq_refl).
Defined.

Lemma candidateAlerts_bin (reading : Reading.t) (c : NewAlert.t) :
  In c (candidateAlerts reading) -> NewAlert.bin_id c = Reading.bin_id reading.
Proof.
  rewrite candidateAlerts_split, !in_app_iff.
  unfold fill_candidates, gas_candidates, temperature_candidates, battery_candidates.
  destruct (Reading.gas_level reading), (Reading.temperature reading),
    (Reading.battery_level reading);
    repeat match goal with
      | |- context [if geq ?x ?y then _ else _] => destruct (geq x y)
      | |- context [if leq ?x ?y then _ else _] => destruct (leq x y)
      end; cbn; intuition (subst; reflexivity).
Qed.

Lemma alert_rows_bin (first : nat) (l : list NewAlert.t) (a : Alert.t) :
  In a (alert_rows first l) -> exists c, In c l /\ Alert.bin_id a = NewAlert.bin_id c.
Proof.
  revert first. induction l as [|c l IH]; intros first; cbn; [tauto|].
  intros [<-|Hin].
  - exists c. split; [now left | reflexivity].
  - destruct (IH (S first) Hin) as (c' & Hc' & E). exists c'. split; [now right | exact E].
Qed.

(** The alerts a reading raises are filed under the bin of the reading. *)
Lemma created_for_bin (env : Env) (reading : Reading.t) (w : World) (a : Alert.t) :
  In a (fst (evaluateReading env reading w)) -> Alert.bin_id a = Reading.bin_id reading.
Proof.
  destruct (evaluateReading_effect env reading w) as ([E|E] & _); cbv zeta in E;
    rewrite E; [intros []|].
  intros Hin. destruct (alert_rows_bin _ _ _ Hin) as (c & Hc & ->).
  now apply candidateAlerts_bin.
Qed.

(** The world after a valid reading of a known bin has been stored. *)
Lemma valid_reading_run (env : Env) (body : SensorBody.t) (w : World)
  (code : string) (fill : Q) (id : nat) :
  valid_sensor_body body code fill ->
  fails env (select_bin_by_code code) = false ->
  bin_with_code w code = Some id ->
  fails env insert_sensor_reading = false ->
  exists created w',
    receiveSensorData env (Some body) w =
      (json_reading 201 (reading_of_body body id fill (next_id w))
         (List.length created), w') /\
    alerts w' = alerts w ++ created /\
    (forall a, In a created -> Alert.bin_id a = id /\ unresolved a) /\
    bins w' = (if fails env (update_bin_fill id) then bins w
               else set_bin_fill id fill (bins w)).
Proof.
  intros Hv Hsel Hbin Hins.
  rewrite (receiveSensorData_valid env body code fill w Hv), Hsel, Hbin, Hins.
  cbv zeta.
  match goal with |- context [evaluateReading env ?r ?w3] =>
    pose proof (evaluateReading_effect env r w3) as He;
    pose proof (created_unresolved env r w3) as Hc;
    pose proof (created_for_bin env r w3) as Hb;
    destruct (evaluateReading env r w3) as [created w4]
  end.
  cbv zeta in He. cbn [fst snd] in *. destruct He as (_ & Ha & Hbins & _).
  match type of Ha with
    _ = alerts (snd (emitSensorReading env ?r (snd (db_update_bin_fill env ?b ?f ?w1)))) ++ _ =>
    destruct (before_evaluation env b f r w1) as (Hb1 & _ & Ha1 & _) end.
  cbv zeta in Hb1, Ha1.
  cbn [bins alerts with_next_id with_sensor_readings] in Hb1, Ha1.
  exists created, w4. split; [reflexivity|]. split; [now rewrite Ha, Ha1|]. split.
  - intros a Hin. split; [exact (Hb a Hin) | exact (Hc a Hin)].
  - now rewrite Hbins, Hb1.
Qed.

(** ** Collections *)

(** X4.  A collection request that cannot be logged changes nothing: without
    bin_id it is rejected with 400, with a bin lookup that the store refuses
    with 404, and with a log insert that the store refuses with 500; in each
    case the bin keeps its fill level, the alerts stay as they are and
    nothing is published. *)
Theorem X4_collection_rejections (env : Env) (body : CollectionBody.t) (w : World) :
  (CollectionBody.bin_id body = None ->
   createCollection env body w = (json_error InvalidInput bin_id_required, w)) /\
  (forall id, CollectionBody.bin_id body = Some id ->
     fails env (select_bin_by_id id) = true ->
     createCollection env body w = (json_error NotFound bin_not_found, w)) /\
  (forall id bin, CollectionBody.bin_id body = Some id ->
     fails env (select_bin_by_id id) = false ->
     bin_with_id w id = Some bin ->
     fails env insert_collection_log = true ->
     createCollection env body w = (json_error StorageError store_error_message, w)).
Proof.
  rewrite createCollection_run. split; [|split].
  - now intros ->.
  - intros id -> ->. reflexivity.
  - intros id bin -> -> -> ->. reflexivity.
Qed.

Lemma X4_collection_rejections_witness :
  createCollection reliable collection_without_bin depot =
    (json_error InvalidInput bin_id_required, depot) /\
  createCollection log_insert_refused collection_by_bob depot =
    (json_error StorageError store_error_message, depot).
Proof.
  split.
  - apply (proj1 (X4_collection_rejections reliable collection_without_bin depot)).
    reflexivity.
  - destruct (X4_collection_rejections log_insert_refused collection_by_bob depot)
      as (_ & _ & H).
    apply (H 1%nat bin_1); reflexivity.
Defined.

Lemma filter_set_bin_fill (id : nat) (v : Q) (rows : list Bin.t) :
  filter (fun b => Nat.eqb (Bin.id b) id) (set_bin_fill id v rows) =
  map (fun r => Bin.mk (Bin.id r) (Bin.bin_code r) v (Bin.last_emptied r))
    (filter (fun b => Nat.eqb (Bin.id b) id) rows).
Proof.
  unfold set_bin_fill. induction rows as [|b rows IH]; [reflexivity|].
  cbn. destruct (Nat.eqb (Bin.id b) id) eqn:E; cbn; rewrite E, IH; reflexivity.
Qed.

Lemma single_map {A B} (f : A -> B) (l : list A) :
  single (map f l) = option_map f (single l).
Proof. destruct l as [|x [|y l]]; reflexivity. Qed.

(** The world after a successful collection. *)
Lemma createCollection_accepted (env : Env) (body : CollectionBody.t) (w : World)
  (id : nat) (bin : Bin.t) :
  CollectionBody.bin_id body = Some id ->
  fails env (select_bin_by_id id) = false ->
  bin_with_id w id = Some bin ->
  fails env insert_collection_log = false ->
  let log := log_of_body body bin id (next_id w) in
  let w' := snd (createCollection env body w) in
  fst (createCollection env body w) = json_collection 201 log /\
  collection_logs w' = collection_logs w ++ [log] /\
  bins w' = (if fails env (update_bin_emptied id) then bins w
             else empty_bin id (now env) (bins w)) /\
  alerts w' = (if fails env (update_alerts_resolved id) then alerts w
               else resolve_open_alerts id (now env)
                      (CollectionBody.collected_by body) (alerts w)) /\
  sensor_readings w' = sensor_readings w /\ users w' = users w /\
  notifications w' = notifications w.
Proof.
  intros Hid Hsel Hbin Hins. cbv zeta.
  rewrite createCollection_run, Hid, Hsel, Hbin, Hins. cbv zeta. cbn [fst snd].
  match goal with |- context [after_log_insert env body id ?w1] =>
    destruct (after_log_insert_tables env body id w1) as (Hb & Ha & Hl & Hr & Hu & Hn) end.
  cbv zeta in *. rewrite Hb, Ha, Hl, Hr, Hu, Hn. cbn. auto 10.
Qed.

Lemma In_resolve_open_alerts (b t : nat) (u : option nat) (rows : list Alert.t)
  (a : Alert.t) :
  In a rows -> Alert.bin_id a = b -> Alert.resolved a = Some false ->
  In (Alert.mk (Alert.id a) b (Alert.alert_type a) (Alert.severity a)
        (Alert.message a) (Some true) (Some t) u)
     (resolve_open_alerts b t u rows).
Proof.
  intros Hin Hb Hopen. unfold resolve_open_alerts. apply in_map_iff.
  exists a. split; [|exact Hin].
  now rewrite Hb, Hopen, Nat.eqb_refl.
Qed.

(** X5.  Reading, then collection.  When a valid reading for a bin has
    been stored and its fill level written to the bin, a collection of that
    bin (whose bin lookup the store answers and whose log row it accepts)
    logs the submitted fill level as fill_level_before.  The alerts that the
    reading raised are filed under that bin and are open.  Once the store
    has carried out the resolution, each of them is stored resolved, with the
    time of the collection and its collector, and no alert of the bin is
    open any more. *)
Theorem X5_reading_then_collection (env1 env2 : Env) (body : SensorBody.t)
  (request : CollectionBody.t) (w : World) (code : string) (fill : Q) (id : nat)
  (bin : Bin.t) :
  valid_sensor_body body code fill ->
  fails env1 (select_bin_by_code code) = false ->
  bin_with_code w code = Some id ->
  bin_with_id w id = Some bin ->
  fails env1 insert_sensor_reading = false ->
  fails env1 (update_bin_fill id) = false ->
  CollectionBody.bin_id request = Some id ->
  fails env2 (select_bin_by_id id) = false ->
  fails env2 insert_collection_log = false ->
  let w1 := snd (receiveSensorData env1 (Some body) w) in
  let w2 := snd (createCollection env2 request w1) in
  exists log raised,
    fst (receiveSensorData env1 (Some body) w) =
      json_reading 201 (reading_of_body body id fill (next_id w)) (List.length raised) /\
    alerts w1 = alerts w ++ raised /\
    (forall a, In a raised -> Alert.bin_id a = id /\ Alert.resolved a = Some false) /\
    fst (createCollection env2 request w1) = json_collection 201 log /\
    CollectionLog.fill_level_before log = fill /\
    (fails env2 (update_alerts_resolved id) = false ->
     (forall a, In a raised ->
        In (Alert.mk (Alert.id a) id (Alert.alert_type a) (Alert.severity a)
              (Alert.message a) (Some true) (Some (now env2))
              (CollectionBody.collected_by request))
           (alerts w2)) /\
     (forall a, In a (alerts w2) -> Alert.bin_id a = id ->
        Alert.resolved a <> Some false)).
Proof.
  intros Hv Hsel Hcode Hbin Hins Hfill Hid Hsel2 Hins2. cbv zeta.
  destruct (valid_reading_run env1 body w code fill id Hv Hsel Hcode Hins)
    as (raised & w1 & Hrun & Ha1 & Hraised & Hb1).
  rewrite Hrun. cbn [fst snd]. rewrite Hfill in Hb1.
  assert (Hbin1 : bin_with_id w1 id =
                  Some (Bin.mk (Bin.id bin) (Bin.bin_code bin) fill
                          (Bin.last_emptied bin))).
  { unfold bin_with_id at 1. rewrite Hb1, filter_set_bin_fill, single_map.
    unfold bin_with_id in Hbin. now rewrite Hbin. }
  destruct (createCollection_accepted env2 request _ id _ Hid Hsel2 Hbin1 Hins2)
    as (Hr & _ & _ & Ha & _).
  cbv zeta in Hr, Ha. eexists. exists raised.
  split; [reflexivity|]. split; [exact Ha1|]. split.
  { intros a Hin. destruct (Hraised a Hin) as (Hb & Hopen & _). auto. }
  split; [exact Hr|]. split; [reflexivity|].
  intros Hu. rewrite Ha, Hu. split.
  - intros a Hin. destruct (Hraised a Hin) as (Hb & Hopen & _).
    apply In_resolve_open_alerts; [|exact Hb|exact Hopen].
    rewrite Ha1. apply in_or_app. now right.
  - intros a. apply resolve_open_alerts_not_open.
Qed.

Lemma X5_reading_then_collection_witness :
  exists log,
    fst (createCollection reliable collection_by_bob
           (snd (receiveSensorData reliable (Some body_97) depot))) =
      json_collection 201 log /\
    CollectionLog.fill_level_before log = 97 /\
    In (Alert.mk 101 1 fill_critical critical (msg_fill_flash 97) (Some true)
          (Some 1000%nat) (Some 12%nat))
       (alerts (snd (createCollection reliable collection_by_bob
                       (snd (receiveSensorData reliable (Some body_97) depot))))).
Proof.
  destruct (X5_reading_then_collection reliable reliable body_97 collection_by_bob depot
              "BIN-001"%string 97 1 bin_1) as (log & raised & _ & H1 & _ & H2 & H3 & H4);
    try reflexivity.
  - unfold valid_sensor_body. repeat apply conj;
      first [reflexivity | vm_compute; discriminate].
  - exists log. split; [exact H2|]. split; [exact H3|].
    destruct (H4 eq_refl) as [H5 _].
    apply (H5 (Alert.mk 101 1 fill_critical critical (msg_fill_flash 97) (Some false)
                 None None)).
    assert (E : alerts (snd (receiveSensorData reliable (Some body_97) depot)) =
                alerts depot ++
                [Alert.mk 101 1 fill_critical critical (msg_fill_flash 97) (Some false)
                   None None]) by (vm_compute; reflexivity).
    rewrite E in H1. apply app_inv_head in H1. rewrite <- H1. now left.
Defined.

(** X6.  Collecting twice.  After a collection whose bin reset the store
    has carried out, a second collection of the same bin is logged as well
    and records fill_level_before 0; the log table grows by one row per
    collection. *)
Theorem X6_second_collection (env1 env2 : Env) (first second : CollectionBody.t)
  (w : World) (id : nat) (bin : Bin.t) :
  CollectionBody.bin_id first = Some id ->
  CollectionBody.bin_id second = Some id ->
  bin_with_id w id = Some bin ->
  fails env1 (select_bin_by_id id) = false ->
  fails env1 insert_collection_log = false ->
  fails env1 (update_bin_emptied id) = false ->
  fails env2 (select_bin_by_id id) = false ->
  fails env2 insert_collection_log = false ->
  let w1 := snd (createCollection env1 first w) in
  let w2 := snd (createCollection env2 second w1) in
  exists log1 log2,
    fst (createCollection env1 first w) = json_collection 201 log1 /\
    fst (createCollection env2 second w1) = json_collection 201 log2 /\
    CollectionLog.fill_level_before log1 = Bin.fill_level bin /\
    CollectionLog.fill_level_before log2 = 0 /\
    collection_logs w2 = collection_logs w ++ [log1; log2].
Proof.
  intros Hid1 Hid2 Hbin Hsel1 Hins1 Hres1 Hsel2 Hins2. cbv zeta.
  destruct (createCollection_accepted env1 first w id bin Hid1 Hsel1 Hbin Hins1)
    as (Hr1 & Hl1 & Hb1 & _).
  cbv zeta in Hr1, Hl1, Hb1. rewrite Hres1 in Hb1.
  assert (Hbin1 : bin_with_id (snd (createCollection env1 first w)) id =
                  Some (Bin.mk (Bin.id bin) (Bin.bin_code bin) 0 (Some (now env1)))).
  { unfold bin_with_id at 1. rewrite Hb1, filter_empty_bin, single_map.
    unfold bin_with_id in Hbin. now rewrite Hbin. }
  destruct (createCollection_accepted env2 second _ id _ Hid2 Hsel2 Hbin1 Hins2)
    as (Hr2 & Hl2 & _).
  cbv zeta in Hr2, Hl2. eexists _, _.
  split; [exact Hr1|]. split; [exact Hr2|]. split; [reflexivity|].
  split; [reflexivity|]. rewrite Hl2, Hl1, <- app_assoc. reflexivity.
Qed.

Lemma X6_second_collection_witness :
  exists log1 log2,
    fst (createCollection reliable collection_by_bob depot) = json_collection 201 log1 /\
    fst (createCollection reliable collection_by_bob
           (snd (createCollection reliable collection_by_bob depot))) =
      json_collection 201 log2 /\
    CollectionLog.fill_level_before log1 = 70 /\
    CollectionLog.fill_level_before log2 = 0.
Proof.
  destruct (X6_second_collection reliable reliable collection_by_bob collection_by_bob
              depot 1 bin_1) as (log1 & log2 & H1 & H2 & H3 & H4 & _);
    try reflexivity.
  exists log1, log2. auto.
Defined.

(** X7.  A successful collection publishes the emptied bin to everyone and
    to the room of the bin exactly when the socket layer is up and the store
    has carried out the reset; otherwise it publishes nothing.  The published
    row is the bin at fill level 0 with last_emptied set to the time of the
    request. *)
Theorem X7_collection_event (env : Env) (body : CollectionBody.t) (w : World)
  (id : nat) (bin : Bin.t) :
  CollectionBody.bin_id body = Some id ->
  fails env (select_bin_by_id id) = false ->
  bin_with_id w id = Some bin ->
  fails env insert_collection_log = false ->
  let emptied := Bin.mk (Bin.id bin) (Bin.bin_code bin) 0 (Some (now env)) in
  emitted (snd (createCollection env body w)) =
  emitted w ++
  (if io env && negb (fails env (update_bin_emptied id))
   then [bin_status_update emptied; bin_update (Bin.id bin) emptied]
   else []).
Proof.
  intros Hid Hsel Hbin Hins. cbv zeta.
  rewrite createCollection_run, Hid, Hsel, Hbin, Hins. cbv zeta. cbn [snd].
  unfold after_log_insert, bind, db_update_bin_emptied, db_update_alerts_resolved,
    emitBinStatusUpdate, emit, ret.
  destruct (fails env (update_bin_emptied id)).
  - destruct (fails env (update_alerts_resolved id)); cbn;
      rewrite andb_false_r, app_nil_r; reflexivity.
  - cbv zeta. cbn [bins with_bins with_next_id with_collection_logs].
    rewrite filter_empty_bin, single_map.
    unfold bin_with_id in Hbin. rewrite Hbin. cbn [option_map].
    destruct (fails env (update_alerts_resolved id)), (io env); cbn;
      rewrite ?app_nil_r; reflexivity.
Qed.

Lemma X7_collection_event_witness :
  emitted (snd (createCollection reliable collection_by_bob depot)) =
    [bin_status_update (Bin.mk 1 "BIN-001" 0 (Some 1000%nat));
     bin_update 1 (Bin.mk 1 "BIN-001" 0 (Some 1000%nat))] /\
  emitted (snd (createCollection bin_reset_refused collection_by_bob depot)) = [].
Proof.
  split.
  - exact (X7_collection_event reliable collection_by_bob depot 1 bin_1
             eq_refl eq_refl eq_refl eq_refl).
  - exact (X7_collection_event bin_reset_refused collection_by_bob depot 1 bin_1
             eq_refl eq_refl eq_refl eq_refl).
Defined.

(** ** Alerts: manual resolution, deletion, statistics *)

Lemma with_alerts_same (w : World) : with_alerts (fun _ => alerts w) w = w.
Proof. destruct w. reflexivity. Qed.

Lemma patch_untouched (reads : Json -> option bool) (id : nat) (p : AlertPatch)
  (rows : list Alert.t) :
  (forall a, In a rows -> Alert.id a <> id) ->
  map (fun a => if Nat.eqb (Alert.id a) id then apply_patch reads p a else a) rows = rows.
Proof.
  induction rows as [|a rows IH]; intros H; [reflexivity|]. cbn.
  rewrite IH by (intros a' Hin; apply H; now right).
  destruct (Nat.eqb_spec (Alert.id a) id) as [E|_]; [|reflexivity].
  exfalso. exact (H a (or_introl eq_refl) E).
Qed.

Lemma filter_none {A} (p : A -> bool) (l : list A) :
  (forall x, In x l -> p x = false) -> filter p l = [].
Proof.
  induction l as [|x l IH]; intros H; [reflexivity|]. cbn.
  rewrite (H x (or_introl eq_refl)). apply IH. intros y Hy. apply H. now right.
Qed.

(** X8.  Patching an alert touches that alert only.  A patch for an
    identifier that no alert carries is answered with 404 and changes
    nothing; after any patch every alert with another identifier is stored
    unchanged and the number of alerts is the same; a patch with resolved =
    true returns the alert resolved, with resolved_at set to the time of the
    request and resolved_by set to the resolver of the request when it names
    one. *)
Theorem X8_patch_is_local (env : Env) (id : nat) (body : ResolveBody.t) (w : World) :
  let w' := snd (resolveAlert env id body w) in
  ((forall a, In a (alerts w) -> Alert.id a <> id) ->
   resolveAlert env id body w =
     (json_error NotFound alert_not_found_or_update_failed, w)) /\
  (forall a, In a (alerts w) -> Alert.id a <> id -> In a (alerts w')) /\
  List.length (alerts w') = List.length (alerts w) /\
  (forall a, ResolveBody.resolved body = Value (Boolean true) ->
     fst (resolveAlert env id body w) = json_alert 200 a ->
     Alert.id a = id /\ Alert.resolved a = Some true /\
     Alert.resolved_at a = Some (now env) /\
     (forall u, ResolveBody.resolved_by body = Some u -> Alert.resolved_by a = Some u)).
Proof.
  cbv zeta. rewrite resolveAlert_run. split; [|split; [|split]].
  - intros Hnone. destruct (fails env (update_alert id) || rejected _ _); [reflexivity|].
    cbv zeta. rewrite (patch_untouched _ id _ (alerts w) Hnone).
    rewrite filter_none, with_alerts_same; [reflexivity|].
    intros a Hin. apply Nat.eqb_neq. now apply Hnone.
  - intros a Hin Hne. destruct (fails env (update_alert id) || rejected _ _); [exact Hin|].
    cbv zeta. cbn [snd alerts with_alerts]. apply in_map_iff. exists a.
    split; [|exact Hin].
    destruct (Nat.eqb_spec (Alert.id a) id); [contradiction | reflexivity].
  - destruct (fails env (update_alert id) || rejected _ _); [reflexivity|].
    cbv zeta. cbn [snd alerts with_alerts]. apply length_map.
  - intros a Hres. destruct (fails env (update_alert id) || rejected _ _); [discriminate|].
    cbv zeta. cbn [fst].
    destruct (single _) as [data|] eqn:E; [|discriminate].
    intros [= ->]. apply single_In, filter_In in E. destruct E as [Hin Hid].
    apply in_map_iff in Hin. destruct Hin as (a0 & Ha & _).
    apply Nat.eqb_eq in Hid.
    destruct (Nat.eqb_spec (Alert.id a0) id) as [E0|E0]; [|subst a; contradiction].
    subst a. unfold apply_patch, patch_of_body. rewrite Hres. cbn.
    repeat split; try assumption. now intros u ->.
Qed.

Lemma X8_patch_is_local_witness :
  resolveAlert reliable 99 resolve_by_alice depot =
    (json_error NotFound alert_not_found_or_update_failed, depot) /\
  (forall a, fst (resolveAlert reliable 21 resolve_by_alice depot) = json_alert 200 a ->
     Alert.resolved_at a = Some 1000%nat).
Proof.
  split.
  - apply (proj1 (X8_patch_is_local reliable 99 resolve_by_alice depot)).
    intros a [<-|[<-|[<-|[]]]]; discriminate.
  - intros a Ha.
    destruct (X8_patch_is_local reliable 21 resolve_by_alice depot) as (_ & _ & _ & H).
    now destruct (H a eq_refl Ha) as (_ & _ & Ht & _).
Defined.

Section Counting.

Context {A K : Type} (eqb : K -> K -> bool) (key : A -> K).
Hypothesis eqb_eq : forall a b, eqb a b = true <-> a = b.

Lemma eqb_same (k : K) : eqb k k = true.
Proof. now apply eqb_eq. Qed.

Lemma sum_counts_increment (k : K) (acc : list (K * nat)) :
  sum_counts (increment eqb k acc) = S (sum_counts acc).
Proof.
  unfold sum_counts. induction acc as [|[k' n] acc IH]; [reflexivity|].
  cbn [increment]. destruct (eqb k' k); cbn [fold_right snd]; [lia|].
  rewrite IH. lia.
Qed.

Lemma count_or_zero_increment (k k0 : K) (acc : list (K * nat)) :
  count_or_zero eqb k (increment eqb k0 acc) =
  ((if eqb k0 k then 1 else 0) + count_or_zero eqb k acc)%nat.
Proof.
  unfold count_or_zero. induction acc as [|[k' n] acc IH]; cbn.
  - destruct (eqb k0 k); reflexivity.
  - destruct (eqb k' k0) eqn:E0; cbn.
    + apply eqb_eq in E0. subst k0. destruct (eqb k' k); reflexivity.
    + destruct (eqb k' k) eqn:E1; [|exact IH].
      destruct (eqb k0 k) eqn:E2; [|reflexivity].
      apply eqb_eq in E1, E2. subst. rewrite eqb_same in E0. discriminate.
Qed.

Lemma keys_increment (k : K) (acc : list (K * nat)) (k' : K) :
  In k' (map fst (increment eqb k acc)) <-> k' = k \/ In k' (map fst acc).
Proof.
  induction acc as [|[k1 n] acc IH]; cbn.
  - intuition.
  - destruct (eqb k1 k) eqn:E; cbn.
    + apply eqb_eq in E. subst k1. intuition.
    + rewrite IH. intuition.
Qed.

Lemma NoDup_increment (k : K) (acc : list (K * nat)) :
  NoDup (map fst acc) -> NoDup (map fst (increment eqb k acc)).
Proof.
  induction acc as [|[k1 n] acc IH]; cbn; intros H.
  - constructor; [intros [] | constructor].
  - inversion H as [|? ? Hnin Hnd]; subst.
    destruct (eqb k1 k) eqn:E; cbn.
    + constructor; assumption.
    + constructor; [|now apply IH].
      rewrite keys_increment. intros [->|Hin]; [|contradiction].
      rewrite eqb_same in E. discriminate.
Qed.

Lemma positive_increment (k : K) (acc : list (K * nat)) :
  Forall (fun kn => (0 < snd kn)%nat) acc ->
  Forall (fun kn => (0 < snd kn)%nat) (increment eqb k acc).
Proof.
  induction acc as [|[k1 n] acc IH]; cbn; intros H.
  - repeat constructor.
  - inversion H; subst. destruct (eqb k1 k); constructor; cbn in *; auto; lia.
Qed.

Lemma count_by_from (rows : list A) (acc : list (K * nat)) :
  let result := fold_left (fun acc x => increment eqb (key x) acc) rows acc in
  sum_counts result = (sum_counts acc + List.length rows)%nat /\
  (forall k, count_or_zero eqb k result =
             (count_or_zero eqb k acc
              + List.length (filter (fun x => eqb (key x) k) rows))%nat) /\
  (NoDup (map fst acc) -> NoDup (map fst result)) /\
  (Forall (fun kn => (0 < snd kn)%nat) acc ->
   Forall (fun kn => (0 < snd kn)%nat) result).
Proof.
  cbv zeta. revert acc. induction rows as [|x rows IH]; intros acc; cbn [fold_left].
  - cbn. repeat apply conj; intros; auto; lia.
  - destruct (IH (increment eqb (key x) acc)) as (H1 & H2 & H3 & H4).
    repeat apply conj.
    + rewrite H1, sum_counts_increment. cbn. lia.
    + intros k. rewrite H2, count_or_zero_increment. cbn [filter].
      destruct (eqb (key x) k); cbn; lia.
    + intros Hn. apply H3. now apply NoDup_increment.
    + intros Hp. apply H4. now apply positive_increment.
Qed.

Lemma count_of_positive (k : K) (acc : list (K * nat)) (n : nat) :
  Forall (fun kn => (0 < snd kn)%nat) acc -> count_of eqb k acc = Some n -> (0 < n)%nat.
Proof.
  induction acc as [|[k1 m] acc IH]; cbn; intros H; [discriminate|].
  inversion H; subst. destruct (eqb k1 k); [intros [= <-]; assumption | now apply IH].
Qed.

(** What a count object built by [reduce] holds. *)
Lemma count_by_spec (rows : list A) :
  sum_counts (count_by eqb key rows) = List.length rows /\
  NoDup (map fst (count_by eqb key rows)) /\
  forall k,
    count_of eqb k (count_by eqb key rows) =
    match List.length (filter (fun x => eqb (key x) k) rows) with
    | O => None
    | S n => Some (S n)
    end.
Proof.
  unfold count_by.
  destruct (count_by_from rows []) as (H1 & H2 & H3 & H4). cbv zeta in *.
  split; [exact H1|]. split; [apply H3; constructor|].
  intros k. specialize (H2 k). unfold count_or_zero in H2. cbn in H2.
  destruct (count_of eqb k _) as [n|] eqn:E.
  - pose proof (count_of_positive k _ n (H4 (Forall_nil _)) E) as Hpos.
    rewrite <- H2. destruct n; [lia | reflexivity].
  - now rewrite <- H2.
Qed.

End Counting.

Lemma AlertType_eqb_iff (s t : AlertType) : AlertType_eqb s t = true <-> s = t.
Proof. destruct s, t; cbn; split; congruence. Qed.

Lemma getAlertStats_answered (refused : Call -> bool) (w : World) :
  refused select_alert_columns = false ->
  getAlertStats refused w = (reply_alert_stats 200 (alert_stats w), w).
Proof. intros H. unfold getAlertStats. now rewrite H. Qed.

(** X9.  The alert statistics are consistent.  When the store answers, the
    handler returns 200 and reads only: total_alerts is the number of stored
    alerts, unresolved is at most total_alerts, the counts of by_severity add
    up to total_alerts and so do the counts of by_type, no key occurs twice,
    and the entry of a severity (of an alert type) is the number of alerts
    that have it, the key being absent when there is none.  When the store
    refuses the query the answer is 500. *)
Theorem X9_alert_stats_consistent (refused : Call -> bool) (w : World) :
  (refused select_alert_columns = true ->
   getAlertStats refused w = (reply_error 500 store_message, w)) /\
  (refused select_alert_columns = false ->
   exists s,
     getAlertStats refused w = (reply_alert_stats 200 s, w) /\
     AlertStats.total_alerts s = List.length (alerts w) /\
     (AlertStats.unresolved s <= AlertStats.total_alerts s)%nat /\
     sum_counts (AlertStats.by_severity s) = AlertStats.total_alerts s /\
     sum_counts (AlertStats.by_type s) = AlertStats.total_alerts s /\
     NoDup (map fst (AlertStats.by_severity s)) /\
     NoDup (map fst (AlertStats.by_type s)) /\
     (forall sev,
        count_of Severity_eqb sev (AlertStats.by_severity s) =
        match List.length (filter (fun a => Severity_eqb (Alert.severity a) sev)
                             (alerts w)) with
        | O => None
        | S n => Some (S n)
        end) /\
     (forall t,
        count_of AlertType_eqb t (AlertStats.by_type s) =
        match List.length (filter (fun a => AlertType_eqb (Alert.alert_type a) t)
                             (alerts w)) with
        | O => None
        | S n => Some (S n)
        end)).
Proof.
  split.
  - intros H. unfold getAlertStats. now rewrite H.
  - intros H. exists (alert_stats w). rewrite (getAlertStats_answered refused w H).
    destruct (count_by_spec Severity_eqb Alert.severity Severity_eqb_iff (alerts w))
      as (S1 & S2 & S3).
    destruct (count_by_spec AlertType_eqb Alert.alert_type AlertType_eqb_iff (alerts w))
      as (T1 & T2 & T3).
    cbn. repeat apply conj; auto. apply filter_length_le.
Qed.

Lemma X9_alert_stats_consistent_witness :
  exists s,
    getAlertStats answered depot = (reply_alert_stats 200 s, depot) /\
    sum_counts (AlertStats.by_severity s) = 3%nat /\
    count_of Severity_eqb low (AlertStats.by_severity s) = None.
Proof.
  destruct (X9_alert_stats_consistent answered depot) as [_ H].
  destruct (H eq_refl) as (s & H1 & H2 & _ & H4 & _ & _ & _ & H8 & _).
  exists s. split; [exact H1|]. split.
  - rewrite H4, H2. reflexivity.
  - rewrite H8. reflexivity.
Defined.

Lemma open_after_resolution (b t : nat) (u : option nat) (rows : list Alert.t) :
  (List.length (filter (fun a => negb (truthy_boolean (Alert.resolved a)))
                  (resolve_open_alerts b t u rows))
   + List.length (open_alerts_of b rows))%nat =
  List.length (filter (fun a => negb (truthy_boolean (Alert.resolved a))) rows).
Proof.
  unfold resolve_open_alerts, open_alerts_of.
  induction rows as [|a rows IH]; [reflexivity|]. cbn [map filter].
  destruct (Nat.eqb (Alert.bin_id a) b); destruct (Alert.resolved a) as [[|]|] eqn:R;
    cbn [andb column_eqb Bool.eqb negb truthy_boolean Alert.resolved List.length];
    rewrite ?R; cbn [negb truthy_boolean List.length]; lia.
Qed.

Lemma created_are_open (l : list Alert.t) :
  (forall a, In a l -> unresolved a) ->
  filter (fun a => negb (truthy_boolean (Alert.resolved a))) l = l.
Proof.
  induction l as [|a l IH]; intros H; [reflexivity|]. cbn.
  destruct (H a (or_introl eq_refl)) as (-> & _). cbn. f_equal.
  apply IH. intros a' Ha'. apply H. now right.
Qed.

(** X10.  The alert statistics follow the alert lifecycle.  A stored reading
    raises total_alerts and unresolved by alerts_generated.  A successful
    collection whose resolution the store has carried out leaves total_alerts
    as it is and lowers unresolved by the number of alerts of the bin that
    were open. *)
Theorem X10_stats_follow_lifecycle (env : Env) (w : World) :
  (forall body reading n,
     fst (receiveSensorData env (Some body) w) = json_reading 201 reading n ->
     let s := alert_stats w in
     let s' := alert_stats (snd (receiveSensorData env (Some body) w)) in
     AlertStats.total_alerts s' = (AlertStats.total_alerts s + n)%nat /\
     AlertStats.unresolved s' = (AlertStats.unresolved s + n)%nat) /\
  (forall body id log,
     CollectionBody.bin_id body = Some id ->
     fst (createCollection env body w) = json_collection 201 log ->
     fails env (update_alerts_resolved id) = false ->
     let s := alert_stats w in
     let s' := alert_stats (snd (createCollection env body w)) in
     AlertStats.total_alerts s' = AlertStats.total_alerts s /\
     (AlertStats.unresolved s' + List.length (open_alerts_of id (alerts w)))%nat =
       AlertStats.unresolved s).
Proof.
  split.
  - intros body reading n Hr. cbv zeta. unfold alert_stats.
    cbn [AlertStats.total_alerts AlertStats.unresolved].
    destruct (accepted_reading_alerts env body w reading n Hr) as (created & -> & Ha & Hc).
    rewrite Ha, filter_app, !length_app, (created_are_open created Hc). auto.
  - intros body id log Hid Hr Hu. cbv zeta. unfold alert_stats. cbn.
    revert Hr. rewrite createCollection_run, Hid.
    destruct (fails env (select_bin_by_id id)); [discriminate|].
    destruct (bin_with_id w id); [|discriminate].
    destruct (fails env insert_collection_log); [discriminate|].
    cbv zeta. cbn [fst snd]. intros _.
    match goal with |- context [after_log_insert env body id ?w1] =>
      destruct (after_log_insert_tables env body id w1) as (_ & Ha & _) end.
    cbv zeta in Ha. rewrite Hu in Ha. cbn [alerts with_next_id with_collection_logs] in Ha.
    rewrite Ha. split.
    + unfold resolve_open_alerts. apply length_map.
    + apply open_after_resolution.
Qed.

Lemma X10_stats_follow_lifecycle_witness :
  AlertStats.unresolved (alert_stats (snd (receiveSensorData reliable (Some body_97) depot))) =
    (AlertStats.unresolved (alert_stats depot) + 1)%nat /\
  (AlertStats.unresolved (alert_stats (snd (createCollection reliable collection_by_bob depot)))
   + List.length (open_alerts_of 1 (alerts depot)))%nat =
    AlertStats.unresolved (alert_stats depot).
Proof.
  destruct (X10_stats_follow_lifecycle reliable depot) as [H1 H2]. split.
  - exact (proj2 (H1 body_97 (reading_of_body body_97 1 97 100) 1%nat eq_refl)).
  - exact (proj2 (H2 collection_by_bob 1%nat (log_of_body collection_by_bob bin_1 1 100)
                    eq_refl eq_refl eq_refl)).
Defined.

Lemma without_alert_twice (id : nat) (w : World) :
  without_alert id (without_alert id w) = without_alert id w.
Proof.
  destruct w as [bs rs als us ls ns nid ev tr ds].
  unfold without_alert, with_notifications, with_alerts. cbn. f_equal.
  - induction als as [|a l IH]; [reflexivity|]. cbn.
    destruct (Nat.eqb (Alert.id a) id) eqn:E; cbn; [exact IH|].
    rewrite E. cbn. now f_equal.
  - rewrite map_map. apply map_ext. intros n.
    destruct (Notification.alert_id n) as [a|] eqn:E; [|now rewrite E].
    destruct (Nat.eqb a id) eqn:E1; cbn; [reflexivity|]. now rewrite E, E1.
Qed.

(** X11.  Deleting an alert.  When the store answers, the handler returns
    200 whether or not an alert carried the identifier; afterwards no stored
    alert carries it, the other alerts are stored as before and in the same
    order, every notification is still there but none refers to the deleted
    alert, and deleting again changes nothing.  When the store refuses the
    call the answer is 500 and nothing changes. *)
Theorem X11_delete_alert (refused : Call -> bool) (id : nat) (w : World) :
  (refused (delete_alert id) = true ->
   deleteAlert refused id w = (reply_error 500 store_message, w)) /\
  (refused (delete_alert id) = false ->
   let w' := snd (deleteAlert refused id w) in
   fst (deleteAlert refused id w) = reply_message 200 alert_deleted /\
   (forall a, In a (alerts w') <-> In a (alerts w) /\ Alert.id a <> id) /\
   alerts w' = filter (fun a => negb (Nat.eqb (Alert.id a) id)) (alerts w) /\
   ((forall a, In a (alerts w) -> Alert.id a <> id) -> alerts w' = alerts w) /\
   List.length (notifications w') = List.length (notifications w) /\
   (forall n, In n (notifications w') -> Notification.alert_id n <> Some id) /\
   bins w' = bins w /\ sensor_readings w' = sensor_readings w /\
   users w' = users w /\ collection_logs w' = collection_logs w /\
   snd (deleteAlert refused id w') = w').
Proof.
  unfold deleteAlert. split; [now intros ->|]. intros ->. cbv zeta. cbn [fst snd].
  split; [reflexivity|].
  split; [|split; [|split; [|split; [|split; [|split; [|split; [|split; [|split]]]]]]]];
    try reflexivity.
  - intros a. unfold without_alert. cbn.
    rewrite filter_In, negb_true_iff, Nat.eqb_neq. reflexivity.
  - intros H. unfold without_alert. cbn.
    induction (alerts w) as [|a l IH]; [reflexivity|]. cbn.
    destruct (Nat.eqb_spec (Alert.id a) id) as [E|_].
    + exfalso. exact (H a (or_introl eq_refl) E).
    + cbn. f_equal. apply IH. intros a' Ha'. apply H. now right.
  - unfold without_alert. cbn. apply length_map.
  - unfold without_alert. cbn.
    intros n Hin. apply in_map_iff in Hin. destruct Hin as (n0 & <- & _).
    destruct (Notification.alert_id n0) as [a|] eqn:E; [|congruence].
    destruct (Nat.eqb_spec a id); cbn; congruence.
  - apply without_alert_twice.
Qed.

Lemma X11_delete_alert_witness :
  fst (deleteAlert answered 99 depot) = reply_message 200 alert_deleted /\
  alerts (snd (deleteAlert answered 99 depot)) = alerts depot /\
  alerts (snd (deleteAlert answered 22 depot)) = [open_alert; other_bin_alert].
Proof.
  destruct (X11_delete_alert answered 99 depot) as [_ H].
  destruct (H eq_refl) as (H1 & _ & _ & H4 & _).
  destruct (X11_delete_alert answered 22 depot) as [_ H'].
  destruct (H' eq_refl) as (_ & _ & H3 & _).
  split; [exact H1|]. split.
  - apply H4. intros a [<-|[<-|[<-|[]]]]; discriminate.
  - exact H3.
Defined.

(** ** Reading queries *)

Lemma range_page {A} (offset limit : nat) (rows : list A) :
  range (Z.of_nat offset) (Z.of_nat offset + Z.of_nat limit - 1) rows =
  firstn limit (skipn offset rows).
Proof.
  unfold range. rewrite Nat2Z.id. f_equal.
  replace (Z.of_nat offset + Z.of_nat limit - 1 - Z.of_nat offset + 1)%Z
    with (Z.of_nat limit) by lia.
  apply Nat2Z.id.
Qed.

Lemma firstn_sum {A} (a b : nat) (l : list A) :
  firstn a l ++ firstn b (skipn a l) = firstn (a + b) l.
Proof.
  revert l. induction a as [|a IH]; intros l; [reflexivity|].
  destruct l as [|x l]; cbn; [now destruct b | now rewrite IH].
Qed.

Lemma In_firstn {A} (n : nat) (l : list A) (x : A) : In x (firstn n l) -> In x l.
Proof. intros H. rewrite <- (firstn_skipn n l). apply in_or_app. now left. Qed.

Lemma In_skipn {A} (n : nat) (l : list A) (x : A) : In x (skipn n l) -> In x l.
Proof. intros H. rewrite <- (firstn_skipn n l). apply in_or_app. now right. Qed.

(** The rows [getReadings] answers with when the store answers. *)
Lemma getReadings_answered (refused : Call -> bool) (q : ReadingsQuery.t) (w : World) :
  refused select_readings = false ->
  getReadings refused q w =
  (reply_readings 200
     (firstn (match ReadingsQuery.limit q with Some l => l | None => 50%nat end)
        (skipn (match ReadingsQuery.offset q with Some o => o | None => 0%nat end)
           (match ReadingsQuery.bin_id q with
            | Some b => filter (fun r => Nat.eqb (Reading.bin_id r) b)
                          (newest_first (sensor_readings w))
            | None => newest_first (sensor_readings w)
            end))), w).
Proof. intros H. unfold getReadings. rewrite H. cbv zeta. now rewrite range_page. Qed.

(** The readings a reply carries. *)
Lemma accepted_reading_stored (env : Env) (body : SensorBody.t) (w : World)
  (reading : Reading.t) (n : nat) :
  fst (receiveSensorData env (Some body) w) = json_reading 201 reading n ->
  sensor_readings (snd (receiveSensorData env (Some body) w)) = sensor_readings w ++ [reading] /\
  Reading.id reading = next_id w.
Proof.
  destruct (receiveSensorData_valid_or_rejected env body w)
    as [(code & fill & Hv)|(s & e & E)].
  2:{ rewrite E. discriminate. }
  rewrite (receiveSensorData_valid env body code fill w Hv).
  destruct (fails env (select_bin_by_code code)); [discriminate|].
  destruct (bin_with_code w code) as [bin_id|]; [|discriminate].
  destruct (fails env insert_sensor_reading); [discriminate|].
  cbv zeta.
  match goal with |- context [evaluateReading env ?r ?w3] =>
    pose proof (evaluateReading_effect env r w3) as He;
    destruct (evaluateReading env r w3) as [created w4]
  end.
  cbv zeta in He. cbn [fst snd] in *. destruct He as (_ & _ & _ & Hr & _).
  intros [= <- <-]. split; [|reflexivity].
  match type of Hr with _ = sensor_readings (snd (emitSensorReading env ?r (snd (db_update_bin_fill env ?b ?f ?w1)))) =>
    destruct (before_evaluation env b f r w1) as (_ & Hr1 & _) end.
  cbv zeta in Hr1. cbn [sensor_readings with_next_id with_sensor_readings] in Hr1.
  now rewrite Hr, Hr1.
Qed.

Lemma forEach_next_id {A} (body : A -> M unit) :
  (forall x w, (next_id w <= next_id (snd (body x w)))%nat) ->
  forall xs w, (next_id w <= next_id (snd (forEach xs body w)))%nat.
Proof.
  intros Hbody. induction xs as [|x xs IH]; intros w; [apply Nat.le_refl|].
  cbn [forEach]. unfold bind at 1.
  specialize (Hbody x w). destruct (body x w) as [[] w1]. cbn [snd] in *.
  specialize (IH w1). lia.
Qed.

Lemma sendNotification_next_id (env : Env) (r : NotificationRequest) (w : World) :
  (next_id w <= next_id (snd (sendNotification env r w)))%nat.
Proof.
  destruct (fails env (insert_notification (req_user_id r) (req_alert_id r) (req_channel r)))
    eqn:E.
  - rewrite sendNotification_insert_fails by assumption. apply Nat.le_refl.
  - rewrite sendNotification_inserted by assumption. cbn. lia.
Qed.

Lemma notifyRelevantUsers_next_id (env : Env) (alert : Alert.t) (w : World) :
  (next_id w <= next_id (snd (notifyRelevantUsers env alert w)))%nat.
Proof.
  unfold notifyRelevantUsers, bind at 1. unfold db_select_users.
  destruct (fails env (select_users (Alert.id alert))); [apply Nat.le_refl|].
  apply forEach_next_id. intros user w1. unfold when.
  destruct (truthy_string (Some (User.email user)));
    destruct (truthy_string (User.phone user)
              && Severity_eqb (Alert.severity alert) critical);
    unfold bind, ret;
    repeat match goal with
      | |- context [sendNotification env ?r ?w2] =>
          let H := fresh "H" in
          pose proof (sendNotification_next_id env r w2) as H;
          destruct (sendNotification env r w2) as [? ?]; cbn [snd] in H
      end; cbn [snd]; lia.
Qed.

Lemma evaluateReading_next_id (env : Env) (reading : Reading.t) (w : World) :
  (next_id w <= next_id (snd (evaluateReading env reading w)))%nat.
Proof.
  unfold evaluateReading.
  destruct (0 <? List.length (candidateAlerts reading))%nat; [|apply Nat.le_refl].
  unfold bind at 1. unfold db_insert_alerts.
  destruct (fails env insert_alerts); [apply Nat.le_refl|].
  cbv zeta. unfold bind at 1.
  match goal with |- context [forEach ?xs ?body ?w1] =>
    assert (He : (next_id w1 <= next_id (snd (forEach xs body w1)))%nat);
    [apply forEach_next_id | destruct (forEach xs body w1) as [[] w2]]
  end.
  - intros a w1. unfold bind, emitAlert, emit, ret, when.
    destruct (io env); cbn [negb];
      destruct (high_or_critical (Alert.severity a)); cbn [snd];
      try apply Nat.le_refl;
      match goal with |- context [notifyRelevantUsers env a ?w2] =>
        pose proof (notifyRelevantUsers_next_id env a w2) as H end;
      cbn in *; exact H.
  - cbn in *. lia.
Qed.

(** Every request keeps the identifiers of the stored readings below the
    next identifier. *)
Lemma serve_keeps_readings_below_next (env : Env) (q : Request) (w : World) :
  readings_below_next w -> readings_below_next (snd (serve env q w)).
Proof.
  intros Hbelow. destruct q as [[body|]|body|id body]; cbn [serve]; [|exact Hbelow| |].
  - destruct (receiveSensorData_valid_or_rejected env body w)
    as [(code & fill & Hv)|(s & e & E)].
    2:{ now rewrite E. }
    rewrite (receiveSensorData_valid env body code fill w Hv).
    destruct (fails env (select_bin_by_code code)); [exact Hbelow|].
    destruct (bin_with_code w code) as [bin_id|]; [|exact Hbelow].
    destruct (fails env insert_sensor_reading); [exact Hbelow|].
    cbv zeta.
    match goal with |- context [evaluateReading env ?r ?w3] =>
      pose proof (evaluateReading_effect env r w3) as He;
      pose proof (evaluateReading_next_id env r w3) as Hn;
      destruct (evaluateReading env r w3) as [created w4]
    end.
    cbv zeta in He. cbn [fst snd] in *. destruct He as (_ & _ & _ & Hr & _).
    match type of Hr with _ = sensor_readings (snd (emitSensorReading env ?r (snd (db_update_bin_fill env ?b ?f ?w1)))) =>
      destruct (before_evaluation env b f r w1) as (_ & Hr1 & _ & _ & _ & _ & Hn1 & _) end.
    cbv zeta in Hr1, Hn1.
    cbn [sensor_readings next_id with_next_id with_sensor_readings] in Hr1, Hn1.
    intros r. rewrite Hr, Hr1, in_app_iff. rewrite Hn1 in Hn.
    intros [Hin|[<-|[]]]; [specialize (Hbelow r Hin); lia | cbn; lia].
  - rewrite createCollection_run.
    destruct (CollectionBody.bin_id body) as [id|]; [|exact Hbelow].
    destruct (fails env (select_bin_by_id id)); [exact Hbelow|].
    destruct (bin_with_id w id); [|exact Hbelow].
    destruct (fails env insert_collection_log); [exact Hbelow|].
    cbv zeta. cbn [snd]. intros r.
    unfold after_log_insert, bind, db_update_bin_emptied, db_update_alerts_resolved,
      emitBinStatusUpdate, emit, ret.
    destruct (fails env (update_bin_emptied id)),
      (fails env (update_alerts_resolved id)); cbn;
      try destruct (single _); destruct (io env); cbn;
      intros Hin; specialize (Hbelow r Hin); lia.
  - rewrite resolveAlert_run.
    destruct (fails env (update_alert id) || rejected _ _); exact Hbelow.
Qed.

(** X12.  Store and fetch.  In a store whose reading identifiers are all
    below the next identifier (which every reading, collection and alert
    request keeps so), the reading that a submit-reading request returns is
    the one GET /api/devices/readings/:id returns for its identifier
    afterwards; an identifier that no reading carries, or a lookup the store
    refuses, is answered with 404.  The handler only reads. *)
Theorem X12_store_and_fetch (env : Env) (refused : Call -> bool) (body : SensorBody.t)
  (w : World) :
  (forall id, refused (select_reading id) = true \/
              (forall r, In r (sensor_readings w) -> Reading.id r <> id) ->
     getReadingById refused id w = (reply_error 404 reading_not_found, w)) /\
  (forall reading n,
     readings_below_next w ->
     fst (receiveSensorData env (Some body) w) = json_reading 201 reading n ->
     refused (select_reading (Reading.id reading)) = false ->
     let w' := snd (receiveSensorData env (Some body) w) in
     getReadingById refused (Reading.id reading) w' = (reply_reading 200 reading, w')) /\
  (readings_below_next w -> forall w', reachable w w' -> readings_below_next w').
Proof.
  split; [|split].
  2:{ intros reading n Hbelow Hr Hsel. cbv zeta.
      destruct (accepted_reading_stored env body w reading n Hr) as [Hs Hid].
      unfold getReadingById. rewrite Hsel, Hs, filter_app.
      rewrite filter_none.
      - cbn. now rewrite Nat.eqb_refl.
      - intros r Hin. apply Nat.eqb_neq. specialize (Hbelow r Hin). lia. }
  2:{ intros Hbelow w' Hreach. induction Hreach as [|w1 env1 q _ IH]; [exact Hbelow|].
      now apply serve_keeps_readings_below_next. }
  - intros id [H|H]; unfold getReadingById; [now rewrite H|].
    destruct (refused (select_reading id)); [reflexivity|].
    rewrite filter_none; [reflexivity|].
    intros r Hin. apply Nat.eqb_neq. now apply H.
Qed.

Lemma X12_store_and_fetch_witness :
  getReadingById answered 100 (snd (receiveSensorData reliable (Some body_97) depot)) =
    (reply_reading 200 (reading_of_body body_97 1 97 100),
     snd (receiveSensorData reliable (Some body_97) depot)) /\
  getReadingById answered 7 depot = (reply_error 404 reading_not_found, depot).
Proof.
  destruct (X12_store_and_fetch reliable answered body_97 depot) as (H1 & H2 & _). split.
  - apply (H2 (reading_of_body body_97 1 97 100) 1%nat); try reflexivity.
    intros r [].
  - apply H1. right. intros r [].
Defined.

(** X13.  Paging through readings.  When the store answers, GET
    /api/devices/readings returns 200 and only reads; a page holds at most
    limit readings (50 when no limit is given), all of them stored readings
    and, when a bin is asked for, readings of that bin; a page of l1 rows
    followed by the page of l2 rows that starts l1 rows later is the page of
    l1 + l2 rows, so paging neither skips nor repeats a reading; and the
    first row of the first page after a reading has been stored is that
    reading. *)
Theorem X13_paging (refused : Call -> bool) (w : World) :
  refused select_readings = false ->
  (forall q, exists rows,
     getReadings refused q w = (reply_readings 200 rows, w) /\
     (List.length rows <=
        match ReadingsQuery.limit q with Some l => l | None => 50 end)%nat /\
     (forall r, In r rows -> In r (sensor_readings w)) /\
     (forall b, ReadingsQuery.bin_id q = Some b ->
        forall r, In r rows -> Reading.bin_id r = b)) /\
  (forall b o l1 l2 rows1 rows2,
     (0 < l1)%nat -> (0 < l2)%nat ->
     fst (getReadings refused (ReadingsQuery.mk b (Some l1) (Some o)) w) =
       reply_readings 200 rows1 ->
     fst (getReadings refused (ReadingsQuery.mk b (Some l2) (Some (o + l1)%nat)) w) =
       reply_readings 200 rows2 ->
     fst (getReadings refused (ReadingsQuery.mk b (Some (l1 + l2)%nat) (Some o)) w) =
       reply_readings 200 (rows1 ++ rows2)) /\
  (forall env body reading n l,
     fst (receiveSensorData env (Some body) w) = json_reading 201 reading n ->
     (0 < l)%nat ->
     exists rest,
       fst (getReadings refused
              (ReadingsQuery.mk (Some (Reading.bin_id reading)) (Some l) None)
              (snd (receiveSensorData env (Some body) w))) =
       reply_readings 200 (reading :: rest)).
Proof.
  intros Hsel. split; [|split].
  - intros q. rewrite (getReadings_answered refused q w Hsel). eexists.
    split; [reflexivity|]. split; [apply firstn_le_length|]. split.
    + intros r Hin. apply In_firstn, In_skipn in Hin.
      destruct (ReadingsQuery.bin_id q); [apply filter_In in Hin; destruct Hin as [Hin _]|];
        unfold newest_first in Hin; now apply in_rev.
    + intros b -> r Hin. apply In_firstn, In_skipn, filter_In in Hin.
      destruct Hin as [_ Hb]. now apply Nat.eqb_eq.
  - intros b o l1 l2 rows1 rows2 _ _.
    rewrite !(getReadings_answered refused _ w Hsel). cbn [fst ReadingsQuery.limit
      ReadingsQuery.offset ReadingsQuery.bin_id].
    intros [= <-] [= <-]. f_equal.
    replace (o + l1)%nat with (l1 + o)%nat by lia.
    rewrite <- skipn_skipn. symmetry. apply firstn_sum.
  - intros env body reading n l Hr Hl.
    destruct (accepted_reading_stored env body w reading n Hr) as [Hs _].
    rewrite (getReadings_answered refused _ _ Hsel). cbn [fst ReadingsQuery.limit
      ReadingsQuery.offset ReadingsQuery.bin_id].
    rewrite Hs. unfold newest_first. rewrite rev_app_distr. cbn [rev app filter skipn].
    rewrite Nat.eqb_refl. destruct l as [|l]; [lia|]. cbn [firstn].
    eexists. reflexivity.
Qed.

Lemma X13_paging_witness :
  (exists rows,
     getReadings answered readings_of_bin_1 busy_depot = (reply_readings 200 rows, busy_depot) /\
     (List.length rows <= 2)%nat) /\
  (forall rows1 rows2,
     fst (getReadings answered (ReadingsQuery.mk None (Some 1%nat) (Some 0%nat)) busy_depot) =
       reply_readings 200 rows1 ->
     fst (getReadings answered (ReadingsQuery.mk None (Some 2%nat) (Some 1%nat)) busy_depot) =
       reply_readings 200 rows2 ->
     fst (getReadings answered (ReadingsQuery.mk None (Some 3%nat) (Some 0%nat)) busy_depot) =
       reply_readings 200 (rows1 ++ rows2)).
Proof.
  destruct (X13_paging answered busy_depot eq_refl) as (H1 & H2 & _). split.
  - destruct (H1 readings_of_bin_1) as (rows & Hr & Hl & _). exists rows. auto.
  - intros rows1 rows2. apply (H2 None 0%nat 1%nat 2%nat); lia.
Defined.

(** The bin a stored reading belongs to, after its fill level was written. *)
Lemma bin_after_reading (env : Env) (body : SensorBody.t) (w : World) (code : string)
  (fill : Q) (id : nat) (bin : Bin.t) :
  valid_sensor_body body code fill ->
  fails env (select_bin_by_code code) = false ->
  bin_with_code w code = Some id ->
  bin_with_id w id = Some bin ->
  fails env insert_sensor_reading = false ->
  fails env (update_bin_fill id) = false ->
  bin_with_id (snd (receiveSensorData env (Some body) w)) id =
    Some (Bin.mk (Bin.id bin) (Bin.bin_code bin) fill (Bin.last_emptied bin)) /\
  fst (receiveSensorData env (Some body) w) =
    json_reading 201 (reading_of_body body id fill (next_id w))
      (match fst (receiveSensorData env (Some body) w) with
       | json_reading _ _ n => n
       | _ => 0%nat
       end).
Proof.
  intros Hv Hsel Hcode Hbin Hins Hfill.
  rewrite (receiveSensorData_valid env body code fill w Hv), Hsel, Hcode, Hins.
  cbv zeta.
  match goal with |- context [evaluateReading env ?r ?w3] =>
    pose proof (evaluateReading_effect env r w3) as He;
    destruct (evaluateReading env r w3) as [created w4]
  end.
  cbv zeta in He. cbn [fst snd] in *. destruct He as (_ & _ & Hb & _).
  split; [|reflexivity].
  match type of Hb with
    _ = bins (snd (emitSensorReading env ?r (snd (db_update_bin_fill env ?b ?f ?w1)))) =>
    destruct (before_evaluation env b f r w1) as (Hb1 & _) end.
  cbv zeta in Hb1. cbn [bins with_next_id with_sensor_readings] in Hb1.
  rewrite Hfill in Hb1. unfold bin_with_id at 1.
  rewrite Hb, Hb1, filter_set_bin_fill, single_map.
  unfold bin_with_id in Hbin. now rewrite Hbin.
Qed.

(** X14.  A bin with its recent readings.  GET /api/bins/:id answers 404
    when the store refuses the bin lookup or no bin carries the identifier.
    For a bin that is found it answers 200 with at most ten readings, all of
    them stored readings of that bin; when the store refuses the readings
    query the request still succeeds, with an empty list.  After a reading of
    the bin has been stored and its fill level written, the answer shows the
    submitted fill level and lists that reading first. *)
Theorem X14_bin_with_recent_readings (refused : Call -> bool) (id : nat) (w : World) :
  (refused (select_bin id) = true \/ (forall b, In b (bins w) -> Bin.id b <> id) ->
   getBinById refused id w = (reply_error 404 no_such_bin, w)) /\
  (forall bin,
     refused (select_bin id) = false -> bin_with_id w id = Some bin ->
     exists recent,
       getBinById refused id w = (reply_bin 200 bin recent, w) /\
       (List.length recent <= 10)%nat /\
       (forall r, In r recent -> In r (sensor_readings w) /\ Reading.bin_id r = id) /\
       (refused (select_recent_readings id) = true -> recent = [])) /\
  (forall env body code fill bin,
     valid_sensor_body body code fill ->
     fails env (select_bin_by_code code) = false ->
     bin_with_code w code = Some id ->
     bin_with_id w id = Some bin ->
     fails env insert_sensor_reading = false ->
     fails env (update_bin_fill id) = false ->
     refused (select_bin id) = false ->
     refused (select_recent_readings id) = false ->
     let w' := snd (receiveSensorData env (Some body) w) in
     exists rest,
       getBinById refused id w' =
       (reply_bin 200
          (Bin.mk (Bin.id bin) (Bin.bin_code bin) fill (Bin.last_emptied bin))
          (reading_of_body body id fill (next_id w) :: rest), w')).
Proof.
  split; [|split].
  - intros [H|H]; unfold getBinById; [now rewrite H|].
    destruct (refused (select_bin id)); [reflexivity|].
    rewrite filter_none; [reflexivity|].
    intros b Hin. apply Nat.eqb_neq. now apply H.
  - intros bin Hsel Hbin. unfold getBinById. rewrite Hsel.
    unfold bin_with_id in Hbin. rewrite Hbin.
    destruct (refused (select_recent_readings id)).
    + exists []. split; [reflexivity|]. split; [cbn; lia|].
      split; [intros r [] | reflexivity].
    + eexists. split; [reflexivity|]. split; [apply firstn_le_length|]. split.
      * intros r Hin. apply In_firstn, filter_In in Hin. destruct Hin as [Hin Hb].
        split; [unfold newest_first in Hin; now apply in_rev | now apply Nat.eqb_eq].
      * discriminate.
  - intros env body code fill bin Hv Hsel Hcode Hbin Hins Hfill Hsb Hsr. cbv zeta.
    destruct (bin_after_reading env body w code fill id bin Hv Hsel Hcode Hbin Hins Hfill)
      as [Hbin1 Hr].
    destruct (accepted_reading_stored env body w _ _ Hr) as [Hs _].
    unfold getBinById. rewrite Hsb, Hsr.
    unfold bin_with_id in Hbin1. rewrite Hbin1, Hs.
    unfold newest_first. rewrite rev_app_distr. cbn [rev app filter reading_of_body
      Reading.bin_id].
    rewrite Nat.eqb_refl. cbn [firstn]. eexists. reflexivity.
Qed.

Lemma X14_bin_with_recent_readings_witness :
  (exists rest,
     getBinById answered 1 (snd (receiveSensorData reliable (Some body_97) depot)) =
     (reply_bin 200 (Bin.mk 1 "BIN-001" 97 None)
        (reading_of_body body_97 1 97 100 :: rest),
      snd (receiveSensorData reliable (Some body_97) depot))) /\
  getBinById answered 9 depot = (reply_error 404 no_such_bin, depot).
Proof.
  destruct (X14_bin_with_recent_readings answered 1 depot) as (_ & _ & H3).
  destruct (X14_bin_with_recent_readings answered 9 depot) as (H1 & _).
  split.
  - apply (H3 reliable body_97 "BIN-001"%string 97 bin_1); try reflexivity.
    unfold valid_sensor_body. repeat apply conj;
      first [reflexivity | vm_compute; discriminate].
  - apply H1. right. intros b [<-|[]]. discriminate.
Defined.

(** ** Bin statistics *)

Lemma BinStatus_eqb_iff (s t : BinStatus) : BinStatus_eqb s t = true <-> s = t.
Proof. destruct s, t; cbn; split; congruence. Qed.

Lemma brackets_partition (bins : list BinColumns.t) :
  (List.length (filter (fun b => lt (BinColumns.fill_level b) 25) bins)
   + List.length (filter (fun b => geq (BinColumns.fill_level b) 25
                                   && lt (BinColumns.fill_level b) 50) bins)
   + List.length (filter (fun b => geq (BinColumns.fill_level b) 50
                                   && lt (BinColumns.fill_level b) 80) bins)
   + List.length (filter (fun b => geq (BinColumns.fill_level b) 80
                                   && lt (BinColumns.fill_level b) 95) bins)
   + List.length (filter (fun b => geq (BinColumns.fill_level b) 95) bins))%nat
  = List.length bins.
Proof.
  induction bins as [|b bins IH]; [reflexivity|]. cbn [filter].
  compare_all; cbn [andb List.length]; lia.
Qed.

Lemma sum_between (lo hi : Q) (bins : list BinColumns.t) (acc : Q) :
  (forall b, In b bins -> lo <= BinColumns.fill_level b /\ BinColumns.fill_level b <= hi) ->
  let n := inject_Z (Z.of_nat (List.length bins)) in
  let sum := fold_left (fun sum b => sum + BinColumns.fill_level b) bins acc in
  acc + lo * n <= sum /\ sum <= acc + hi * n.
Proof.
  cbv zeta. revert acc. induction bins as [|b bins IH]; intros acc H.
  - cbn [fold_left].
    change (inject_Z (Z.of_nat (List.length (@nil BinColumns.t)))) with 0.
    split; lra.
  - cbn [fold_left List.length].
    destruct (H b (or_introl eq_refl)) as [Hlo Hhi].
    destruct (IH (acc + BinColumns.fill_level b)) as [IH1 IH2].
    { intros b' Hb'. apply H. now right. }
    rewrite Nat2Z.inj_succ. unfold Z.succ. rewrite inject_Z_plus.
    change (inject_Z 1) with 1.
    set (n := inject_Z (Z.of_nat (List.length bins))) in *.
    assert (E1 : lo * (n + 1) == lo * n + lo) by ring.
    assert (E2 : hi * (n + 1) == hi * n + hi) by ring.
    rewrite E1, E2. split; lra.
Qed.

Lemma Math_round_between (lo hi : Z) (x : Q) :
  inject_Z lo <= x -> x <= inject_Z hi -> (lo <= Math_round x <= hi)%Z.
Proof.
  intros Hlo Hhi. unfold Math_round. split.
  - rewrite <- (Qfloor_Z lo). apply Qfloor_resp_le. lra.
  - pose proof (Qfloor_le (x + (1 # 2))) as Hf.
    assert (Hlt : inject_Z (Qfloor (x + (1 # 2))) < inject_Z (hi + 1)).
    { rewrite inject_Z_plus. change (inject_Z 1) with 1. lra. }
    rewrite <- Zlt_Qlt in Hlt. lia.
Qed.

(** X15.  The bin overview is consistent.  When the store refuses the
    query the answer is 500.  Otherwise the answer is 200 and total_bins is
    the number of bins; every bin is counted in exactly one fill bracket, so
    the five brackets add up to total_bins; the counts of by_status add up to
    total_bins as well; avg_fill_level is 0 when there is no bin, and when
    every fill level lies between two integers (such as 0 and 100) so does
    avg_fill_level. *)
Theorem X15_bin_stats_consistent (bins : list BinColumns.t) :
  getBinStats None = reply_error 500 store_message /\
  exists s,
    getBinStats (Some bins) = reply_bin_stats 200 s /\
    total_bins s = List.length bins /\
    (bracket_empty (fill_brackets s) + bracket_low (fill_brackets s)
     + bracket_medium (fill_brackets s) + bracket_high (fill_brackets s)
     + bracket_critical (fill_brackets s))%nat = total_bins s /\
    sum_counts (by_status s) = total_bins s /\
    (bins = [] -> avg_fill_level s = 0%Z) /\
    (forall lo hi : Z,
       bins <> [] ->
       (forall b, In b bins ->
          inject_Z lo <= BinColumns.fill_level b /\
          BinColumns.fill_level b <= inject_Z hi) ->
       (lo <= avg_fill_level s <= hi)%Z).
Proof.
  split; [reflexivity|]. eexists. split; [reflexivity|].
  cbn [total_bins avg_fill_level by_status fill_brackets bracket_empty bracket_low
       bracket_medium bracket_high bracket_critical].
  split; [reflexivity|]. split; [apply brackets_partition|]. split.
  - apply (count_by_spec BinStatus_eqb BinColumns.status BinStatus_eqb_iff bins).
  - split; [now intros ->|]. intros lo hi Hne Hall.
    destruct bins as [|b0 bins0]; [congruence|].
    set (bins := b0 :: bins0) in *.
    assert (Hpos : 0 < inject_Z (Z.of_nat (List.length bins))).
    { change 0 with (inject_Z 0). rewrite <- Zlt_Qlt. cbn [bins List.length]. lia. }
    replace (0 <? List.length bins)%nat with true
      by (symmetry; apply Nat.ltb_lt; cbn [bins List.length]; lia).
    destruct (sum_between (inject_Z lo) (inject_Z hi) bins 0 Hall) as [H1 H2].
    cbv zeta in H1, H2.
    apply Math_round_between.
    + apply Qle_shift_div_l; [exact Hpos | lra].
    + apply Qle_shift_div_r; [exact Hpos | lra].
Qed.

Lemma X15_bin_stats_consistent_witness :
  exists s,
    getBinStats (Some fleet) = reply_bin_stats 200 s /\
    (0 <= avg_fill_level s <= 100)%Z.
Proof.
  destruct (X15_bin_stats_consistent fleet) as (_ & s & H1 & _ & _ & _ & _ & H6).
  exists s. split; [exact H1|]. apply H6; [discriminate|].
  intros b [<-|[<-|[<-|[<-|[]]]]]; split; vm_compute; discriminate.
Defined.

(** X16.  The fill brackets of the dashboard agree with the alert
    thresholds.  Among the bins of the overview, those counted as medium are
    exactly those whose fill level would raise a fill alert of severity
    medium, those counted as high those with severity high, those counted as
    critical those with severity critical, and those counted as empty or low
    those without fill alert.  The fill alert of any reading depends on its
    fill level only. *)
Theorem X16_brackets_match_alerts (bins : list BinColumns.t) (s : BinStats) :
  getBinStats (Some bins) = reply_bin_stats 200 s ->
  (bracket_empty (fill_brackets s) + bracket_low (fill_brackets s))%nat =
    List.length (filter (alerting None) bins) /\
  bracket_medium (fill_brackets s) = List.length (filter (alerting (Some medium)) bins) /\
  bracket_high (fill_brackets s) = List.length (filter (alerting (Some high)) bins) /\
  bracket_critical (fill_brackets s) =
    List.length (filter (alerting (Some critical)) bins) /\
  (forall r, fill_alert_of r = fill_alert_of (reading_at (Reading.fill_level r))).
Proof.
  intros [= <-].
  cbn [fill_brackets bracket_empty bracket_low bracket_medium bracket_high
       bracket_critical].
  assert (Hfill : forall r, fill_alert_of r =
            match fill_candidates r with [] => None | a :: _ => Some (NewAlert.severity a) end).
  { intros r. unfold fill_alert_of. now rewrite from_field_candidateAlerts. }
  repeat apply conj.
  5:{ intros r. rewrite !Hfill. unfold fill_candidates, reading_at.
      cbn [Reading.fill_level]. compare_all; reflexivity. }
  all: induction bins as [|b bins IH]; [reflexivity|]; cbn [filter];
    unfold alerting at 1; rewrite Hfill; unfold fill_candidates, reading_at;
    cbn [Reading.fill_level];
    compare_all; cbn [andb List.length NewAlert.severity buildAlert Severity_eqb];
    lia.
Qed.

Lemma X16_brackets_match_alerts_witness :
  bracket_medium
    (mkFillBrackets 1 1 1 0 1) = List.length (filter (alerting (Some medium)) fleet) /\
  bracket_critical
    (mkFillBrackets 1 1 1 0 1) = List.length (filter (alerting (Some critical)) fleet).
Proof.
  destruct (X16_brackets_match_alerts fleet
              (mkBinStats 4 52 [(active, 3%nat); (maintenance, 1%nat)]
                 (mkFillBrackets 1 1 1 0 1)))
    as (_ & H2 & _ & H4 & _).
  - vm_compute. reflexivity.
  - split; [exact H2 | exact H4].
Defined.
(** ** Creating users and bins *)

Lemma truthy_string_email (s : string) :
  truthy_string (Some s) = true -> s <> EmptyString.
Proof. destruct s; [discriminate | discriminate]. Qed.

Lemma existsb_eqb_In {A} (key : A -> string) (k : string) (rows : list A) :
  existsb (fun x => String.eqb (key x) k) rows = true <-> In k (map key rows).
Proof.
  rewrite existsb_exists, in_map_iff. split.
  - intros (x & Hin & E). apply String.eqb_eq in E. now exists x.
  - intros (x & E & Hin). exists x. split; [exact Hin|]. now apply String.eqb_eq.
Qed.

Lemma NoDup_snoc {A} (l : list A) (x : A) : NoDup l -> ~ In x l -> NoDup (l ++ [x]).
Proof.
  intros Hl Hx. apply NoDup_app; [exact Hl | repeat constructor; intros [] |].
  intros a Ha [<-|[]]. now apply Hx.
Qed.

Lemma filter_none_matching {A} (p : A -> bool) (rows : list A) :
  existsb p rows = false -> filter p rows = [].
Proof.
  induction rows as [|x rows IH]; [reflexivity|]. cbn [existsb filter].
  destruct (p x); [discriminate|]. exact IH.
Qed.

(** What [createUser] does, case by case. *)
Lemma createUser_run (refused : Call -> bool) (body : UserBody.t) (w : World) :
  createUser refused body w =
  if negb (truthy_string (UserBody.email body))
     || negb (truthy_string (UserBody.full_name body))
  then (reply_error 400 email_and_full_name_required, w)
  else if refused insert_user then (reply_error 500 store_message, w)
  else
    match UserBody.email body with
    | None => (reply_error 400 email_and_full_name_required, w)
    | Some address =>
        if existsb (fun u => String.eqb (User.email u) address) (users w)
        then (reply_error 409 email_taken, w)
        else
          let data :=
            User.mk (next_id w) address (string_or_null (UserBody.phone body))
              (match UserBody.role body with Some r => r | None => collector end) true in
          (reply_user_created 201 data,
           with_next_id (S (next_id w)) (with_users (fun t => t ++ [data]) w))
    end.
Proof.
  unfold createUser.
  destruct (UserBody.email body) as [e|]; [|reflexivity].
  destruct (UserBody.full_name body) as [f|];
    [|destruct (truthy_string (Some e)); reflexivity].
  destruct (negb (truthy_string (Some e)) || negb (truthy_string (Some f)));
    reflexivity.
Qed.

(** What [createBin] does, case by case. *)
Lemma createBin_run (refused : Call -> bool) (body : BinBody.t) (w : World) :
  createBin refused body w =
  if negb (truthy_string (BinBody.bin_code body))
     || negb (truthy_string (BinBody.location body))
  then (reply_error 400 bin_code_and_location_required, w)
  else if refused insert_bin then (reply_error 500 store_message, w)
  else
    match BinBody.bin_code body with
    | None => (reply_error 400 bin_code_and_location_required, w)
    | Some code =>
        if existsb (fun b => String.eqb (Bin.bin_code b) code) (bins w)
        then (reply_error 409 bin_code_taken, w)
        else
          let data := Bin.mk (next_id w) code 0 None in
          (reply_bin_created 201 data,
           with_next_id (S (next_id w)) (with_bins (fun t => t ++ [data]) w))
    end.
Proof.
  unfold createBin.
  destruct (BinBody.bin_code body) as [c|]; [|reflexivity].
  destruct (BinBody.location body) as [l|];
    [|destruct (truthy_string (Some c)); reflexivity].
  destruct (negb (truthy_string (Some c)) || negb (truthy_string (Some l)));
    reflexivity.
Qed.

Lemma In_fan_out_email (env : Env) (us : list User.t) (a : Alert.t) (u : User.t) :
  In u us -> relevant u = true -> User.email u <> EmptyString ->
  high_or_critical (Alert.severity a) = true ->
  fails env (select_users (Alert.id a)) = false ->
  In (email_request a u) (fan_out env us a).
Proof.
  intros Hin Hrel Hmail Hsev Hsel. unfold fan_out, notified. rewrite Hsev, Hsel.
  apply in_flat_map. exists u. split; [apply filter_In; now split|].
  unfold requests_for. rewrite (truthy_string_some _ Hmail). now left.
Qed.

(** The handlers that write readings, collections and alerts leave the
    users as they are. *)
Lemma serve_keeps_users (env : Env) (q : Request) (w : World) :
  users (snd (serve env q w)) = users w.
Proof.
  destruct q as [[body|]|body|id body]; cbn [serve]; [|reflexivity| |].
  - destruct (receiveSensorData_valid_or_rejected env body w)
      as [(code & fill & Hv)|(s & e & E)].
    2:{ now rewrite E. }
    rewrite (receiveSensorData_valid env body code fill w Hv).
    destruct (fails env (select_bin_by_code code)); [reflexivity|].
    destruct (bin_with_code w code) as [bin_id|]; [|reflexivity].
    destruct (fails env insert_sensor_reading); [reflexivity|].
    cbv zeta.
    match goal with |- context [evaluateReading env ?r ?w3] =>
      pose proof (evaluateReading_effect env r w3) as He;
      destruct (evaluateReading env r w3) as [created w4]
    end.
    cbv zeta in He. cbn [fst snd] in *. destruct He as (_ & _ & _ & _ & Hu & _).
    match type of Hu with
      _ = users (snd (emitSensorReading env ?r (snd (db_update_bin_fill env ?b ?f ?w1)))) =>
      destruct (before_evaluation env b f r w1) as (_ & _ & _ & Hu1 & _) end.
    cbv zeta in Hu1. now rewrite Hu, Hu1.
  - rewrite createCollection_run.
    destruct (CollectionBody.bin_id body) as [id|]; [|reflexivity].
    destruct (fails env (select_bin_by_id id)); [reflexivity|].
    destruct (bin_with_id w id); [|reflexivity].
    destruct (fails env insert_collection_log); [reflexivity|].
    cbv zeta. cbn [snd].
    match goal with |- context [after_log_insert env body id ?w1] =>
      destruct (after_log_insert_tables env body id w1) as (_ & _ & _ & _ & Hu & _) end.
    cbv zeta in Hu. now rewrite Hu.
  - rewrite resolveAlert_run.
    destruct (fails env (update_alert id) || rejected _ _); reflexivity.
Qed.

Lemma reachable_keeps_users (w w' : World) : reachable w w' -> users w' = users w.
Proof.
  induction 1 as [|w1 env q _ IH]; [reflexivity|]. now rewrite serve_keeps_users.
Qed.

(** An active admin or collector with an email is sent an email for a high
    or critical alert that a reading creates: the notification row is stored
    and the email sender is called, when the store answers the user lookup
    and accepts the row. *)
Lemma relevant_user_emailed (env : Env) (reading : Reading.t) (w : World)
  (a : Alert.t) (u : User.t) :
  In u (users w) -> relevant u = true -> User.email u <> EmptyString ->
  In a (fst (evaluateReading env reading w)) ->
  high_or_critical (Alert.severity a) = true ->
  fails env (select_users (Alert.id a)) = false ->
  fails env (insert_notification (User.id u) (Some (Alert.id a)) email) = false ->
  let w' := snd (evaluateReading env reading w) in
  (exists l, sent_between w w' l /\ In (email_request a u) l) /\
  (exists n, In n (notifications w') /\
             Notification.user_id n = User.id u /\
             Notification.alert_id n = Some (Alert.id a) /\
             Notification.channel n = email /\
             Notification.message n = Alert.message a) /\
  In (mkDelivery email (User.id u) (Alert.message a)) (transported w').
Proof.
  intros Hu Hrel Hmail Ha Hsev Hsel Hins. cbv zeta.
  pose proof (evaluateReading_sent env reading w) as Hs.
  assert (Hin : In (email_request a u)
                  (flat_map (recorded env (users w))
                     (fst (evaluateReading env reading w)))).
  { apply in_flat_map. exists a. split; [exact Ha|].
    apply In_recorded. split; [|exact Hins]. now apply In_fan_out_email. }
  split; [eauto|].
  destruct (sent_between_In _ _ _ _ Hs Hin) as [(n & Hn & E) Ht].
  split.
  - exists n. split; [exact Hn|]. unfold request_of, email_request in E.
    injection E as E1 E2 E3 E4. auto.
  - apply (Ht eq_refl).
Qed.

(** X17.  Creating a user.  A body without email or without full name (or
    with an empty one) is answered with 400; an email some user already has
    is answered with 409 when the store does not fail otherwise; every answer
    other than 201 leaves the tables as they were.  After a 201 the new user
    is the last row of the users: it has the email of the body, the role of
    the body or collector when none was sent, and is active.  Emails that
    were unique stay unique, whatever the body and whatever the store does.
    Readings, collections and alert patches that follow leave the users as
    they are.  In every later state that still holds the row of a created
    admin or collector, each high or critical alert that a reading creates is
    sent to that user by email, provided the store answers the user lookup
    for the alert and accepts the notification row: the row is stored for
    the user and the alert, and the email sender is called with the message
    of the alert. *)
Theorem X17_create_user (refused : Call -> bool) (body : UserBody.t) (w : World) :
  let reply := fst (createUser refused body w) in
  let w' := snd (createUser refused body w) in
  (truthy_string (UserBody.email body) = false \/
   truthy_string (UserBody.full_name body) = false ->
   reply = reply_error 400 email_and_full_name_required) /\
  (forall address,
     UserBody.email body = Some address -> address <> EmptyString ->
     truthy_string (UserBody.full_name body) = true ->
     refused insert_user = false ->
     In address (map User.email (users w)) ->
     reply = reply_error 409 email_taken) /\
  (reply_status reply <> 201%nat -> w' = w) /\
  (NoDup (map User.email (users w)) -> NoDup (map User.email (users w'))) /\
  (forall u,
     reply = reply_user_created 201 u ->
     users w' = users w ++ [u] /\
     UserBody.email body = Some (User.email u) /\
     User.role u = match UserBody.role body with Some r => r | None => collector end /\
     User.is_active u = true /\
     (forall later, reachable w' later -> users later = users w ++ [u]) /\
     (User.role u <> operator ->
      forall later env reading a,
        In u (users later) ->
        In a (fst (evaluateReading env reading later)) ->
        high_or_critical (Alert.severity a) = true ->
        fails env (select_users (Alert.id a)) = false ->
        fails env (insert_notification (User.id u) (Some (Alert.id a)) email) = false ->
        (exists l, sent_between later (snd (evaluateReading env reading later)) l /\
                   In (email_request a u) l) /\
        (exists n, In n (notifications (snd (evaluateReading env reading later))) /\
                   Notification.user_id n = User.id u /\
                   Notification.alert_id n = Some (Alert.id a) /\
                   Notification.channel n = email /\
                   Notification.message n = Alert.message a) /\
        In (mkDelivery email (User.id u) (Alert.message a))
           (transported (snd (evaluateReading env reading later))))).
Proof.
  cbv zeta. rewrite createUser_run.
  destruct (truthy_string (UserBody.email body)) eqn:Te;
    [|cbn; repeat apply conj; try reflexivity; try discriminate; auto;
      intros a E; rewrite E in Te; intros Hne; now rewrite (truthy_string_some _ Hne) in Te].
  destruct (truthy_string (UserBody.full_name body)) eqn:Tf;
    [|cbn; repeat apply conj; try reflexivity; try discriminate; auto].
  cbn [negb orb].
  destruct (refused insert_user) eqn:R;
    [cbn; repeat apply conj; try reflexivity; try discriminate; auto;
     intros [|]; discriminate|].
  destruct (UserBody.email body) as [address|] eqn:E; [|discriminate].
  destruct (existsb _ (users w)) eqn:X.
  - cbn. repeat apply conj; try reflexivity; try discriminate; auto.
    intros [|]; discriminate.
  - cbv zeta. cbn [fst snd]. split; [intros [|]; discriminate|]. split.
    { intros a [= <-] _ _ _ Hin. apply (existsb_eqb_In User.email) in Hin. congruence. }
    split; [intros H; now contradiction H|]. split.
    { intros Hnd. cbn [users with_next_id with_users]. rewrite map_app. cbn [map User.email].
      apply NoDup_snoc; [exact Hnd|]. intros Hin.
      apply (existsb_eqb_In User.email) in Hin. congruence. }
    intros u [= <-]. cbn [users with_next_id with_users User.email User.role User.is_active].
    split; [reflexivity|]. split; [reflexivity|]. split; [reflexivity|].
    split; [reflexivity|]. split.
    { intros later Hreach. now rewrite (reachable_keeps_users _ _ Hreach). }
    intros Hrole later env reading a Hin Ha Hsev Hsel Hins.
    apply (relevant_user_emailed env reading later a _ Hin); try assumption.
    + unfold relevant. cbn [User.role User.is_active].
      destruct (UserBody.role body) as [[]|]; try reflexivity. now contradiction Hrole.
    + cbn [User.email]. now apply truthy_string_email.
Qed.

Lemma X17_create_user_witness :
  fst (createUser answered alice_again depot) = reply_error 409 email_taken /\
  exists u,
    fst (createUser answered frank_body depot) = reply_user_created 201 u /\
    User.role u = collector /\
    In (mkDelivery email (User.id u) (msg_fill_flash 97))
       (transported (snd (evaluateReading reliable reading_97
                            (snd (createUser answered frank_body depot))))).
Proof.
  split.
  - destruct (X17_create_user answered alice_again depot) as (_ & H & _).
    apply (H "alice@example.com"%string); try reflexivity; [discriminate|].
    cbn. now left.
  - destruct (X17_create_user answered frank_body depot) as (_ & _ & _ & _ & H).
    eexists. split; [reflexivity|].
    edestruct H as (Hu & _ & Hr & _ & _ & Hm); [reflexivity|].
    split; [exact Hr|].
    refine (proj2 (proj2 (Hm ltac:(rewrite Hr; discriminate) _ reliable reading_97
              (Alert.mk 101 1 fill_critical critical (msg_fill_flash 97) (Some false)
                 None None) _ _ eq_refl eq_refl eq_refl))).
    + rewrite Hu. apply in_or_app. right. now left.
    + vm_compute. now left.
Defined.

(** X18.  Creating a bin.  A body without bin code or without location (or
    with an empty one) is answered with 400; a code some bin already carries
    is answered with 409 when the store does not fail otherwise; every answer
    other than 201 leaves the tables as they were.  After a 201 the new bin is
    the last row of the bins, with the code of the body, fill level 0 and
    never emptied.  Codes that were unique stay unique, whatever the body and
    whatever the store does.  The code of a created bin resolves to that bin,
    so a valid reading sent for it afterwards is answered with 201 and stored
    for that bin, provided the store answers the lookup and accepts the
    insert. *)
Theorem X18_create_bin (refused : Call -> bool) (body : BinBody.t) (w : World) :
  let reply := fst (createBin refused body w) in
  let w' := snd (createBin refused body w) in
  (truthy_string (BinBody.bin_code body) = false \/
   truthy_string (BinBody.location body) = false ->
   reply = reply_error 400 bin_code_and_location_required) /\
  (forall code,
     BinBody.bin_code body = Some code -> code <> EmptyString ->
     truthy_string (BinBody.location body) = true ->
     refused insert_bin = false ->
     In code (map Bin.bin_code (bins w)) ->
     reply = reply_error 409 bin_code_taken) /\
  (reply_status reply <> 201%nat -> w' = w) /\
  (NoDup (map Bin.bin_code (bins w)) -> NoDup (map Bin.bin_code (bins w'))) /\
  (forall b,
     reply = reply_bin_created 201 b ->
     bins w' = bins w ++ [b] /\
     BinBody.bin_code body = Some (Bin.bin_code b) /\
     Bin.fill_level b = 0 /\ Bin.last_emptied b = None /\
     bin_with_code w' (Bin.bin_code b) = Some (Bin.id b) /\
     (forall env reading fill,
        valid_sensor_body reading (Bin.bin_code b) fill ->
        fails env (select_bin_by_code (Bin.bin_code b)) = false ->
        fails env insert_sensor_reading = false ->
        exists n,
          fst (receiveSensorData env (Some reading) w') =
            json_reading 201 (reading_of_body reading (Bin.id b) fill (next_id w')) n /\
          sensor_readings (snd (receiveSensorData env (Some reading) w')) =
            sensor_readings w ++ [reading_of_body reading (Bin.id b) fill (next_id w')])).
Proof.
  cbv zeta. rewrite createBin_run.
  destruct (truthy_string (BinBody.bin_code body)) eqn:Tc;
    [|cbn; repeat apply conj; try reflexivity; try discriminate; auto;
      intros c E; rewrite E in Tc; intros Hne; now rewrite (truthy_string_some _ Hne) in Tc].
  destruct (truthy_string (BinBody.location body)) eqn:Tl;
    [|cbn; repeat apply conj; try reflexivity; try discriminate; auto].
  cbn [negb orb].
  destruct (refused insert_bin) eqn:R;
    [cbn; repeat apply conj; try reflexivity; try discriminate; auto;
     intros [|]; discriminate|].
  destruct (BinBody.bin_code body) as [code|] eqn:E; [|discriminate].
  destruct (existsb _ (bins w)) eqn:X.
  - cbn. repeat apply conj; try reflexivity; try discriminate; auto.
    intros [|]; discriminate.
  - cbv zeta. cbn [fst snd]. split; [intros [|]; discriminate|]. split.
    { intros c [= <-] _ _ _ Hin. apply (existsb_eqb_In Bin.bin_code) in Hin. congruence. }
    split; [intros H; now contradiction H|]. split.
    { intros Hnd. cbn [bins with_next_id with_bins]. rewrite map_app. cbn [map Bin.bin_code].
      apply NoDup_snoc; [exact Hnd|]. intros Hin.
      apply (existsb_eqb_In Bin.bin_code) in Hin. congruence. }
    intros b [= <-].
    cbn [bins with_next_id with_bins Bin.bin_code Bin.fill_level Bin.last_emptied Bin.id].
    assert (Hres : bin_with_code
                     (with_next_id (S (next_id w))
                        (with_bins (fun t => t ++ [Bin.mk (next_id w) code 0 None]) w)) code
                   = Some (next_id w)).
    { unfold bin_with_code. cbn [bins with_next_id with_bins].
      rewrite filter_app, (filter_none_matching _ _ X). cbn [filter Bin.bin_code app].
      now rewrite String.eqb_refl. }
    split; [reflexivity|]. split; [reflexivity|]. split; [reflexivity|].
    split; [reflexivity|]. split; [exact Hres|].
    intros env reading fill Hv Hsel Hins.
    rewrite (receiveSensorData_valid env reading code fill _ Hv), Hsel, Hres, Hins.
    cbv zeta.
    match goal with |- context [evaluateReading env ?r ?w3] =>
      pose proof (evaluateReading_effect env r w3) as He;
      destruct (evaluateReading env r w3) as [created w4]
    end.
    cbv zeta in He. cbn [fst snd] in *. destruct He as (_ & _ & _ & Hr & _).
    match type of Hr with
      _ = sensor_readings (snd (emitSensorReading env ?r (snd (db_update_bin_fill env ?i ?f ?w1)))) =>
      destruct (before_evaluation env i f r w1) as (_ & Hr1 & _) end.
    cbv zeta in Hr1. eexists. split; [reflexivity|]. now rewrite Hr, Hr1.
Qed.

Lemma X18_create_bin_witness :
  fst (createBin answered bin_1_again depot) = reply_error 409 bin_code_taken /\
  exists b n,
    fst (createBin answered bin_2_body depot) = reply_bin_created 201 b /\
    fst (receiveSensorData reliable (Some body_bin_2) (snd (createBin answered bin_2_body depot))) =
      json_reading 201
        (reading_of_body body_bin_2 (Bin.id b) 85
           (next_id (snd (createBin answered bin_2_body depot)))) n.
Proof.
  split.
  - destruct (X18_create_bin answered bin_1_again depot) as (_ & H & _).
    apply (H "BIN-001"%string); try reflexivity; [discriminate|].
    cbn. now left.
  - destruct (X18_create_bin answered bin_2_body depot) as (_ & _ & _ & _ & H).
    edestruct H as (_ & _ & _ & _ & _ & Hm); [reflexivity|].
    edestruct (Hm reliable body_bin_2 85) as (n & Hn & _); try reflexivity.
    + repeat split; try reflexivity; try discriminate.
    + eexists. exists n. split; [reflexivity|]. exact Hn.
Defined.
